(** * ki_manager: prompt building, model client, response parsing, analysis

    A shallow embedding of the analysis core of the repository:

    - [response_parser.py]  ([Module ResponseParser]),
    - [lm_studio_client.py] ([Module LMStudioClient]),
    - [promt_templates.py]  ([Module PromptTemplates]),
    - [config.py], the settings check and the helpers ([Module Config]),
    - [analysis_engine.py]  ([Module AnalysisEngine]),

    followed by the properties of these functions.

    Conventions of the embedding.
    - A Python [str] is a list of Unicode code points ([str := list N]);
      literals are written [u "..."] and decoded from UTF-8.
    - A Python [float] that carries a confidence or a score is an exact
      rational ([Q]): sums and products are exact, where the doubles of
      the interpreter round in the last place; the thresholds compared
      against (0.5) are never hit exactly by the products computed here,
      so the comparisons agree.
    - [str.lower] and the digit class of [re] follow the character data
      of the interpreter (Python 3.11, Unicode 14.0), tabulated below.
    - A raised exception is a value [Raise e] of the result type [py];
      [try]/[except] is [try_except].  Only subclasses of [Exception] are
      modelled.
    - The Python libraries [json] and [re] stay outside: the decoder and
      the regular-expression searches of the JSON strategies are the
      fields of the class [Library].
    - The server and the file system stay outside: a reply carries the
      outcome of its [json()], the decoded body or the raised decoding
      error, and a look-up of a path returns or raises. *)

From Stdlib Require Import String Ascii Bool DecimalString.
From Stdlib Require Import List ZArith NArith QArith Qminmax Qround Lia Lqa.
From Stdlib Require Import Sorting.Sorted Sorting.Permutation.
Import ListNotations.

Set Implicit Arguments.
Unset Strict Implicit.
Set Warnings "-register-all".

(* ================================================================== *)
(** * Python values *)
(* ================================================================== *)

Module Py.

(** ** Strings *)

Definition char := N.
Definition str := list char.

(** UTF-8 decoding of the bytes of a literal into code points. *)
Fixpoint utf8_decode (bs : list N) : str :=
  match bs with
  | [] => []
  | b0 :: r0 =>
    if (b0 <? 128)%N then b0 :: utf8_decode r0
    else match r0 with
    | [] => [b0]
    | b1 :: r1 =>
      if (b0 <? 224)%N then ((b0 - 192) * 64 + (b1 - 128))%N :: utf8_decode r1
      else match r1 with
      | [] => [b0; b1]
      | b2 :: r2 =>
        if (b0 <? 240)%N
        then ((b0 - 224) * 4096 + (b1 - 128) * 64 + (b2 - 128))%N :: utf8_decode r2
        else match r2 with
        | [] => [b0; b1; b2]
        | b3 :: r3 =>
          ((b0 - 240) * 262144 + (b1 - 128) * 4096 + (b2 - 128) * 64 + (b3 - 128))%N
            :: utf8_decode r3
        end
      end
    end
  end.

Definition u (s : string) : str :=
  utf8_decode (List.map N_of_ascii (list_ascii_of_string s)).

Definition char_eqb : char -> char -> bool := N.eqb.

(** [not l] and [bool(l)] for a list or a string. *)
Definition is_nil {A : Type} (l : list A) : bool :=
  match l with [] => true | _ => false end.

Definition nonempty {A : Type} (l : list A) : bool := negb (is_nil l).

Fixpoint str_eqb (a b : str) : bool :=
  match a, b with
  | [], [] => true
  | x :: a', y :: b' => char_eqb x y && str_eqb a' b'
  | _, _ => false
  end.

(** [x in xs] for a list of strings. *)
Definition str_in (x : str) (xs : list str) : bool := existsb (str_eqb x) xs.

(** [str.isspace] of one code point: the characters whose bidirectional
    class is WS, B or S, or whose category is Zs. *)
Definition is_space (c : char) : bool :=
  ((9 <=? c) && (c <=? 13) || (28 <=? c) && (c <=? 32)
   || (c =? 133) || (c =? 160) || (c =? 5760)
   || (8192 <=? c) && (c <=? 8202)
   || (c =? 8232) || (c =? 8233) || (c =? 8239) || (c =? 8287)
   || (c =? 12288))%N.

Fixpoint lstrip (s : str) : str :=
  match s with
  | c :: r => if is_space c then lstrip r else s
  | [] => []
  end.

Definition rstrip (s : str) : str := rev (lstrip (rev s)).

(** [s.strip()] *)
Definition strip (s : str) : str := rstrip (lstrip s).

(** ** The character data of Python 3.11 (Unicode 14.0)

    [str.lower], the final sigma rule of [str.lower] and the class [\d] of
    [re] on a [str] read the Unicode data base of the interpreter.  The
    tables below are that data: a range is written with its first and its
    last code point. *)

Definition in_ranges (c : char) (ranges : list (N * N)) : bool :=
  existsb (fun r => (fst r <=? c) && (c <=? snd r))%N ranges.

(** The code points with a lower-case mapping of one code point that is
    not themselves: the entry [(first, last, step, target)] maps
    [first + k * step], up to [last], to [target + k * step]. *)
Definition lowercase_table : list (N * N * N * N) :=
  [
    (65, 90, 1, 97); (192, 214, 1, 224); (216, 222, 1, 248);
    (256, 302, 2, 257); (306, 310, 2, 307); (313, 327, 2, 314);
    (330, 374, 2, 331); (376, 376, 1, 255); (377, 381, 2, 378);
    (385, 385, 1, 595); (386, 388, 2, 387); (390, 390, 1, 596);
    (391, 391, 1, 392); (393, 394, 1, 598); (395, 395, 1, 396);
    (398, 398, 1, 477); (399, 399, 1, 601); (400, 400, 1, 603);
    (401, 401, 1, 402); (403, 403, 1, 608); (404, 404, 1, 611);
    (406, 406, 1, 617); (407, 407, 1, 616); (408, 408, 1, 409);
    (412, 412, 1, 623); (413, 413, 1, 626); (415, 415, 1, 629);
    (416, 420, 2, 417); (422, 422, 1, 640); (423, 423, 1, 424);
    (425, 425, 1, 643); (428, 428, 1, 429); (430, 430, 1, 648);
    (431, 431, 1, 432); (433, 434, 1, 650); (435, 437, 2, 436);
    (439, 439, 1, 658); (440, 440, 1, 441); (444, 444, 1, 445);
    (452, 452, 1, 454); (453, 453, 1, 454); (455, 455, 1, 457);
    (456, 456, 1, 457); (458, 458, 1, 460); (459, 475, 2, 460);
    (478, 494, 2, 479); (497, 497, 1, 499); (498, 500, 2, 499);
    (502, 502, 1, 405); (503, 503, 1, 447); (504, 542, 2, 505);
    (544, 544, 1, 414); (546, 562, 2, 547); (570, 570, 1, 11365);
    (571, 571, 1, 572); (573, 573, 1, 410); (574, 574, 1, 11366);
    (577, 577, 1, 578); (579, 579, 1, 384); (580, 580, 1, 649);
    (581, 581, 1, 652); (582, 590, 2, 583); (880, 882, 2, 881);
    (886, 886, 1, 887); (895, 895, 1, 1011); (902, 902, 1, 940);
    (904, 906, 1, 941); (908, 908, 1, 972); (910, 911, 1, 973);
    (913, 929, 1, 945); (931, 939, 1, 963); (975, 975, 1, 983);
    (984, 1006, 2, 985); (1012, 1012, 1, 952); (1015, 1015, 1, 1016);
    (1017, 1017, 1, 1010); (1018, 1018, 1, 1019); (1021, 1023, 1, 891);
    (1024, 1039, 1, 1104); (1040, 1071, 1, 1072); (1120, 1152, 2, 1121);
    (1162, 1214, 2, 1163); (1216, 1216, 1, 1231); (1217, 1229, 2, 1218);
    (1232, 1326, 2, 1233); (1329, 1366, 1, 1377); (4256, 4293, 1, 11520);
    (4295, 4295, 1, 11559); (4301, 4301, 1, 11565); (5024, 5103, 1, 43888);
    (5104, 5109, 1, 5112); (7312, 7354, 1, 4304); (7357, 7359, 1, 4349);
    (7680, 7828, 2, 7681); (7838, 7838, 1, 223); (7840, 7934, 2, 7841);
    (7944, 7951, 1, 7936); (7960, 7965, 1, 7952); (7976, 7983, 1, 7968);
    (7992, 7999, 1, 7984); (8008, 8013, 1, 8000); (8025, 8031, 2, 8017);
    (8040, 8047, 1, 8032); (8072, 8079, 1, 8064); (8088, 8095, 1, 8080);
    (8104, 8111, 1, 8096); (8120, 8121, 1, 8112); (8122, 8123, 1, 8048);
    (8124, 8124, 1, 8115); (8136, 8139, 1, 8050); (8140, 8140, 1, 8131);
    (8152, 8153, 1, 8144); (8154, 8155, 1, 8054); (8168, 8169, 1, 8160);
    (8170, 8171, 1, 8058); (8172, 8172, 1, 8165); (8184, 8185, 1, 8056);
    (8186, 8187, 1, 8060); (8188, 8188, 1, 8179); (8486, 8486, 1, 969);
    (8490, 8490, 1, 107); (8491, 8491, 1, 229); (8498, 8498, 1, 8526);
    (8544, 8559, 1, 8560); (8579, 8579, 1, 8580); (9398, 9423, 1, 9424);
    (11264, 11311, 1, 11312); (11360, 11360, 1, 11361); (11362, 11362, 1, 619);
    (11363, 11363, 1, 7549); (11364, 11364, 1, 637); (11367, 11371, 2, 11368);
    (11373, 11373, 1, 593); (11374, 11374, 1, 625); (11375, 11375, 1, 592);
    (11376, 11376, 1, 594); (11378, 11378, 1, 11379); (11381, 11381, 1, 11382);
    (11390, 11391, 1, 575); (11392, 11490, 2, 11393); (11499, 11501, 2, 11500);
    (11506, 11506, 1, 11507); (42560, 42604, 2, 42561); (42624, 42650, 2, 42625);
    (42786, 42798, 2, 42787); (42802, 42862, 2, 42803); (42873, 42875, 2, 42874);
    (42877, 42877, 1, 7545); (42878, 42886, 2, 42879); (42891, 42891, 1, 42892);
    (42893, 42893, 1, 613); (42896, 42898, 2, 42897); (42902, 42920, 2, 42903);
    (42922, 42922, 1, 614); (42923, 42923, 1, 604); (42924, 42924, 1, 609);
    (42925, 42925, 1, 620); (42926, 42926, 1, 618); (42928, 42928, 1, 670);
    (42929, 42929, 1, 647); (42930, 42930, 1, 669); (42931, 42931, 1, 43859);
    (42932, 42946, 2, 42933); (42948, 42948, 1, 42900); (42949, 42949, 1, 642);
    (42950, 42950, 1, 7566); (42951, 42953, 2, 42952); (42960, 42960, 1, 42961);
    (42966, 42968, 2, 42967); (42997, 42997, 1, 42998); (65313, 65338, 1, 65345);
    (66560, 66599, 1, 66600); (66736, 66771, 1, 66776); (66928, 66938, 1, 66967);
    (66940, 66954, 1, 66979); (66956, 66962, 1, 66995); (66964, 66965, 1, 67003);
    (68736, 68786, 1, 68800); (71840, 71871, 1, 71872); (93760, 93791, 1, 93792);
    (125184, 125217, 1, 125218)
  ]%N.

(** The code points that are cased and not case-ignorable. *)
Definition cased_ranges : list (N * N) :=
  [
    (65, 90); (97, 122); (170, 170); (181, 181); (186, 186);
    (192, 214); (216, 246); (248, 442); (444, 447); (452, 659);
    (661, 687); (880, 883); (886, 887); (891, 893); (895, 895);
    (902, 902); (904, 906); (908, 908); (910, 929); (931, 1013);
    (1015, 1153); (1162, 1327); (1329, 1366); (1376, 1416); (4256, 4293);
    (4295, 4295); (4301, 4301); (4304, 4346); (4349, 4351); (5024, 5109);
    (5112, 5117); (7296, 7304); (7312, 7354); (7357, 7359); (7424, 7467);
    (7531, 7543); (7545, 7578); (7680, 7957); (7960, 7965); (7968, 8005);
    (8008, 8013); (8016, 8023); (8025, 8025); (8027, 8027); (8029, 8029);
    (8031, 8061); (8064, 8116); (8118, 8124); (8126, 8126); (8130, 8132);
    (8134, 8140); (8144, 8147); (8150, 8155); (8160, 8172); (8178, 8180);
    (8182, 8188); (8450, 8450); (8455, 8455); (8458, 8467); (8469, 8469);
    (8473, 8477); (8484, 8484); (8486, 8486); (8488, 8488); (8490, 8493);
    (8495, 8500); (8505, 8505); (8508, 8511); (8517, 8521); (8526, 8526);
    (8544, 8575); (8579, 8580); (9398, 9449); (11264, 11387); (11390, 11492);
    (11499, 11502); (11506, 11507); (11520, 11557); (11559, 11559); (11565, 11565);
    (42560, 42605); (42624, 42651); (42786, 42863); (42865, 42887); (42891, 42894);
    (42896, 42954); (42960, 42961); (42963, 42963); (42965, 42969); (42997, 42998);
    (43002, 43002); (43824, 43866); (43872, 43880); (43888, 43967); (64256, 64262);
    (64275, 64279); (65313, 65338); (65345, 65370); (66560, 66639); (66736, 66771);
    (66776, 66811); (66928, 66938); (66940, 66954); (66956, 66962); (66964, 66965);
    (66967, 66977); (66979, 66993); (66995, 67001); (67003, 67004); (68736, 68786);
    (68800, 68850); (71840, 71903); (93760, 93823); (119808, 119892); (119894, 119964);
    (119966, 119967); (119970, 119970); (119973, 119974); (119977, 119980); (119982, 119993);
    (119995, 119995); (119997, 120003); (120005, 120069); (120071, 120074); (120077, 120084);
    (120086, 120092); (120094, 120121); (120123, 120126); (120128, 120132); (120134, 120134);
    (120138, 120144); (120146, 120485); (120488, 120512); (120514, 120538); (120540, 120570);
    (120572, 120596); (120598, 120628); (120630, 120654); (120656, 120686); (120688, 120712);
    (120714, 120744); (120746, 120770); (120772, 120779); (122624, 122633); (122635, 122654);
    (125184, 125251); (127280, 127305); (127312, 127337); (127344, 127369)
  ]%N.

(** The case-ignorable code points. *)
Definition case_ignorable_ranges : list (N * N) :=
  [
    (39, 39); (46, 46); (58, 58); (94, 94); (96, 96);
    (168, 168); (173, 173); (175, 175); (180, 180); (183, 184);
    (688, 879); (884, 885); (890, 890); (900, 901); (903, 903);
    (1155, 1161); (1369, 1369); (1375, 1375); (1425, 1469); (1471, 1471);
    (1473, 1474); (1476, 1477); (1479, 1479); (1524, 1524); (1536, 1541);
    (1552, 1562); (1564, 1564); (1600, 1600); (1611, 1631); (1648, 1648);
    (1750, 1757); (1759, 1768); (1770, 1773); (1807, 1807); (1809, 1809);
    (1840, 1866); (1958, 1968); (2027, 2037); (2042, 2042); (2045, 2045);
    (2070, 2093); (2137, 2139); (2184, 2184); (2192, 2193); (2200, 2207);
    (2249, 2306); (2362, 2362); (2364, 2364); (2369, 2376); (2381, 2381);
    (2385, 2391); (2402, 2403); (2417, 2417); (2433, 2433); (2492, 2492);
    (2497, 2500); (2509, 2509); (2530, 2531); (2558, 2558); (2561, 2562);
    (2620, 2620); (2625, 2626); (2631, 2632); (2635, 2637); (2641, 2641);
    (2672, 2673); (2677, 2677); (2689, 2690); (2748, 2748); (2753, 2757);
    (2759, 2760); (2765, 2765); (2786, 2787); (2810, 2815); (2817, 2817);
    (2876, 2876); (2879, 2879); (2881, 2884); (2893, 2893); (2901, 2902);
    (2914, 2915); (2946, 2946); (3008, 3008); (3021, 3021); (3072, 3072);
    (3076, 3076); (3132, 3132); (3134, 3136); (3142, 3144); (3146, 3149);
    (3157, 3158); (3170, 3171); (3201, 3201); (3260, 3260); (3263, 3263);
    (3270, 3270); (3276, 3277); (3298, 3299); (3328, 3329); (3387, 3388);
    (3393, 3396); (3405, 3405); (3426, 3427); (3457, 3457); (3530, 3530);
    (3538, 3540); (3542, 3542); (3633, 3633); (3636, 3642); (3654, 3662);
    (3761, 3761); (3764, 3772); (3782, 3782); (3784, 3789); (3864, 3865);
    (3893, 3893); (3895, 3895); (3897, 3897); (3953, 3966); (3968, 3972);
    (3974, 3975); (3981, 3991); (3993, 4028); (4038, 4038); (4141, 4144);
    (4146, 4151); (4153, 4154); (4157, 4158); (4184, 4185); (4190, 4192);
    (4209, 4212); (4226, 4226); (4229, 4230); (4237, 4237); (4253, 4253);
    (4348, 4348); (4957, 4959); (5906, 5908); (5938, 5939); (5970, 5971);
    (6002, 6003); (6068, 6069); (6071, 6077); (6086, 6086); (6089, 6099);
    (6103, 6103); (6109, 6109); (6155, 6159); (6211, 6211); (6277, 6278);
    (6313, 6313); (6432, 6434); (6439, 6440); (6450, 6450); (6457, 6459);
    (6679, 6680); (6683, 6683); (6742, 6742); (6744, 6750); (6752, 6752);
    (6754, 6754); (6757, 6764); (6771, 6780); (6783, 6783); (6823, 6823);
    (6832, 6862); (6912, 6915); (6964, 6964); (6966, 6970); (6972, 6972);
    (6978, 6978); (7019, 7027); (7040, 7041); (7074, 7077); (7080, 7081);
    (7083, 7085); (7142, 7142); (7144, 7145); (7149, 7149); (7151, 7153);
    (7212, 7219); (7222, 7223); (7288, 7293); (7376, 7378); (7380, 7392);
    (7394, 7400); (7405, 7405); (7412, 7412); (7416, 7417); (7468, 7530);
    (7544, 7544); (7579, 7679); (8125, 8125); (8127, 8129); (8141, 8143);
    (8157, 8159); (8173, 8175); (8189, 8190); (8203, 8207); (8216, 8217);
    (8228, 8228); (8231, 8231); (8234, 8238); (8288, 8292); (8294, 8303);
    (8305, 8305); (8319, 8319); (8336, 8348); (8400, 8432); (11388, 11389);
    (11503, 11505); (11631, 11631); (11647, 11647); (11744, 11775); (11823, 11823);
    (12293, 12293); (12330, 12333); (12337, 12341); (12347, 12347); (12441, 12446);
    (12540, 12542); (40981, 40981); (42232, 42237); (42508, 42508); (42607, 42610);
    (42612, 42621); (42623, 42623); (42652, 42655); (42736, 42737); (42752, 42785);
    (42864, 42864); (42888, 42890); (42994, 42996); (43000, 43001); (43010, 43010);
    (43014, 43014); (43019, 43019); (43045, 43046); (43052, 43052); (43204, 43205);
    (43232, 43249); (43263, 43263); (43302, 43309); (43335, 43345); (43392, 43394);
    (43443, 43443); (43446, 43449); (43452, 43453); (43471, 43471); (43493, 43494);
    (43561, 43566); (43569, 43570); (43573, 43574); (43587, 43587); (43596, 43596);
    (43632, 43632); (43644, 43644); (43696, 43696); (43698, 43700); (43703, 43704);
    (43710, 43711); (43713, 43713); (43741, 43741); (43756, 43757); (43763, 43764);
    (43766, 43766); (43867, 43871); (43881, 43883); (44005, 44005); (44008, 44008);
    (44013, 44013); (64286, 64286); (64434, 64450); (65024, 65039); (65043, 65043);
    (65056, 65071); (65106, 65106); (65109, 65109); (65279, 65279); (65287, 65287);
    (65294, 65294); (65306, 65306); (65342, 65342); (65344, 65344); (65392, 65392);
    (65438, 65439); (65507, 65507); (65529, 65531); (66045, 66045); (66272, 66272);
    (66422, 66426); (67456, 67461); (67463, 67504); (67506, 67514); (68097, 68099);
    (68101, 68102); (68108, 68111); (68152, 68154); (68159, 68159); (68325, 68326);
    (68900, 68903); (69291, 69292); (69446, 69456); (69506, 69509); (69633, 69633);
    (69688, 69702); (69744, 69744); (69747, 69748); (69759, 69761); (69811, 69814);
    (69817, 69818); (69821, 69821); (69826, 69826); (69837, 69837); (69888, 69890);
    (69927, 69931); (69933, 69940); (70003, 70003); (70016, 70017); (70070, 70078);
    (70089, 70092); (70095, 70095); (70191, 70193); (70196, 70196); (70198, 70199);
    (70206, 70206); (70367, 70367); (70371, 70378); (70400, 70401); (70459, 70460);
    (70464, 70464); (70502, 70508); (70512, 70516); (70712, 70719); (70722, 70724);
    (70726, 70726); (70750, 70750); (70835, 70840); (70842, 70842); (70847, 70848);
    (70850, 70851); (71090, 71093); (71100, 71101); (71103, 71104); (71132, 71133);
    (71219, 71226); (71229, 71229); (71231, 71232); (71339, 71339); (71341, 71341);
    (71344, 71349); (71351, 71351); (71453, 71455); (71458, 71461); (71463, 71467);
    (71727, 71735); (71737, 71738); (71995, 71996); (71998, 71998); (72003, 72003);
    (72148, 72151); (72154, 72155); (72160, 72160); (72193, 72202); (72243, 72248);
    (72251, 72254); (72263, 72263); (72273, 72278); (72281, 72283); (72330, 72342);
    (72344, 72345); (72752, 72758); (72760, 72765); (72767, 72767); (72850, 72871);
    (72874, 72880); (72882, 72883); (72885, 72886); (73009, 73014); (73018, 73018);
    (73020, 73021); (73023, 73029); (73031, 73031); (73104, 73105); (73109, 73109);
    (73111, 73111); (73459, 73460); (78896, 78904); (92912, 92916); (92976, 92982);
    (92992, 92995); (94031, 94031); (94095, 94111); (94176, 94177); (94179, 94180);
    (110576, 110579); (110581, 110587); (110589, 110590); (113821, 113822); (113824, 113827);
    (118528, 118573); (118576, 118598); (119143, 119145); (119155, 119170); (119173, 119179);
    (119210, 119213); (119362, 119364); (121344, 121398); (121403, 121452); (121461, 121461);
    (121476, 121476); (121499, 121503); (121505, 121519); (122880, 122886); (122888, 122904);
    (122907, 122913); (122915, 122916); (122918, 122922); (123184, 123197); (123566, 123566);
    (123628, 123631); (125136, 125142); (125252, 125259); (127995, 127999); (917505, 917505);
    (917536, 917631); (917760, 917999)
  ]%N.

(** The decimal digits, the class [\d] of a pattern on a [str]. *)
Definition decimal_ranges : list (N * N) :=
  [
    (48, 57); (1632, 1641); (1776, 1785); (1984, 1993); (2406, 2415);
    (2534, 2543); (2662, 2671); (2790, 2799); (2918, 2927); (3046, 3055);
    (3174, 3183); (3302, 3311); (3430, 3439); (3558, 3567); (3664, 3673);
    (3792, 3801); (3872, 3881); (4160, 4169); (4240, 4249); (6112, 6121);
    (6160, 6169); (6470, 6479); (6608, 6617); (6784, 6793); (6800, 6809);
    (6992, 7001); (7088, 7097); (7232, 7241); (7248, 7257); (42528, 42537);
    (43216, 43225); (43264, 43273); (43472, 43481); (43504, 43513); (43600, 43609);
    (44016, 44025); (65296, 65305); (66720, 66729); (68912, 68921); (69734, 69743);
    (69872, 69881); (69942, 69951); (70096, 70105); (70384, 70393); (70736, 70745);
    (70864, 70873); (71248, 71257); (71360, 71369); (71472, 71481); (71904, 71913);
    (72016, 72025); (72784, 72793); (73040, 73049); (73120, 73129); (92768, 92777);
    (92864, 92873); (93008, 93017); (120782, 120831); (123200, 123209); (123632, 123641);
    (125264, 125273); (130032, 130041)
  ]%N.

Fixpoint lower_in (c : char) (table : list (N * N * N * N)) : char :=
  match table with
  | [] => c
  | (first, last, step, target) :: table' =>
    if ((first <=? c) && (c <=? last) && ((c - first) mod step =? 0))%N
    then (target + (c - first))%N
    else lower_in c table'
  end.

(** The lower-case mapping of one code point, where it is one code point. *)
Definition lower_char (c : char) : char := lower_in c lowercase_table.

Definition cased (c : char) : bool := in_ranges c cased_ranges.
Definition case_ignorable (c : char) : bool := in_ranges c case_ignorable_ranges.

(** The first code point of a text that is not case-ignorable. *)
Fixpoint skip_ignorable (s : str) : option char :=
  match s with
  | [] => None
  | c :: r => if case_ignorable c then skip_ignorable r else Some c
  end.

(** The capital sigma is final when a cased letter stands before it and
    none after it, case-ignorable code points skipped; [before] is the
    text before it, read backwards. *)
Definition final_sigma (before after : str) : bool :=
  match skip_ignorable before with
  | Some c =>
    cased c
    && match skip_ignorable after with
       | Some c' => negb (cased c')
       | None => true
       end
  | None => false
  end.

(** [str.lower]: code point by code point, the capital sigma (931) by its
    place, the capital I with dot above (304) to two code points. *)
Fixpoint lower_from (before s : str) : str :=
  match s with
  | [] => []
  | c :: r =>
    (if (c =? 931)%N then [if final_sigma before r then 962%N else 963%N]
     else if (c =? 304)%N then [105%N; 775%N]
     else [lower_char c])
    ++ lower_from (c :: before) r
  end.

Definition lower (s : str) : str := lower_from [] s.

Fixpoint starts_with (p s : str) : bool :=
  match p, s with
  | [], _ => true
  | x :: p', y :: s' => char_eqb x y && starts_with p' s'
  | _ :: _, [] => false
  end.

(** [needle in hay] for strings. *)
Fixpoint contains (needle hay : str) : bool :=
  starts_with needle hay ||
  match hay with
  | [] => false
  | _ :: hay' => contains needle hay'
  end.

(** [any(w in s for w in ws)] *)
Definition contains_any (ws : list str) (s : str) : bool :=
  existsb (fun w => contains w s) ws.

Definition LF : char := 10%N.

(** [s.split('\n')] *)
Fixpoint split_lines_aux (cur : str) (s : str) : list str :=
  match s with
  | [] => [rev cur]
  | c :: r =>
    if char_eqb c LF then rev cur :: split_lines_aux [] r
    else split_lines_aux (c :: cur) r
  end.

Definition split_lines (s : str) : list str := split_lines_aux [] s.

(** [s.split('\n\n')]: cuts at each pair of line feeds, left to right. *)
Fixpoint split_paragraphs_aux (cur : str) (s : str) : list str :=
  match s with
  | [] => [rev cur]
  | c :: r =>
    match r with
    | c' :: r' =>
      if char_eqb c LF && char_eqb c' LF
      then rev cur :: split_paragraphs_aux [] r'
      else split_paragraphs_aux (c :: cur) r
    | [] => [rev (c :: cur)]
    end
  end.

Definition split_paragraphs (s : str) : list str := split_paragraphs_aux [] s.

(** [sep.join(parts)] *)
Fixpoint join (sep : str) (parts : list str) : str :=
  match parts with
  | [] => []
  | [p] => p
  | p :: rest => p ++ sep ++ join sep rest
  end.

(** [s[:n]] and [s[a:b]] for indices within range semantics of slices. *)
Definition take (n : nat) (s : str) : str := firstn n s.
Definition slice (a b : nat) (s : str) : str := firstn (b - a) (skipn a s).

(** [str(n)] for an integer. *)
Definition str_of_Z (z : Z) : str := u (NilZero.string_of_int (Z.to_int z)).

(** ** Decoded JSON documents

    What [json.loads] returns: [None], [bool], [int], [float], [str],
    [list] and [dict] (insertion ordered, keys are strings). *)

Inductive json : Type :=
| JNull
| JBool (b : bool)
| JInt (z : Z)
| JFloat (q : Q)
| JStr (s : str)
| JList (l : list json)
| JDict (d : list (str * json)).

Definition dict := list (str * json).

(** [d.get(k)] as an option, [k in d], [d.get(k, default)], [d[k] = v]. *)
Fixpoint lookup {V : Type} (k : str) (d : list (str * V)) : option V :=
  match d with
  | [] => None
  | (k', v) :: d' => if str_eqb k k' then Some v else lookup k d'
  end.

Definition has_key {V : Type} (k : str) (d : list (str * V)) : bool :=
  match lookup k d with Some _ => true | None => false end.

Definition get {V : Type} (k : str) (default : V) (d : list (str * V)) : V :=
  match lookup k d with Some v => v | None => default end.

Fixpoint set_item {V : Type} (k : str) (v : V) (d : list (str * V)) : list (str * V) :=
  match d with
  | [] => [(k, v)]
  | (k', v') :: d' =>
    if str_eqb k k' then (k', v) :: d' else (k', v') :: set_item k v d'
  end.

(** [isinstance(v, dict)], [isinstance(v, list)], truth value [bool(v)]. *)
Definition is_dict (v : json) : bool :=
  match v with JDict _ => true | _ => false end.

Definition truthy (v : json) : bool :=
  match v with
  | JNull => false
  | JBool b => b
  | JInt z => negb (z =? 0)%Z
  | JFloat q => negb (Qeq_bool q 0)
  | JStr s => match s with [] => false | _ => true end
  | JList l => match l with [] => false | _ => true end
  | JDict d => match d with [] => false | _ => true end
  end.

(** [type(v).__name__] *)
Definition type_name (v : json) : str :=
  match v with
  | JNull => u "NoneType"
  | JBool _ => u "bool"
  | JInt _ => u "int"
  | JFloat _ => u "float"
  | JStr _ => u "str"
  | JList _ => u "list"
  | JDict _ => u "dict"
  end.

(** [v == "text"] against a string literal. *)
Definition eq_text (v : json) (s : str) : bool :=
  match v with JStr t => str_eqb t s | _ => false end.

(** ** Exceptions and results *)

Inductive exn_class :=
| ValueError | JSONDecodeError | AttributeError | TypeError | KeyError
| IndexError | Timeout | RequestException | LMStudioError
| AnalysisEngineError | OtherError.

(** An exception: its class and [str(e)]. *)
Record exn := Exn { exn_cls : exn_class; exn_msg : str }.

Inductive py (A : Type) : Type :=
| Ok (a : A)
| Raise (e : exn).
Arguments Ok {A} a.
Arguments Raise {A} e.

Definition bind {A B : Type} (c : py A) (k : A -> py B) : py B :=
  match c with
  | Ok a => k a
  | Raise e => Raise e
  end.

Definition class_eqb (a b : exn_class) : bool :=
  match a, b with
  | ValueError, ValueError | JSONDecodeError, JSONDecodeError
  | AttributeError, AttributeError | TypeError, TypeError
  | KeyError, KeyError | IndexError, IndexError | Timeout, Timeout
  | RequestException, RequestException | LMStudioError, LMStudioError
  | AnalysisEngineError, AnalysisEngineError | OtherError, OtherError => true
  | _, _ => false
  end.

(** [try: c  except <classes> as e: h e]; other exceptions pass. *)
Definition try_except {A : Type} (c : py A) (catches : exn_class -> bool)
  (h : exn -> py A) : py A :=
  match c with
  | Ok a => Ok a
  | Raise e => if catches (exn_cls e) then h e else Raise e
  end.

(** [except Exception] *)
Definition any_exception (_ : exn_class) : bool := true.

(** [v.lower()] on a decoded value: only a [str] has the method. *)
Definition py_lower (v : json) : py str :=
  match v with
  | JStr s => Ok (lower s)
  | _ => Raise (Exn AttributeError
                 ([39%N] ++ type_name v ++ u "' object has no attribute 'lower'"))
  end.

(** ** The library interface

    [json.loads], the searches of [re], the rendering [str(v)] of a
    decoded value and the format [.1%] of a float are library code: they
    are the fields of [Library].
    [json_pattern] names the four entries of [self.json_patterns] of the
    parser (fenced block tagged json, any fenced block, the widest object
    span, the widest array span; [re.findall] with [DOTALL | IGNORECASE]
    returns group 1, or the whole match where the pattern has no group).
    [repair] names the six substitutions of [_clean_json_string], in
    their order. *)

Inductive json_pattern := FencedJson | FencedAny | ObjectSpan | ArraySpan.

Inductive repair :=
| DropFenceOpen | DropFenceClose | QuoteKeys | QuoteValues
| DropCommaBeforeBrace | DropCommaBeforeBracket.

Class Library := {
  json_loads : str -> py json;
  re_findall : json_pattern -> str -> list str;
  re_sub : repair -> str -> str;
  str_of_json : json -> str;
  format_percent : Q -> str
}.

(** [a > b] on scores. *)
Definition Qgtb (a b : Q) : bool := negb (Qle_bool a b).

End Py.

Export Py.

Declare Scope py_scope.
Notation "x <- c ;; k" := (bind c (fun x => k))
  (at level 61, c at next level, right associativity) : py_scope.
Open Scope py_scope.

(* ================================================================== *)
(** * response_parser.py *)
(* ================================================================== *)

Module ResponseParser.

(** [class ParseResult] *)
Record ParseResult := mkParseResult {
  success : bool;
  data : json;
  format_detected : str;
  confidence : Q;
  errors : list str;
  warnings : list str
}.

(** [self.expected_fields] *)
Definition expected_fields : list (str * list str) :=
  [ (u "structured_json",
      [u "zusammenfassung"; u "handlungsschritte"; u "technische_loesungen";
       u "risiken"; u "chancen"; u "erfolgsmessung"; u "naechste_schritte"]);
    (u "quick_json",
      [u "machbarkeit"; u "aufwand"; u "kosten"; u "zeitrahmen"; u "empfehlung"]);
    (u "roi_json",
      [u "investition"; u "einsparungen"; u "roi"; u "empfehlung"]);
    (u "implementation_json",
      [u "projektphasen"; u "ressourcen"; u "timeline"; u "erfolgskriterien"]) ].

(** [_detect_format] *)
Definition _detect_format (response : str) : str :=
  let response_lower := lower response in
  if contains_any [u "{"; u "}"; u "["; u "]"] response then
    if contains (u "projektphasen") response_lower then u "implementation_json"
    else if contains (u "machbarkeit") response_lower then u "quick_json"
    else if contains (u "investition") response_lower
            || contains (u "roi") response_lower then u "roi_json"
    else u "structured_json"
  else u "text".

(** ** Structural validation *)

(** [len(xs) / len(ys)] *)
Definition ratio (present total : nat) : Q :=
  inject_Z (Z.of_nat present) / inject_Z (Z.of_nat total).

Definition present_in (fields : list str) (d : dict) : list str :=
  filter (fun f => has_key f d) fields.

Definition missing_in (fields : list str) (d : dict) : list str :=
  filter (fun f => negb (has_key f d)) fields.

Definition required_step_fields : list str :=
  [u "titel"; u "beschreibung"; u "prioritaet"].

(** One turn of the loop over [steps] in [_validate_analysis_structure]. *)
Definition step_factor (step : json) : Q :=
  match step with
  | JDict s =>
    ratio (length (present_in required_step_fields s)) (length required_step_fields)
  | _ => 8 # 10
  end.

(** [_validate_analysis_structure] *)
Definition _validate_analysis_structure (d : dict) : Q :=
  let quality_score := 1 in
  let quality_score :=
    match get (u "handlungsschritte") (JList []) d with
    | JList steps => fold_left (fun q step => q * step_factor step) steps quality_score
    | _ => quality_score
    end in
  let quality_score :=
    match get (u "technische_loesungen") (JList []) d with
    | JList (_ :: _) => quality_score * (11 # 10)
    | _ => quality_score
    end in
  Qmin quality_score 1.

Definition valid_feasibility : list str :=
  [u "sehr gut"; u "gut"; u "mittel"; u "schwierig"; u "unrealistisch"].

Definition valid_recommendations : list str :=
  [u "go"; u "no-go"; u "überdenken"].

(** [_validate_feasibility_structure] *)
Definition _validate_feasibility_structure (d : dict) : py Q :=
  let quality_score := 1 in
  feasibility <- py_lower (get (u "machbarkeit") (JStr []) d) ;;
  let quality_score :=
    if negb (str_in feasibility valid_feasibility)
    then quality_score * (7 # 10) else quality_score in
  recommendation <- py_lower (get (u "empfehlung") (JStr []) d) ;;
  let quality_score :=
    if negb (str_in recommendation valid_recommendations)
    then quality_score * (8 # 10) else quality_score in
  Ok quality_score.

(** The dictionary returned by [_validate_structure]. *)
Record Validation := mkValidation {
  valid : bool;
  v_confidence : Q;
  v_errors : list str;
  v_warnings : list str
}.

(** [repr] of a list of field names. *)
Definition repr_fields (l : list str) : str :=
  u "[" ++ join (u ", ") (List.map (fun f => [39%N] ++ f ++ [39%N]) l) ++ u "]".

(** [_validate_structure] *)
Definition _validate_structure (data : json) (expected_format : str) : py Validation :=
  match data with
  | JDict d =>
    let fields := get expected_format [] expected_fields in
    if negb (is_nil fields) then
      let present_fields := present_in fields d in
      let missing_fields := missing_in fields d in
      let confidence := ratio (length present_fields) (length fields) in
      let errors :=
        if negb (is_nil missing_fields)
           && (length missing_fields =? length fields)%nat
        then [u "Keine erwarteten Felder gefunden: " ++ repr_fields missing_fields]
        else [] in
      let warnings :=
        if negb (is_nil missing_fields)
           && negb (length missing_fields =? length fields)%nat
        then [u "Fehlende Felder: " ++ repr_fields missing_fields]
        else [] in
      confidence <-
        (if str_eqb expected_format (u "structured_json")
         then Ok (confidence * _validate_analysis_structure d)
         else if str_eqb expected_format (u "quick_json")
         then (q <- _validate_feasibility_structure d ;; Ok (confidence * q))
         else Ok confidence) ;;
      Ok (mkValidation (Qgtb confidence (5 # 10) && is_nil errors)
                       confidence errors warnings)
    else
      let confidence := if truthy data then 7 # 10 else 0 in
      Ok (mkValidation (Qgtb confidence (5 # 10) && true) confidence [] [])
  | _ =>
    Ok (mkValidation false 0 [u "Response ist kein Dictionary"] [])
  end.

(** ** Extraction from free text *)

Fixpoint take_while (f : char -> bool) (s : str) : str :=
  match s with
  | c :: r => if f c then c :: take_while f r else []
  | [] => []
  end.

Fixpoint drop_while (f : char -> bool) (s : str) : str :=
  match s with
  | c :: r => if f c then drop_while f r else s
  | [] => []
  end.

Definition is_char (c : char) : char -> bool := fun x => char_eqb x c.
Definition not_char (c : char) : char -> bool := fun x => negb (char_eqb x c).

Definition STAR : char := 42%N.
Definition HASH : char := 35%N.
Definition COLON : char := 58%N.

(** [re.match(r'^\*\*([^*]+)\*\*:?\s*$', line)], group 1. *)
Definition match_bold_heading (line : str) : option str :=
  if starts_with [STAR; STAR] line then
    let rest := skipn 2 line in
    let g := take_while (not_char STAR) rest in
    let after := drop_while (not_char STAR) rest in
    if negb (is_nil g) && starts_with [STAR; STAR] after then
      let tail := skipn 2 after in
      let tail := if starts_with [COLON] tail then skipn 1 tail else tail in
      if forallb is_space tail then Some g else None
    else None
  else None.

(** [re.match(r'^#+\s*([^#\n]+)$', line)], group 1. *)
Definition match_hash_heading (line : str) : option str :=
  if starts_with [HASH] line then
    let rest := drop_while (is_char HASH) line in
    let body := lstrip rest in
    match body with
    | _ :: _ => if forallb (not_char HASH) body then Some body else None
    | [] => match rev rest with
            | c :: _ => Some [c]
            | [] => None
            end
    end
  else None.

(** The class [[A-ZÄÖÜ]]. *)
Definition is_heading_capital (c : char) : bool :=
  ((65 <=? c) && (c <=? 90) || (c =? 196) || (c =? 214) || (c =? 220))%N.

(** [re.match] of the third heading pattern, a capital of [[A-ZÄÖÜ]]
    followed by characters other than a colon, then a colon that ends the
    line; group 1 is the text before that colon. *)
Definition match_label_heading (line : str) : option str :=
  match line with
  | c :: rest =>
    if is_heading_capital c then
      let body := take_while (not_char COLON) rest in
      match drop_while (not_char COLON) rest with
      | [_] => Some (c :: body)
      | _ => None
      end
    else None
  | [] => None
  end.

(** The first of [heading_patterns] that matches a stripped line. *)
Definition match_heading (line : str) : option str :=
  match match_bold_heading line with
  | Some g => Some g
  | None =>
    match match_hash_heading line with
    | Some g => Some g
    | None => match_label_heading line
    end
  end.

(** The state of the loop of [_find_text_sections]. *)
Record section_state := mkSectionState {
  sections : list (str * str);
  current_section : option str;
  current_content : list str
}.

(** [if current_section and current_content: sections[...] = ...] *)
Definition save_section (st : section_state) : list (str * str) :=
  match current_section st with
  | Some title =>
    if nonempty title && negb (is_nil (current_content st))
    then set_item title (join [LF] (current_content st)) (sections st)
    else sections st
  | None => sections st
  end.

Definition section_step (st : section_state) (line : str) : section_state :=
  let line := strip line in
  if is_nil line then st
  else match match_heading line with
  | Some g => mkSectionState (save_section st) (Some (strip g)) []
  | None =>
    match current_section st with
    | Some title =>
      if nonempty title
      then mkSectionState (sections st) (current_section st)
                          (current_content st ++ [line])
      else st
    | None => st
    end
  end.

(** [_find_text_sections] *)
Definition _find_text_sections (text : str) : list (str * str) :=
  save_section
    (fold_left section_step (split_lines text) (mkSectionState [] None [])).

Definition section_mappings : list (str * list (str * list str)) :=
  [ (u "structured_json",
      [ (u "zusammenfassung", [u "zusammenfassung"; u "summary"; u "einschätzung"]);
        (u "handlungsschritte",
           [u "handlungsschritte"; u "schritte"; u "maßnahmen"; u "actions"]);
        (u "technische_loesungen",
           [u "technische"; u "lösungen"; u "solutions"; u "tools"]);
        (u "risiken", [u "risiken"; u "risks"; u "gefahren"]);
        (u "chancen", [u "chancen"; u "opportunities"; u "vorteile"]);
        (u "naechste_schritte", [u "nächste"; u "next steps"; u "empfehlungen"]) ]);
    (u "quick_json",
      [ (u "machbarkeit", [u "machbarkeit"; u "feasibility"]);
        (u "aufwand", [u "aufwand"; u "effort"]);
        (u "empfehlung", [u "empfehlung"; u "recommendation"]) ]) ].

Fixpoint first_field (title_lower : str) (m : list (str * list str)) : option str :=
  match m with
  | [] => None
  | (field, keywords) :: m' =>
    if contains_any keywords title_lower then Some field
    else first_field title_lower m'
  end.

(** [_map_section_to_field] *)
Definition _map_section_to_field (section_title expected_format : str) : option str :=
  let title_lower := lower section_title in
  first_field title_lower (get expected_format [] section_mappings).

(** The class [\d] of a pattern. *)
Definition is_digit (c : char) : bool := in_ranges c decimal_ranges.
Definition is_bullet (c : char) : bool :=
  ((c =? 45) || (c =? 42) || (c =? 8226))%N.
Definition is_lower_letter (c : char) : bool := ((97 <=? c) && (c <=? 122))%N.

(** Group [(.+)] after [\s*] at the end of a list pattern: the rest of
    the line without leading white space, or its last character when it
    is all white space. *)
Definition item_group (rest : str) : option str :=
  match lstrip rest with
  | (_ :: _) as g => Some g
  | [] => match rev rest with
          | c :: _ => Some [c]
          | [] => None
          end
  end.

(** [re.match(r'^\s*[-*•]\s*(.+)$', line)] *)
Definition match_bullet_item (line : str) : option str :=
  match lstrip line with
  | c :: rest => if is_bullet c then item_group rest else None
  | [] => None
  end.

(** [re.match(r'^\s*\d+\.\s*(.+)$', line)] *)
Definition match_numbered_item (line : str) : option str :=
  let body := lstrip line in
  if is_nil (take_while is_digit body) then None
  else match drop_while is_digit body with
  | c :: rest => if char_eqb c 46%N then item_group rest else None
  | [] => None
  end.

(** [re.match(r'^\s*[a-z]\)\s*(.+)$', line)] *)
Definition match_lettered_item (line : str) : option str :=
  match lstrip line with
  | c :: c' :: rest =>
    if is_lower_letter c && char_eqb c' 41%N then item_group rest else None
  | _ => None
  end.

Definition match_list_item (line : str) : option str :=
  match match_bullet_item line with
  | Some g => Some g
  | None =>
    match match_numbered_item line with
    | Some g => Some g
    | None => match_lettered_item line
    end
  end.

(** [lists[key].append(item)] *)
Definition append_to (key : str) (item : str) (lists : list (str * list str))
  : list (str * list str) :=
  set_item key (get key [] lists ++ [item]) lists.

Definition list_step (lists : list (str * list str)) (line : str)
  : list (str * list str) :=
  match match_list_item line with
  | Some g =>
    let item := strip g in
    let item_lower := lower item in
    if contains_any [u "schritt"; u "maßnahme"; u "aktion"] item_lower
    then append_to (u "schritte") item lists
    else if contains_any [u "empfehlung"; u "sollte"; u "muss"] item_lower
    then append_to (u "empfehlungen") item lists
    else append_to (u "allgemein") item lists
  | None => lists
  end.

(** [_extract_lists_from_text] *)
Definition _extract_lists_from_text (text : str) : list (str * list str) :=
  fold_left list_step (split_lines text)
    [ (u "schritte", []); (u "empfehlungen", []); (u "allgemein", []) ].

Definition strings (l : list str) : json := JList (List.map JStr l).

(** One turn of the loop of [_extract_structured_text] over the
    sections: the data extracted so far and the confidence. *)
Definition section_fold (expected_format : str) (acc : dict * Q) (sec : str * str)
  : dict * Q :=
  let '(extracted_data, confidence) := acc in
  match _map_section_to_field (fst sec) expected_format with
  | Some mapped_field =>
    (set_item mapped_field (JStr (strip (snd sec))) extracted_data,
     confidence + (1 # 10))
  | None => acc
  end.

(** [_extract_structured_text] *)
Definition _extract_structured_text (response expected_format : str) : ParseResult :=
  let '(extracted_data, confidence) :=
    fold_left (section_fold expected_format)
      (_find_text_sections response) ([], 4 # 10) in
  let lists := _extract_lists_from_text response in
  let '(extracted_data, confidence) :=
    if negb (is_nil lists) then
      (if str_eqb expected_format (u "structured_json") then
         set_item (u "naechste_schritte") (strings (get (u "empfehlungen") [] lists))
           (set_item (u "handlungsschritte") (strings (get (u "schritte") [] lists))
              extracted_data)
       else extracted_data,
       confidence + (2 # 10))
    else (extracted_data, confidence) in
  mkParseResult (truthy (JDict extracted_data)) (JDict extracted_data)
    (u "structured_text") (Qmin confidence 1) []
    [u "Strukturierte Text-Extraktion - möglicherweise unvollständig"].

(** [_extract_feasibility_from_text] *)
Definition _extract_feasibility_from_text (text : str) : dict :=
  let text_lower := lower text in
  let feasibility :=
    if contains_any [u "sehr gut"; u "excellent"; u "einfach"] text_lower
    then u "sehr gut"
    else if contains_any [u "gut"; u "machbar"; u "realistisch"] text_lower
    then u "gut"
    else if contains_any [u "schwierig"; u "herausfordernd"; u "komplex"] text_lower
    then u "schwierig"
    else if contains_any [u "unrealistisch"; u "unmöglich"; u "nicht machbar"] text_lower
    then u "unrealistisch"
    else u "mittel" in
  let effort :=
    if contains_any [u "geringer aufwand"; u "wenig aufwand"; u "einfach"] text_lower
    then u "gering"
    else if contains_any [u "hoher aufwand"; u "sehr aufwendig"; u "kompliziert"] text_lower
    then u "hoch"
    else u "mittel" in
  let recommendation :=
    if contains (u "empfehlung") text_lower && contains (u "ja") text_lower
    then u "go"
    else if contains_any [u "nicht empfohlen"; u "nein"; u "stoppen"] text_lower
    then u "no-go"
    else if str_in feasibility [u "sehr gut"; u "gut"]
            && str_in effort [u "gering"; u "mittel"]
    then u "go"
    else u "überdenken" in
  [ (u "machbarkeit", JStr feasibility);
    (u "aufwand", JStr effort);
    (u "empfehlung", JStr recommendation);
    (u "begruendung", JStr (u "Aus Freitext extrahiert")) ].

(** [[p.strip() for p in text.split('\n\n') if p.strip()]] *)
Definition paragraphs (text : str) : list str :=
  filter nonempty (List.map strip (split_paragraphs text)).

(** [_extract_analysis_from_text] *)
Definition _extract_analysis_from_text (text : str) : dict :=
  let summary :=
    match paragraphs text with
    | p :: _ => p
    | [] => u "Keine Zusammenfassung verfügbar"
    end in
  let lists := _extract_lists_from_text text in
  let schritte := get (u "schritte") [] lists in
  let empfehlungen := get (u "empfehlungen") [] lists in
  let allgemein := get (u "allgemein") [] lists in
  [ (u "zusammenfassung", JStr summary);
    (u "handlungsschritte",
       JList (List.map (fun item => JDict [ (u "titel", JStr item);
                                           (u "beschreibung", JStr item) ])
                       schritte));
    (u "naechste_schritte",
       strings (if is_nil empfehlungen then allgemein else empfehlungen)) ].

(** [_extract_summary] *)
Definition _extract_summary (text : str) : str :=
  match paragraphs text with
  | summary :: _ =>
    if (300 <? length summary)%nat then take 297 summary ++ u "..." else summary
  | [] => u "Keine Zusammenfassung verfügbar"
  end.

(** [_extract_recommendations] *)
Definition _extract_recommendations (text : str) : list str :=
  filter
    (fun line =>
       contains_any [u "empfehlung"; u "sollte"; u "muss"; u "wichtig";
                     u "nächster schritt"] (lower line))
    (List.map strip (split_lines text)).

(** [_parse_fallback_text] *)
Definition _parse_fallback_text (response expected_format : str) : py ParseResult :=
  let confidence := 3 # 10 in
  let extracted_data :=
    if str_eqb expected_format (u "quick_json")
    then _extract_feasibility_from_text response
    else if str_eqb expected_format (u "structured_json")
    then _extract_analysis_from_text response
    else [ (u "zusammenfassung", JStr (_extract_summary response));
           (u "empfehlungen", strings (_extract_recommendations response)) ] in
  Ok (mkParseResult (truthy (JDict extracted_data)) (JDict extracted_data)
        (u "fallback_text") confidence []
        [u "Fallback Text-Parsing verwendet - Struktur möglicherweise unvollständig"]).

(** ** The JSON strategies *)

Definition json_patterns : list json_pattern :=
  [FencedJson; FencedAny; ObjectSpan; ArraySpan].

Definition LBRACE : char := 123%N.
Definition RBRACE : char := 125%N.

(** The scan of [_parse_mixed_content] for balanced brace spans:
    [brace_start] is [None] for -1. *)
Fixpoint scan_braces (response rest : str) (i : nat)
  (brace_start : option nat) (brace_count : Z) : list str :=
  match rest with
  | [] => []
  | c :: rest' =>
    if char_eqb c LBRACE then
      let brace_start := if (brace_count =? 0)%Z then Some i else brace_start in
      scan_braces response rest' (S i) brace_start (brace_count + 1)
    else if char_eqb c RBRACE then
      let brace_count := (brace_count - 1)%Z in
      match brace_start with
      | Some start =>
        if (brace_count =? 0)%Z
        then slice start (S i) response
               :: scan_braces response rest' (S i) None brace_count
        else scan_braces response rest' (S i) brace_start brace_count
      | None => scan_braces response rest' (S i) brace_start brace_count
      end
    else scan_braces response rest' (S i) brace_start brace_count
  end.

Definition json_candidates (response : str) : list str :=
  scan_braces response response 0 None 0.

(** [_create_text_fallback] *)
Definition _create_text_fallback (response : str) (errors : list str) : json :=
  JDict
    [ (u "zusammenfassung", JStr (u "Parsing fehlgeschlagen - Originaltext verfügbar"));
      (u "raw_response", JStr response);
      (u "parsing_errors", strings errors);
      (u "naechste_schritte",
         strings [u "Response manuell prüfen"; u "Prompt-Template überarbeiten";
                  u "KI-Modell-Parameter anpassen"]) ].

Definition result_of (data : json) (v : Validation) (detected : str) : ParseResult :=
  mkParseResult (valid v) data detected (v_confidence v) (v_errors v) (v_warnings v).

Definition failed (message : str) : ParseResult :=
  mkParseResult false (JDict []) (u "none") 0 [message] [].

(** Where [parse_response] returns: inside the loop, from the strategy
    of that name; after the loop with the best partial result; after the
    loop with the text fallback. *)
Inductive exit_point :=
| FromStrategy (name : str)
| FromBestPartial
| FromTextFallback.

Definition better (result : ParseResult) (best : option ParseResult) : bool :=
  match best with
  | None => true
  | Some b => Qgtb (confidence result) (confidence b)
  end.

Section Strategies.

Context {L : Library}.

(** [_clean_json_string] *)
Definition _clean_json_string (json_str : str) : str :=
  fold_left (fun cleaned r => re_sub r cleaned)
    [DropFenceOpen; DropFenceClose; QuoteKeys; QuoteValues;
     DropCommaBeforeBrace; DropCommaBeforeBracket]
    (strip json_str).

(** [_parse_clean_json] *)
Definition _parse_clean_json (response expected_format : str) : py ParseResult :=
  try_except
    (let cleaned := strip response in
     data <- json_loads cleaned ;;
     validation <- _validate_structure data expected_format ;;
     Ok (result_of data validation (u "clean_json")))
    (class_eqb JSONDecodeError)
    (fun e => Ok (failed (u "JSON Decode Error: " ++ exn_msg e))).

(** The body of the inner loop of [_parse_markdown_json]: [Some] is a
    [return], [None] goes on with the next match. *)
Definition markdown_candidate (m expected_format : str) : py (option ParseResult) :=
  try_except
    (let cleaned_json := _clean_json_string m in
     data <- json_loads cleaned_json ;;
     validation <- _validate_structure data expected_format ;;
     if valid validation || Qgtb (v_confidence validation) (5 # 10)
     then Ok (Some (result_of data validation (u "markdown_json")))
     else Ok None)
    (class_eqb JSONDecodeError)
    (fun _ => Ok None).

Fixpoint first_candidate (matches : list str) (expected_format : str)
  : py (option ParseResult) :=
  match matches with
  | [] => Ok None
  | m :: matches' =>
    r <- markdown_candidate m expected_format ;;
    match r with
    | Some result => Ok (Some result)
    | None => first_candidate matches' expected_format
    end
  end.

(** [_parse_markdown_json] *)
Definition _parse_markdown_json (response expected_format : str) : py ParseResult :=
  r <- first_candidate
         (flat_map (fun pattern => re_findall pattern response) json_patterns)
         expected_format ;;
  match r with
  | Some result => Ok result
  | None => Ok (failed (u "Kein valides JSON in Markdown gefunden"))
  end.

(** The loop of [_parse_mixed_content] over the candidates. *)
Fixpoint best_candidate (candidates : list str) (expected_format : str)
  (best_result : option ParseResult) : py (option ParseResult) :=
  match candidates with
  | [] => Ok best_result
  | candidate :: candidates' =>
    r <- try_except
           (let cleaned := _clean_json_string candidate in
            data <- json_loads cleaned ;;
            validation <- _validate_structure data expected_format ;;
            Ok (Some (result_of data validation (u "mixed_content"))))
           (class_eqb JSONDecodeError)
           (fun _ => Ok None) ;;
    best_candidate candidates' expected_format
      match r with
      | Some result => if better result best_result then Some result else best_result
      | None => best_result
      end
  end.

(** [_parse_mixed_content] *)
Definition _parse_mixed_content (response expected_format : str) : py ParseResult :=
  best_result <- best_candidate (json_candidates response) expected_format None ;;
  match best_result with
  | Some result => Ok result
  | None => Ok (_extract_structured_text response expected_format)
  end.

(** [parse_strategies], each with its [__name__]. *)
Definition parse_strategies : list (str * (str -> str -> py ParseResult)) :=
  [ (u "_parse_clean_json", _parse_clean_json);
    (u "_parse_markdown_json", _parse_markdown_json);
    (u "_parse_mixed_content", _parse_mixed_content);
    (u "_parse_fallback_text", _parse_fallback_text) ].

(** The two statements of [parse_response] after the loop. *)
Definition after_loop (raw_response : str) (errors : list str)
  (best_result : option ParseResult) : exit_point * json :=
  match best_result with
  | Some b =>
    if truthy (data b) then (FromBestPartial, data b)
    else (FromTextFallback, _create_text_fallback raw_response errors)
  | None => (FromTextFallback, _create_text_fallback raw_response errors)
  end.

(** The loop of [parse_response], then the statements after it. *)
Fixpoint run_strategies (strategies : list (str * (str -> str -> py ParseResult)))
  (raw_response expected_format : str) (errors : list str)
  (best_result : option ParseResult) : exit_point * json :=
  match strategies with
  | [] => after_loop raw_response errors best_result
  | (name, strategy) :: rest =>
    match strategy raw_response expected_format with
    | Ok result =>
      if success result then (FromStrategy name, data result)
      else run_strategies rest raw_response expected_format
             (errors ++ ResponseParser.errors result)
             (if better result best_result then Some result else best_result)
    | Raise e =>
      run_strategies rest raw_response expected_format
        (errors ++ [name ++ u ": " ++ exn_msg e]) best_result
    end
  end.

(** [not raw_response or not raw_response.strip()] *)
Definition is_blank (raw_response : str) : bool :=
  is_nil raw_response || is_nil (strip raw_response).

(** [parse_response], with the place it returns from. *)
Definition parse_response_from (raw_response expected_format : str)
  : py (exit_point * json) :=
  if is_blank raw_response
  then Raise (Exn ValueError (u "Leere Response erhalten"))
  else
    let expected_format :=
      if str_eqb expected_format (u "auto")
      then _detect_format raw_response else expected_format in
    Ok (run_strategies parse_strategies raw_response expected_format [] None).

(** [parse_response] *)
Definition parse_response (raw_response expected_format : str) : py json :=
  r <- parse_response_from raw_response expected_format ;;
  Ok (snd r).

End Strategies.

End ResponseParser.

(* ================================================================== *)
(** * lm_studio_client.py *)
(* ================================================================== *)

Module LMStudioClient.

(** [class LMStudioConfig], the fields read by the request loop. *)
Record LMStudioConfig := mkConfig {
  model_name : str;
  timeout : Z;
  max_retries : Z
}.

(** What [session.post] returns: [status_code], [text] and what [json()]
    does: it returns the decoded body, or it raises, for a body that is no
    JSON document, the decoding error of [requests], which is a
    [RequestException]. *)
Record response := mkResponse {
  status_code : Z;
  text : str;
  resp_json : py json
}.

(** The server seen by one call of [generate_completion]: the outcome of
    the post of each attempt, a reply or a raised exception. *)
Definition server := nat -> py response.

(** What the call does to the outside. *)
Inductive event :=
| Post (attempt : nat)
| Sleep (seconds : Z).

(** [v.get(k, default)] on a decoded value. *)
Definition py_get (k : str) (default : json) (v : json) : py json :=
  match v with
  | JDict d => Ok (get k default d)
  | _ => Raise (Exn AttributeError
                 ([39%N] ++ type_name v ++ u "' object has no attribute 'get'"))
  end.

Section Client.

Context {L : Library}.

(** The branch [response.status_code == 200]. *)
Definition on_success (r : response) : py json :=
  result <- resp_json r ;;
  usage <- py_get (u "usage") (JDict []) result ;;
  _ <- py_get (u "prompt_tokens") (JInt 0) usage ;;
  _ <- py_get (u "completion_tokens") (JInt 0) usage ;;
  Ok result.

(** The branch [response.status_code == 422]. *)
Definition on_validation_error (r : response) : py json :=
  body <- resp_json r ;;
  error_detail <- py_get (u "detail") (JStr (u "Validation Error")) body ;;
  Raise (Exn LMStudioError (u "Validierungsfehler: " ++ str_of_json error_detail)).

(** [if attempt < self.config.max_retries - 1: time.sleep(2 ** attempt)] *)
Definition backoff (cfg : LMStudioConfig) (attempt : nat) : list event :=
  if (Z.of_nat attempt <? max_retries cfg - 1)%Z
  then [Sleep (2 ^ Z.of_nat attempt)] else [].

Definition http_error (r : response) : exn :=
  Exn LMStudioError (u "HTTP " ++ str_of_Z (status_code r) ++ u ": " ++ text r).

Definition timeout_error (cfg : LMStudioConfig) : exn :=
  Exn LMStudioError (u "Timeout nach " ++ str_of_Z (timeout cfg) ++ u " Sekunden").

Definition network_error (e : exn) : exn :=
  Exn LMStudioError (u "Netzwerk-Fehler: " ++ exn_msg e).

(** How the [try] block of one attempt ends when it raises nothing: with
    a [return], or with the error of an HTTP status recorded for the next
    turn. *)
Inductive turn :=
| Returned (result : json)
| Recorded (error : exn).

(** The [try] block of one attempt. *)
Definition try_block (srv : server) (attempt : nat) : py turn :=
  r <- srv attempt ;;
  if (status_code r =? 200)%Z then
    (result <- on_success r ;; Ok (Returned result))
  else if (status_code r =? 422)%Z then
    (result <- on_validation_error r ;; Ok (Returned result))
  else Ok (Recorded (http_error r)).

(** The retry loop of [generate_completion]: [remaining] turns are left,
    the next one is number [attempt].  The two handlers catch what the
    block raises, the post and [json()] alike. *)
Fixpoint attempts (cfg : LMStudioConfig) (srv : server) (remaining attempt : nat)
  (last_error : option exn) : list event * py json :=
  match remaining with
  | O =>
    ([], Raise match last_error with
               | Some e => e
               | None => Exn LMStudioError (u "Unbekannter Fehler")
               end)
  | S remaining' =>
    let again (e : exn) :=
      let '(events, result) :=
        attempts cfg srv remaining' (S attempt) (Some e) in
      (Post attempt :: backoff cfg attempt ++ events, result) in
    match try_block srv attempt with
    | Ok (Returned result) => ([Post attempt], Ok result)
    | Ok (Recorded e) => again e
    | Raise e =>
      if class_eqb (exn_cls e) Timeout then again (timeout_error cfg)
      else if class_eqb (exn_cls e) RequestException then again (network_error e)
      else ([Post attempt], Raise e)
    end
  end.

(** [generate_completion]: the posts and sleeps it makes, and its result. *)
Definition generate_completion (cfg : LMStudioConfig) (srv : server)
  : list event * py json :=
  attempts cfg srv (Z.to_nat (max_retries cfg)) 0 None.

End Client.

(** [choices[0]] *)
Definition first_item (v : json) : py json :=
  match v with
  | JList (x :: _) => Ok x
  | JList [] => Raise (Exn IndexError (u "list index out of range"))
  | JDict _ => Raise (Exn KeyError (u "0"))
  | JStr (c :: _) => Ok (JStr [c])
  | JStr [] => Raise (Exn IndexError (u "string index out of range"))
  | _ => Raise (Exn TypeError
                 ([39%N] ++ type_name v ++ u "' object is not subscriptable"))
  end.

(** [content.strip()] *)
Definition py_strip (v : json) : py str :=
  match v with
  | JStr s => Ok (strip s)
  | _ => Raise (Exn AttributeError
                 ([39%N] ++ type_name v ++ u "' object has no attribute 'strip'"))
  end.

(** [extract_response_text] *)
Definition extract_response_text (response : json) : py str :=
  try_except
    (choices <- py_get (u "choices") (JList []) response ;;
     if negb (truthy choices)
     then Raise (Exn LMStudioError (u "Keine Antwort-Choices in Response"))
     else
       first <- first_item choices ;;
       message <- py_get (u "message") (JDict []) first ;;
       content <- py_get (u "content") (JStr []) message ;;
       if negb (truthy content)
       then Raise (Exn LMStudioError (u "Leere Antwort erhalten"))
       else py_strip content)
    (fun c => class_eqb c KeyError || class_eqb c IndexError)
    (fun e => Raise (Exn LMStudioError
                       (u "Fehler beim Extrahieren der Antwort: " ++ exn_msg e))).

(** ** The size of a request *)

(** [estimate_tokens] *)
Definition estimate_tokens (text : str) : Z := (Z.of_nat (length text) / 4)%Z.

(** A positive double is a mantissa of at most 53 bits and a binary
    exponent, [m * 2^e].  [round_to_double m e] is the double nearest to
    [m * 2^e] for [m > 0], ties to the even mantissa. *)
Definition round_to_double (m e : Z) : Z * Z :=
  (let bits := Z.log2 m + 1 in
   if bits <=? 53 then (m, e)
   else
     let shift := bits - 53 in
     let q := Z.shiftr m shift in
     let r := m - Z.shiftl q shift in
     let half := Z.shiftl 1 (shift - 1) in
     let q := if (half <? r) || (r =? half) && Z.odd q then q + 1 else q in
     (q, e + shift))%Z.

(** The double written [0.7]. *)
Definition seven_tenths : Z * Z := (3152519739159347, -52)%Z.

(** [int(n * x)] for an integer [n] and a positive double [x]: [n] is
    converted to a double, the product is rounded to a double, and [int]
    cuts the fraction off.  An integer beyond the range of the doubles
    cannot be converted. *)
Definition int_of_product (n : Z) (x : Z * Z) : py Z :=
  if (n =? 0)%Z then Ok 0%Z
  else
    let '(a, ea) := round_to_double (Z.abs n) 0 in
    if (Z.shiftl 1 1024 <=? Z.shiftl a ea)%Z
    then Raise (Exn OtherError (u "int too large to convert to float"))
    else
      let '(p, ep) := round_to_double (a * fst x) (ea + snd x) in
      let magnitude :=
        if (0 <=? ep)%Z then Z.shiftl p ep else Z.shiftr p (- ep) in
      Ok (Z.sgn n * magnitude)%Z.

(** [validate_request_size], for [self.config.max_tokens] and messages
    whose entries are texts. *)
Definition validate_request_size (max_tokens : Z) (messages : list (list (str * str)))
  : py bool :=
  let total_text :=
    fold_left (fun total_text message => total_text ++ get (u "content") [] message)
      messages [] in
  let estimated_tokens := estimate_tokens total_text in
  max_input_tokens <- int_of_product max_tokens seven_tenths ;;
  if (max_input_tokens <? estimated_tokens)%Z then Ok false else Ok true.

(** ** The connection check *)

(** [for x in v] on a decoded value: the items of a list, the keys of a
    dictionary, the characters of a text. *)
Definition py_iter (v : json) : py (list json) :=
  match v with
  | JList l => Ok l
  | JDict d => Ok (List.map (fun kv => JStr (fst kv)) d)
  | JStr s => Ok (List.map (fun c => JStr [c]) s)
  | _ => Raise (Exn TypeError
                 ([39%N] ++ type_name v ++ u "' object is not iterable"))
  end.

(** [[model.get('id', '') for model in models]] *)
Fixpoint model_ids (models : list json) : py (list json) :=
  match models with
  | [] => Ok []
  | model :: models' =>
    model_id <- py_get (u "id") (JStr []) model ;;
    rest <- model_ids models' ;;
    Ok (model_id :: rest)
  end.

(** [any(name in model.lower() for model in available_models)]: the
    generator stops at the first model that matches. *)
Fixpoint any_model_matches (name : str) (available_models : list json) : py bool :=
  match available_models with
  | [] => Ok false
  | model :: available_models' =>
    lowered <- py_lower model ;;
    if contains name lowered then Ok true
    else any_model_matches name available_models'
  end.

(** [check_connection]: what it returns, and [self.config.model_name]
    after the call.  [reply] is the outcome of the GET of the model list;
    the handler catches the exceptions of [requests], of which [Timeout]
    and the decoding error of [json()] are two.  When the fallback is
    taken every listed id has answered [lower], so the first one is a
    text. *)
Definition check_connection (model_name : str) (reply : py response)
  : py (bool * str) :=
  try_except
    (response <- reply ;;
     if (status_code response =? 200)%Z then
       models <- resp_json response ;;
       data <- py_get (u "data") (JList []) models ;;
       items <- py_iter data ;;
       available_models <- model_ids items ;;
       model_available <- any_model_matches (lower model_name) available_models ;;
       if negb model_available then
         match available_models with
         | JStr first :: _ => Ok (true, first)
         | _ => Ok (true, model_name)
         end
       else Ok (true, model_name)
     else Ok (false, model_name))
    (fun c => class_eqb c RequestException || class_eqb c Timeout)
    (fun _ => Ok (false, model_name)).


End LMStudioClient.

(* ================================================================== *)
(** * promt_templates.py *)
(* ================================================================== *)

Module PromptTemplates.

(** A check-box group of the forms ([Dict[str, bool]]). *)
Definition flags := list (str * bool).

(** The company profile, with the keys that [_format_company_profile]
    reads; [None] is a key that the dictionary does not have. *)
Record CompanyProfile := mkCompanyProfile {
  unternehmensname : option str;
  branche : option str;
  mitarbeiter : option str;
  umsatzklasse : option str;
  geschaeftsradius : option str;
  hauptleistungen : option str;
  digitale_systeme : option flags;
  digitalisierungsgrad : option str;
  herausforderungen : option flags;
  ki_verstaendnis : option str;
  ki_anwendungen : option str
}.

(** The use case, with the keys that [_format_use_case] reads. *)
Record UseCase := mkUseCase {
  verantwortlich : option str;
  bereich : option str;
  status : option str;
  beschreibung : option str;
  problemstellung : option str;
  zielstellung : option str;
  ki_faehigkeiten : option flags;
  strategische_vorteile : option flags;
  bewertung : option (list (str * Z));
  entwicklungszeit : option str
}.

(** [d.get(key, default)] inside a format string, for a text field. *)
Definition text_or (v : option str) (default : str) : str :=
  match v with Some s => s | None => default end.

(** [if d.get(key):] for a text field. *)
Definition has_text (v : option str) : bool :=
  match v with Some s => nonempty s | None => false end.

(** [d.get(key, {})] for a check-box group. *)
Definition flags_or_empty (v : option flags) : flags :=
  match v with Some f => f | None => [] end.

Definition NA : str := u "N/A".

(** [_format_selected_items] *)
Definition _format_selected_items (items_dict : flags) : str :=
  let selected := List.map fst (filter (fun kv => snd kv) items_dict) in
  if nonempty selected
  then join [LF] (List.map (fun item => u "- " ++ item) selected)
  else [].

(** [sections.append(block)] when [test] holds. *)
Definition append_if (test : bool) (block : str) (sections : list str) : list str :=
  if test then sections ++ [block] else sections.

(** The list [sections] of [_format_company_profile] before the join. *)
Definition company_sections (profile : CompanyProfile) : list str :=
  let sections := [] in
  let basic_info :=
    u "**Unternehmen:** " ++ text_or (unternehmensname profile) NA ++ [LF]
    ++ u "**Branche:** " ++ text_or (branche profile) NA ++ [LF]
    ++ u "**Mitarbeiter:** " ++ text_or (mitarbeiter profile) NA ++ [LF]
    ++ u "**Umsatzklasse:** " ++ text_or (umsatzklasse profile) NA ++ [LF]
    ++ u "**Geschäftsradius:** " ++ text_or (geschaeftsradius profile) NA in
  let sections := sections ++ [basic_info] in
  let sections :=
    append_if (has_text (hauptleistungen profile))
      (u "**Hauptleistungen:**" ++ [LF] ++ text_or (hauptleistungen profile) [])
      sections in
  let digital_systems :=
    _format_selected_items (flags_or_empty (digitale_systeme profile)) in
  let sections :=
    append_if (nonempty digital_systems)
      (u "**Digitale Systeme:**" ++ [LF] ++ digital_systems) sections in
  let sections :=
    sections ++ [u "**Digitalisierungsgrad:** "
                 ++ text_or (digitalisierungsgrad profile) NA] in
  let challenges :=
    _format_selected_items (flags_or_empty (herausforderungen profile)) in
  let sections :=
    append_if (nonempty challenges)
      (u "**Aktuelle Herausforderungen:**" ++ [LF] ++ challenges) sections in
  let sections :=
    sections ++ [u "**KI-Verständnis:** " ++ text_or (ki_verstaendnis profile) NA] in
  let sections :=
    append_if (has_text (ki_anwendungen profile))
      (u "**Bereits genutzte KI:**" ++ [LF] ++ text_or (ki_anwendungen profile) [])
      sections in
  sections.

(** [_format_company_profile] *)
Definition _format_company_profile (profile : CompanyProfile) : str :=
  join [LF; LF] (company_sections profile).

(** The lines of [bewertung_text]. *)
Definition rating_line (kv : str * Z) : str :=
  u "- " ++ fst kv ++ u ": " ++ str_of_Z (snd kv) ++ u "/5".

(** The list [sections] of [_format_use_case] before the join. *)
Definition use_case_sections (use_case : UseCase) : list str :=
  let sections := [] in
  let basic_info :=
    u "**Verantwortlich:** " ++ text_or (verantwortlich use_case) NA ++ [LF]
    ++ u "**Bereich:** " ++ text_or (bereich use_case) NA ++ [LF]
    ++ u "**Status:** " ++ text_or (status use_case) NA in
  let sections := sections ++ [basic_info] in
  let sections :=
    append_if (has_text (beschreibung use_case))
      (u "**Beschreibung:**" ++ [LF] ++ text_or (beschreibung use_case) [])
      sections in
  let sections :=
    append_if (has_text (problemstellung use_case))
      (u "**Problemstellung:**" ++ [LF] ++ text_or (problemstellung use_case) [])
      sections in
  let sections :=
    append_if (has_text (zielstellung use_case))
      (u "**Zielstellung:**" ++ [LF] ++ text_or (zielstellung use_case) [])
      sections in
  let ki_capabilities :=
    _format_selected_items (flags_or_empty (ki_faehigkeiten use_case)) in
  let sections :=
    append_if (nonempty ki_capabilities)
      (u "**Benötigte KI-Fähigkeiten:**" ++ [LF] ++ ki_capabilities) sections in
  let advantages :=
    _format_selected_items (flags_or_empty (strategische_vorteile use_case)) in
  let sections :=
    append_if (nonempty advantages)
      (u "**Erwartete strategische Vorteile:**" ++ [LF] ++ advantages) sections in
  let sections :=
    match bewertung use_case with
    | Some ((_ :: _) as ratings) =>
      sections ++ [u "**Technische Bewertung:**" ++ [LF]
                   ++ join [LF] (List.map rating_line ratings)]
    | _ => sections
    end in
  let sections :=
    append_if (has_text (entwicklungszeit use_case))
      (u "**Geschätzte Entwicklungszeit:** "
       ++ text_or (entwicklungszeit use_case) []) sections in
  sections.

(** [_format_use_case] *)
Definition _format_use_case (use_case : UseCase) : str :=
  join [LF; LF] (use_case_sections use_case).

(** [class PromptTemplate], the fields read by the analysis. *)
Record PromptTemplate := mkTemplate {
  name : str;
  expected_format : str;
  temperature : Q;
  max_tokens : Z
}.

(** The profile and the use case without any key. *)
Definition empty_profile : CompanyProfile :=
  mkCompanyProfile None None None None None None None None None None None.

Definition empty_use_case : UseCase :=
  mkUseCase None None None None None None None None None None.

(** ** The template manager *)

(** [self.templates] after [_initialize_templates]: the four built-in
    templates under their keys. *)
Definition _initialize_templates : list (str * PromptTemplate) :=
  [ (u "use_case_analysis",
       mkTemplate (u "KI Use Case Analyse") (u "structured_json") (7 # 10) 3000);
    (u "quick_feasibility",
       mkTemplate (u "Schnelle Machbarkeitsanalyse") (u "quick_json") (3 # 10) 500);
    (u "roi_analysis",
       mkTemplate (u "ROI und Business Case Analyse") (u "roi_json") (3 # 10) 1000);
    (u "implementation_plan",
       mkTemplate (u "Detaillierter Implementierungsplan") (u "implementation_json")
                  (5 # 10) 2500) ].

(** [get_template] *)
Definition get_template (templates : list (str * PromptTemplate)) (template_name : str)
  : option PromptTemplate :=
  lookup template_name templates.

(** [list_templates] *)
Definition list_templates (templates : list (str * PromptTemplate)) : list str :=
  List.map fst templates.

(** [kwargs.get(key, default)] *)
Definition kwarg {A : Type} (v : option A) (default : A) : A :=
  match v with Some a => a | None => default end.

(** [create_custom_template]: the template it returns and [self.templates]
    after the call; the three keyword arguments may be absent. *)
Definition create_custom_template (templates : list (str * PromptTemplate))
  (name : str) (expected_format : option str) (temperature : option Q)
  (max_tokens : option Z) : PromptTemplate * list (str * PromptTemplate) :=
  let template :=
    mkTemplate name (kwarg expected_format (u "text")) (kwarg temperature (7 # 10))
               (kwarg max_tokens 2000%Z) in
  (template, set_item name template templates).

(** The dictionary returned by [validate_template_data]; an absent key is
    [None]. *)
Record TemplateValidation := mkTemplateValidation {
  tv_valid : bool;
  tv_missing_fields : option (list str);
  tv_error : option str
}.

(** One turn of the loops over the required fields. *)
Definition check_field (prefix : str) (missing_fields : list str)
  (field : str * option str) : list str :=
  if is_nil (strip (text_or (snd field) []))
  then missing_fields ++ [prefix ++ fst field]
  else missing_fields.

(** [validate_template_data] *)
Definition validate_template_data (templates : list (str * PromptTemplate))
  (template_name : str) (company_profile : CompanyProfile) (use_case : UseCase)
  : TemplateValidation :=
  match get_template templates template_name with
  | None =>
    mkTemplateValidation false None
      (Some (u "Template '" ++ template_name ++ u "' nicht gefunden"))
  | Some template =>
    let required_company_fields :=
      [ (u "unternehmensname", unternehmensname company_profile);
        (u "branche", branche company_profile) ] in
    let required_use_case_fields :=
      [ (u "beschreibung", beschreibung use_case) ] in
    let missing_fields := [] in
    let missing_fields :=
      fold_left (check_field (u "Unternehmen.")) required_company_fields
        missing_fields in
    let missing_fields :=
      fold_left (check_field (u "UseCase.")) required_use_case_fields
        missing_fields in
    if nonempty missing_fields
    then mkTemplateValidation false (Some missing_fields)
           (Some (u "Fehlende Pflichtfelder: " ++ join (u ", ") missing_fields))
    else mkTemplateValidation true None None
  end.

End PromptTemplates.

(* ================================================================== *)
(** * config.py *)
(* ================================================================== *)

Module Config.

(** [class LMStudioSettings], the fields that the check reads. *)
Record LMStudioSettings := mkSettings {
  base_url : str;
  model_path : str;
  temperature : Q;
  max_tokens : Z;
  top_p : Q
}.

(** The dictionary built by [validate_lm_studio_config]. *)
Record ConfigValidation := mkConfigValidation {
  cv_valid : bool;
  cv_errors : list str;
  cv_warnings : list str
}.

(** [validation["errors"].append(message); validation["valid"] = False] *)
Definition reject (message : str) (validation : ConfigValidation) : ConfigValidation :=
  mkConfigValidation false (cv_errors validation ++ [message]) (cv_warnings validation).

(** [validation["warnings"].append(message)] *)
Definition warn (message : str) (validation : ConfigValidation) : ConfigValidation :=
  mkConfigValidation (cv_valid validation) (cv_errors validation)
                     (cv_warnings validation ++ [message]).

Section FileSystem.

(** [Path(p).exists()] and [str(Path(p))].  [exists] answers False when
    the file system reports that the path is absent, and raises the
    [OSError] of any other failure of the look-up (a name that is too
    long, a directory that may not be searched). *)
Variable path_exists : str -> py bool.
Variable path_text : str -> str.

(** [validate_lm_studio_config] *)
Definition validate_lm_studio_config (settings : LMStudioSettings)
  : py ConfigValidation :=
  let validation := mkConfigValidation true [] [] in
  let validation :=
    if negb (starts_with (u "http://") (base_url settings)
             || starts_with (u "https://") (base_url settings))
    then reject (u "Ungültige base_url: Muss mit http:// oder https:// beginnen")
                validation
    else validation in
  present <- path_exists (model_path settings) ;;
  let validation :=
    if negb present
    then warn (u "Model-Pfad existiert nicht: " ++ path_text (model_path settings))
              validation
    else validation in
  let validation :=
    if negb (Qle_bool 0 (temperature settings) && Qle_bool (temperature settings) 2)
    then reject (u "Temperature muss zwischen 0.0 und 2.0 liegen") validation
    else validation in
  let validation :=
    if (max_tokens settings <? 100)%Z
    then reject (u "max_tokens sollte mindestens 100 sein") validation
    else validation in
  let validation :=
    if negb (Qle_bool 0 (top_p settings) && Qle_bool (top_p settings) 1)
    then reject (u "top_p muss zwischen 0.0 und 1.0 liegen") validation
    else validation in
  Ok validation.

End FileSystem.

(** [level_mapping] of [calculate_priority_score], [effort_mapping] of
    [estimate_implementation_effort]. *)
Definition level_mapping : list (str * Z) :=
  [ (u "gering", 1%Z); (u "mittel", 2%Z); (u "hoch", 3%Z); (u "sehr hoch", 4%Z) ].

(** [calculate_priority_score] *)
Definition calculate_priority_score (risk_level opportunity_level effort : str) : Z :=
  let risk_score := get (lower risk_level) 2%Z level_mapping in
  let opportunity_score := get (lower opportunity_level) 2%Z level_mapping in
  let effort_score := get (lower effort) 2%Z level_mapping in
  let priority_score := (opportunity_score * 2 - risk_score - effort_score)%Z in
  Z.max 1 (Z.min 10 (priority_score + 5)).

(** The loop of [estimate_implementation_effort]: [total_effort] and
    [count]. *)
Fixpoint add_efforts (steps : list json) (total_effort count : Z) : py (Z * Z) :=
  match steps with
  | [] => Ok (total_effort, count)
  | step :: steps' =>
    value <- LMStudioClient.py_get (u "aufwand") (JStr (u "mittel")) step ;;
    effort <- py_lower value ;;
    match lookup effort level_mapping with
    | Some score => add_efforts steps' (total_effort + score)%Z (count + 1)%Z
    | None => add_efforts steps' total_effort count
    end
  end.

(** [estimate_implementation_effort] *)
Definition estimate_implementation_effort (steps : list json) : py str :=
  if is_nil steps then Ok (u "Unbekannt")
  else
    sums <- add_efforts steps 0 0 ;;
    let '(total_effort, count) := sums in
    if (count =? 0)%Z then Ok (u "Unbekannt")
    else
      let avg_effort := inject_Z total_effort / inject_Z count in
      if Qle_bool avg_effort (15 # 10) then Ok (u "Gering")
      else if Qle_bool avg_effort (25 # 10) then Ok (u "Mittel")
      else if Qle_bool avg_effort (35 # 10) then Ok (u "Hoch")
      else Ok (u "Sehr hoch").

End Config.

(* ================================================================== *)
(** * analysis_engine.py *)
(* ================================================================== *)

Module AnalysisEngine.

Import ResponseParser LMStudioClient PromptTemplates.

(** [class AIAnalysis]: the fields filled from the reply.  The metadata
    (time stamps, duration, ids of the two input records) is left out. *)
Record AIAnalysis := mkAnalysis {
  id : str;
  template_used : str;
  prompt_messages : list (str * str);
  raw_response : str;
  token_usage : json;
  analysis_summary : json;
  implementation_steps : json;
  technical_solutions : json;
  risks : json;
  opportunities : json;
  success_metrics : json;
  next_steps : json;
  recommendations : json;
  confidence_score : Q
}.

(** What the collaborators do during one call of [analyze_use_case]. *)
Record world := mkWorld {
  (** [create_analysis_id()] *)
  w_analysis_id : str;
  (** [prompt_manager.validate_template_data(...)]: the entries
      [valid] and [error] of its result *)
  w_validation : py (bool * str);
  (** [prompt_manager.format_prompt(...)] *)
  w_messages : py (list (str * str));
  (** [prompt_manager.get_template(template_name)] *)
  w_template : option PromptTemplate;
  (** the configuration of the client and the server it talks to *)
  w_config : LMStudioConfig;
  w_server : server
}.

(** The values stored in the dictionaries that the probes return. *)
Inductive value :=
| VBool (b : bool)
| VInt (z : Z)
| VNum (q : Q)
| VStr (s : str)
| VJson (j : json)
| VAnalysis (a : AIAnalysis).

Definition record := list (str * value).

Definition to_json (v : value) : json :=
  match v with
  | VBool b => JBool b
  | VInt z => JInt z
  | VNum q => JFloat q
  | VStr s => JStr s
  | VJson j => j
  | VAnalysis _ => JNull
  end.

(** The truth value and the number read back from a stored value. *)
Definition as_bool (v : value) : bool :=
  match v with VBool b => b | _ => truthy (to_json v) end.

Definition as_number (v : value) : Q :=
  match v with
  | VNum q => q
  | VInt z => inject_Z z
  | VBool true => 1
  | _ => 0
  end.

(** [parsed_data.get] needs a dictionary. *)
Definition as_dict (v : json) : py dict :=
  match v with
  | JDict d => Ok d
  | _ => Raise (Exn AttributeError
                 ([39%N] ++ type_name v ++ u "' object has no attribute 'get'"))
  end.

(** [len(v)] *)
Definition py_len (v : json) : py nat :=
  match v with
  | JStr s => Ok (length s)
  | JList l => Ok (length l)
  | JDict d => Ok (length d)
  | _ => Raise (Exn TypeError
                 (u "object of type '" ++ type_name v ++ u "' has no len()"))
  end.

Definition score_fields : list (str * list str) :=
  [ (u "use_case_analysis",
      [u "zusammenfassung"; u "handlungsschritte"; u "technische_loesungen"]);
    (u "quick_feasibility", [u "machbarkeit"; u "aufwand"; u "empfehlung"]);
    (u "roi_analysis", [u "investition"; u "einsparungen"; u "roi"]);
    (u "implementation_plan", [u "projektphasen"; u "timeline"]) ].

(** The loop that adds up [total_recommendations]. *)
Fixpoint count_recommendations (fields : list str) (parsed_data : dict) (total : nat)
  : py nat :=
  match fields with
  | [] => Ok total
  | field :: fields' =>
    match lookup field parsed_data with
    | Some v =>
      n <- py_len v ;;
      count_recommendations fields' parsed_data (total + n)
    | None => count_recommendations fields' parsed_data total
    end
  end.

Definition Qsum (l : list Q) : Q := fold_left Qplus l 0.

(** [_calculate_confidence_score] *)
Definition _calculate_confidence_score (parsed_data : dict) (raw_response : str)
  (template_name : str) : py Q :=
  let confidence_factors := [] in
  let required_fields := get template_name [] score_fields in
  let confidence_factors :=
    if nonempty required_fields then
      let present_fields := length (present_in required_fields parsed_data) in
      let completeness_score := ratio present_fields (length required_fields) in
      confidence_factors ++ [completeness_score]
    else confidence_factors in
  let response_length := length raw_response in
  let length_score :=
    if (2000 <? response_length)%nat then 1
    else if (1000 <? response_length)%nat then 8 # 10
    else if (500 <? response_length)%nat then 6 # 10
    else 4 # 10 in
  let confidence_factors := confidence_factors ++ [length_score] in
  let structure_score := if truthy (JDict parsed_data) then 1 else 3 # 10 in
  let confidence_factors := confidence_factors ++ [structure_score] in
  total_recommendations <-
    count_recommendations
      [u "handlungsschritte"; u "technische_loesungen"; u "naechste_schritte"]
      parsed_data 0 ;;
  let detail_score :=
    if (5 <=? total_recommendations)%nat then 1
    else if (3 <=? total_recommendations)%nat then 8 # 10
    else if (1 <=? total_recommendations)%nat then 6 # 10
    else 2 # 10 in
  let confidence_factors := confidence_factors ++ [detail_score] in
  if nonempty confidence_factors
  then Ok (Qsum confidence_factors / inject_Z (Z.of_nat (length confidence_factors)))
  else Ok (5 # 10).

Section Engine.

Context {L : Library}.

(** The [try] block of [analyze_use_case]. *)
Definition analyze_body (w : world) (template_name : str) : py AIAnalysis :=
  validation <- w_validation w ;;
  if negb (fst validation)
  then Raise (Exn AnalysisEngineError
                (u "Datenvalidierung fehlgeschlagen: " ++ snd validation))
  else
    messages <- w_messages w ;;
    match w_template w with
    | None =>
      Raise (Exn AnalysisEngineError
               (u "Template '" ++ template_name ++ u "' nicht gefunden"))
    | Some template =>
      response <- snd (generate_completion (w_config w) (w_server w)) ;;
      raw_response <- extract_response_text response ;;
      parsed_response <- parse_response raw_response (expected_format template) ;;
      token_usage <- py_get (u "usage") (JDict []) response ;;
      parsed_data <- as_dict parsed_response ;;
      score <- _calculate_confidence_score parsed_data raw_response template_name ;;
      Ok (mkAnalysis (w_analysis_id w) template_name messages raw_response
            token_usage
            (get (u "zusammenfassung") (JStr []) parsed_data)
            (get (u "handlungsschritte") (JList []) parsed_data)
            (get (u "technische_loesungen") (JList []) parsed_data)
            (get (u "risiken") (JList []) parsed_data)
            (get (u "chancen") (JList []) parsed_data)
            (get (u "erfolgsmessung") (JList []) parsed_data)
            (get (u "naechste_schritte") (JList []) parsed_data)
            (get (u "empfehlungen") (JList []) parsed_data)
            score)
    end.

(** [analyze_use_case]: the two handlers wrap whatever the block raises. *)
Definition analyze_use_case (w : world) (template_name : str) : py AIAnalysis :=
  match analyze_body w template_name with
  | Ok analysis => Ok analysis
  | Raise e =>
    if class_eqb (exn_cls e) LMStudioError
    then Raise (Exn AnalysisEngineError (u "LM Studio Fehler: " ++ exn_msg e))
    else Raise (Exn AnalysisEngineError (u "Analyse fehlgeschlagen: " ++ exn_msg e))
  end.

(** The dictionary of the [except] branch of [quick_feasibility_check]. *)
Definition failure_record (message : str) : record :=
  [ (u "feasible", VBool false);
    (u "error", VStr message);
    (u "confidence", VNum 0) ].

(** The dictionary of the [try] branch. *)
Definition success_record (analysis : AIAnalysis) (parsed_data : dict) : record :=
  [ (u "analysis_id", VStr (id analysis));
    (u "feasible",
       VBool (eq_text (get (u "empfehlung") (JStr (u "überdenken")) parsed_data)
                      (u "go")));
    (u "feasibility_level", VJson (get (u "machbarkeit") (JStr (u "mittel")) parsed_data));
    (u "effort", VJson (get (u "aufwand") (JStr (u "mittel")) parsed_data));
    (u "cost_estimate", VJson (get (u "kosten") (JStr (u "unbekannt")) parsed_data));
    (u "timeframe", VJson (get (u "zeitrahmen") (JStr (u "unbekannt")) parsed_data));
    (u "main_obstacles", VJson (get (u "haupthindernisse") (JList []) parsed_data));
    (u "confidence", VNum (confidence_score analysis));
    (u "full_analysis", VAnalysis analysis) ].

(** [quick_feasibility_check] *)
Definition quick_feasibility_check (w : world) : py record :=
  try_except
    (analysis <- analyze_use_case w (u "quick_feasibility") ;;
     parsed_response <- parse_response (raw_response analysis) (u "quick_json") ;;
     parsed_data <- as_dict parsed_response ;;
     Ok (success_record analysis parsed_data))
    any_exception
    (fun e => Ok (failure_record (exn_msg e))).

End Engine.

Definition effort_mapping : list (str * Q) :=
  [ (u "gering", 4); (u "mittel", 3); (u "hoch", 2); (u "sehr hoch", 1) ].

(** [_effort_to_score] *)
Definition _effort_to_score (effort_str : json) : py Q :=
  lowered <- py_lower effort_str ;;
  Ok (get lowered (25 # 10) effort_mapping).

(** The key of the ranking: [(feasible, confidence, effort score)]. *)
Definition key := (bool * Q * Q)%type.

Definition sort_key (x : record) : py key :=
  score <- _effort_to_score (to_json (get (u "effort") (VStr (u "hoch")) x)) ;;
  Ok (as_bool (get (u "feasible") (VBool false) x),
      as_number (get (u "confidence") (VNum 0) x),
      score).

(** Comparison of tuples: the first component that differs decides. *)
Definition bool_gtb (a b : bool) : bool := a && negb b.

Definition key_gtb (a b : key) : bool :=
  let '(fa, ca, ea) := a in
  let '(fb, cb, eb) := b in
  bool_gtb fa fb
  || Bool.eqb fa fb && (Qgtb ca cb || Qeq_bool ca cb && Qgtb ea eb).

(** [sorted(xs, key=..., reverse=True)] on the list decorated with its
    keys: descending, entries with equal keys keep their order. *)
Fixpoint insert_desc {A : Type} (kx : key * A) (l : list (key * A)) : list (key * A) :=
  match l with
  | [] => [kx]
  | ky :: l' =>
    if key_gtb (fst ky) (fst kx) then ky :: insert_desc kx l' else kx :: l
  end.

Fixpoint sort_desc {A : Type} (l : list (key * A)) : list (key * A) :=
  match l with
  | [] => []
  | kx :: l' => insert_desc kx (sort_desc l')
  end.

(** The keys are computed first, in the order of the list. *)
Fixpoint decorate (xs : list record) : py (list (key * record)) :=
  match xs with
  | [] => Ok []
  | x :: xs' =>
    k <- sort_key x ;;
    rest <- decorate xs' ;;
    Ok ((k, x) :: rest)
  end.

Definition sorted_by_key (xs : list record) : py (list record) :=
  decorated <- decorate xs ;;
  Ok (List.map snd (sort_desc decorated)).

(** The dictionary returned by [compare_use_cases]. *)
Record Comparison := mkComparison {
  total_use_cases : nat;
  feasible_count : nat;
  ranked_results : list record;
  recommendation : option record;
  comparison_summary : str
}.

Definition is_feasible (r : record) : bool :=
  as_bool (get (u "feasible") (VBool false) r).

Section Compare.

Context {L : Library}.

Definition str_of_value (v : value) : str :=
  match v with
  | VStr s => s
  | _ => str_of_json (to_json v)
  end.

(** [_generate_comparison_summary] *)
Definition _generate_comparison_summary (ranked_results : list record) : str :=
  match ranked_results with
  | [] => u "Keine Use Cases zum Vergleichen verfügbar."
  | best_case :: _ =>
    let feasible_count := length (filter is_feasible ranked_results) in
    let total_count := length ranked_results in
    let summary :=
      u "Von " ++ str_of_Z (Z.of_nat total_count)
      ++ u " analysierten Use Cases sind " ++ str_of_Z (Z.of_nat feasible_count)
      ++ u " als machbar eingestuft. " in
    if (0 <? feasible_count)%nat then
      summary
      ++ u "Der vielversprechendste Use Case ist '"
      ++ str_of_value (get (u "use_case_title") (VStr (u "Unbekannt")) best_case)
      ++ u "' "
      ++ u "mit einem Aufwand von '"
      ++ str_of_value (get (u "effort") (VStr (u "unbekannt")) best_case)
      ++ u "' "
      ++ u "und einer Confidence von "
      ++ format_percent (as_number (get (u "confidence") (VNum 0) best_case))
      ++ u "."
    else
      summary
      ++ u "Alle Use Cases erfordern weitere Überlegungen vor der Umsetzung."
  end.

(** The loop of [compare_use_cases] over [enumerate(use_cases)]: the probe
    of the use case at index [i] runs in the world [worlds i]. *)
Fixpoint probe_all (worlds : nat -> world) (use_cases : list UseCase) (i : nat)
  : py (list record) :=
  match use_cases with
  | [] => Ok []
  | use_case :: use_cases' =>
    result <- quick_feasibility_check (worlds i) ;;
    let result := set_item (u "use_case_index") (VInt (Z.of_nat i)) result in
    let title :=
      take 50 (text_or (beschreibung use_case)
                       (u "Use Case " ++ str_of_Z (Z.of_nat (i + 1)))) in
    let result := set_item (u "use_case_title") (VStr title) result in
    rest <- probe_all worlds use_cases' (S i) ;;
    Ok (result :: rest)
  end.

(** [compare_use_cases] *)
Definition compare_use_cases (worlds : nat -> world) (use_cases : list UseCase)
  : py Comparison :=
  if (length use_cases <? 2)%nat
  then Raise (Exn AnalysisEngineError
                (u "Mindestens 2 Use Cases für Vergleich erforderlich"))
  else
    feasibility_results <- probe_all worlds use_cases 0 ;;
    ranked_results <- sorted_by_key feasibility_results ;;
    Ok (mkComparison (length use_cases)
          (length (filter is_feasible feasibility_results))
          ranked_results
          (hd_error ranked_results)
          (_generate_comparison_summary ranked_results)).

End Compare.

(** ** The other entry points of the engine *)

(** The dictionary built by [check_prerequisites]. *)
Record Prerequisites := mkPrerequisites {
  ready : bool;
  lm_studio_connection : bool;
  model_available : bool;
  config_valid : bool;
  p_errors : list str;
  p_warnings : list str
}.

(** The handler of [check_prerequisites]: the status as the block left
    it, not ready, with one more error. *)
Definition unexpected (status : Prerequisites) (e : exn) : Prerequisites :=
  mkPrerequisites false (lm_studio_connection status) (model_available status)
    (config_valid status)
    (p_errors status ++ [u "Unerwarteter Fehler: " ++ exn_msg e])
    (p_warnings status).

(** [check_prerequisites], for the outcomes of
    [lm_client.check_connection()], of
    [config.validate_lm_studio_config()] and of
    [config.analyses_folder.exists()]: each returns or raises, and the
    handler takes the status as the block left it when one raises. *)
Definition check_prerequisites (connection : py bool)
  (config_validation : py Config.ConfigValidation) (folder_exists : py bool)
  : Prerequisites :=
  let status := mkPrerequisites true false false false [] [] in
  match connection with
  | Raise e => unexpected status e
  | Ok connected =>
    let status :=
      if connected
      then mkPrerequisites (ready status) true true (config_valid status)
             (p_errors status) (p_warnings status)
      else mkPrerequisites false (lm_studio_connection status)
             (model_available status) (config_valid status)
             (p_errors status ++ [u "LM Studio ist nicht erreichbar"])
             (p_warnings status) in
    match config_validation with
    | Raise e => unexpected status e
    | Ok config_validation =>
      let status :=
        if Config.cv_valid config_validation
        then mkPrerequisites (ready status) (lm_studio_connection status)
               (model_available status) true (p_errors status) (p_warnings status)
        else mkPrerequisites false (lm_studio_connection status)
               (model_available status) (config_valid status)
               (p_errors status ++ Config.cv_errors config_validation)
               (p_warnings status ++ Config.cv_warnings config_validation) in
      match folder_exists with
      | Raise e => unexpected status e
      | Ok present =>
        if negb present
        then mkPrerequisites (ready status) (lm_studio_connection status)
               (model_available status) (config_valid status) (p_errors status)
               (p_warnings status ++ [u "Analyse-Ordner existiert nicht"])
        else status
      end
    end
  end.

(** The arithmetic of doubles that [_calculate_total_duration] needs stays
    outside: the conversion of an integer, the rounded sum of two doubles
    and [float(s)] for a text, which raises [ValueError] on a text that is
    no number.  A double is a rational. *)
Class Floats := {
  float_of_int : Z -> py Q;
  float_add : Q -> Q -> Q;
  float_of_str : str -> py Q
}.

(** [total_weeks]: an [int] until a float is added. *)
Inductive number :=
| NInt (z : Z)
| NFloat (q : Q).

Section Durations.

Context {F : Floats}.

Definition as_float (n : number) : py Q :=
  match n with
  | NInt z => float_of_int z
  | NFloat q => Ok q
  end.

(** [total_weeks += weeks] *)
Definition add_number (total_weeks weeks : number) : py number :=
  match total_weeks, weeks with
  | NInt a, NInt b => Ok (NInt (a + b))
  | _, _ =>
    a <- as_float total_weeks ;;
    b <- as_float weeks ;;
    Ok (NFloat (float_add a b))
  end.

(** One turn of the loop of [_calculate_total_duration]; a [bool] is an
    [int]. *)
Definition duration_step (total_weeks : number) (phase : json) : py number :=
  weeks <- py_get (u "dauer_wochen") (JInt 0) phase ;;
  match weeks with
  | JInt z => add_number total_weeks (NInt z)
  | JBool b => add_number total_weeks (NInt (Z.b2z b))
  | JFloat q => add_number total_weeks (NFloat q)
  | JStr s =>
    try_except
      (x <- float_of_str s ;; add_number total_weeks (NFloat x))
      (class_eqb ValueError)
      (fun _ => Ok total_weeks)
  | _ => Ok total_weeks
  end.

Fixpoint sum_durations (phases : list json) (total_weeks : number) : py number :=
  match phases with
  | [] => Ok total_weeks
  | phase :: phases' =>
    total_weeks <- duration_step total_weeks phase ;;
    sum_durations phases' total_weeks
  end.

(** [int(total_weeks)] *)
Definition int_of_number (n : number) : Z :=
  match n with
  | NInt z => z
  | NFloat q => Z.quot (Qnum q) (Zpos (Qden q))
  end.

(** [_calculate_total_duration] *)
Definition _calculate_total_duration (phases : json) : py Z :=
  items <- py_iter phases ;;
  total_weeks <- sum_durations items (NInt 0) ;;
  Ok (int_of_number total_weeks).

End Durations.

Section Scenarios.

Context {L : Library} {F : Floats}.

(** The loop of [analyze_multiple_scenarios] over [enumerate(use_cases)]:
    the analysis of the use case at index [i] runs in the world
    [worlds i]. *)
Fixpoint analyze_each (worlds : nat -> world) (use_cases : list UseCase)
  (template_name : str) (i : nat) (analyses : list AIAnalysis) : list AIAnalysis :=
  match use_cases with
  | [] => analyses
  | use_case :: use_cases' =>
    match analyze_use_case (worlds i) template_name with
    | Ok analysis =>
      analyze_each worlds use_cases' template_name (S i) (analyses ++ [analysis])
    | Raise _ => analyze_each worlds use_cases' template_name (S i) analyses
    end
  end.

(** [analyze_multiple_scenarios] *)
Definition analyze_multiple_scenarios (worlds : nat -> world)
  (use_cases : list UseCase) (template_name : str) : list AIAnalysis :=
  analyze_each worlds use_cases template_name 0 [].




End Scenarios.

End AnalysisEngine.

(* ================================================================== *)
(** * Statements: the wording of the specification, and scenarios *)
(* ================================================================== *)

Module Spec.

Import ResponseParser.

(** ** Structural scoring *)

(** The entry under [k] is text, or there is none. *)
Definition textual_or_absent (k : str) (d : dict) : bool :=
  match lookup k d with
  | Some (JStr _) | None => true
  | Some _ => false
  end.

(** The mappings on which the quality check of a format can run: for the
    quick format the two inspected entries are text or absent. *)
Definition inspectable (fmt : str) (d : dict) : bool :=
  if str_eqb fmt (u "quick_json")
  then textual_or_absent (u "machbarkeit") d && textual_or_absent (u "empfehlung") d
  else true.

(** The value compared with a vocabulary: the entry in lower case, the
    empty text when there is none. *)
Definition inspected (k : str) (d : dict) : str :=
  match lookup k d with
  | Some (JStr s) => lower s
  | _ => []
  end.

(** The quality factor of a format: the sub-field check of the full
    analysis, the two penalties of the quick format, none otherwise. *)
Definition quality_factor (fmt : str) (d : dict) : Q :=
  if str_eqb fmt (u "structured_json") then _validate_analysis_structure d
  else if str_eqb fmt (u "quick_json") then
    (if str_in (inspected (u "machbarkeit") d) valid_feasibility then 1 else 7 # 10)
    * (if str_in (inspected (u "empfehlung") d) valid_recommendations then 1 else 8 # 10)
  else 1.

(** A complete quick reply whose feasibility is a number. *)
Definition numeric_feasibility_reply : dict :=
  [ (u "machbarkeit", JInt 5);
    (u "aufwand", JStr (u "mittel"));
    (u "kosten", JStr (u "1000-5000€"));
    (u "zeitrahmen", JStr (u "1-3 Monate"));
    (u "empfehlung", JStr (u "go")) ].

(** A quick reply whose feasibility is capitalised. *)
Definition capitalised_reply : dict :=
  [ (u "machbarkeit", JStr (u "Gut"));
    (u "aufwand", JStr (u "mittel"));
    (u "empfehlung", JStr (u "go")) ].

(** The quick reply of the scenario of the specification. *)
Definition scenario_reply : dict :=
  [ (u "machbarkeit", JStr (u "gut"));
    (u "aufwand", JStr (u "mittel"));
    (u "empfehlung", JStr (u "go")) ].

(** ** The strategy chain *)

(** What one strategy did: its name, and the result it returned or the
    exception it raised. *)
Definition outcome := (str * py ParseResult)%type.

(** The first strategy, in order, whose result is successful. *)
Fixpoint first_success (os : list outcome) : option (str * ParseResult) :=
  match os with
  | [] => None
  | (name, Ok r) :: os' =>
    if success r then Some (name, r) else first_success os'
  | (_, Raise _) :: os' => first_success os'
  end.

(** The results that the strategies returned. *)
Fixpoint returned (os : list outcome) : list ParseResult :=
  match os with
  | [] => []
  | (_, Ok r) :: os' => r :: returned os'
  | (_, Raise _) :: os' => returned os'
  end.

(** The result with the highest confidence, the earliest among equals. *)
Fixpoint highest_confidence (rs : list ParseResult) : option ParseResult :=
  match rs with
  | [] => None
  | r :: rs' =>
    match highest_confidence rs' with
    | Some b => if Qgtb (confidence b) (confidence r) then Some b else Some r
    | None => Some r
    end
  end.

(** The error messages gathered from the strategies that did not succeed. *)
Fixpoint collected_errors (os : list outcome) : list str :=
  match os with
  | [] => []
  | (_, Ok r) :: os' => errors r ++ collected_errors os'
  | (name, Raise e) :: os' => (name ++ u ": " ++ exn_msg e) :: collected_errors os'
  end.

(** The mapping of the textual fallback: the notice, the reply as it
    came, the errors gathered, and the next steps. *)
Definition textual_fallback (raw_response : str) (errors : list str) : json :=
  JDict
    [ (u "zusammenfassung", JStr (u "Parsing fehlgeschlagen - Originaltext verfügbar"));
      (u "raw_response", JStr raw_response);
      (u "parsing_errors", JList (List.map JStr errors));
      (u "naechste_schritte",
         JList [ JStr (u "Response manuell prüfen");
                 JStr (u "Prompt-Template überarbeiten");
                 JStr (u "KI-Modell-Parameter anpassen") ]) ].

(** The chain as the specification words it: the first successful
    strategy wins; when none is successful, the result with the highest
    confidence is taken and its data returned when it is not empty; and
    only otherwise the textual fallback. *)
Definition chain (raw_response : str) (os : list outcome) : exit_point * json :=
  match first_success os with
  | Some (name, r) => (FromStrategy name, data r)
  | None =>
    match highest_confidence (returned os) with
    | Some best =>
      if truthy (data best) then (FromBestPartial, data best)
      else (FromTextFallback, textual_fallback raw_response (collected_errors os))
    | None => (FromTextFallback, textual_fallback raw_response (collected_errors os))
    end
  end.

(** The outcomes of a list of strategies on a reply, in their order. *)
Definition outcomes_of (strategies : list (str * (str -> str -> py ParseResult)))
  (raw_response expected_format : str) : list outcome :=
  List.map (fun ns => (fst ns, snd ns raw_response expected_format)) strategies.

(** The four recovery strategies in the order of the specification: the
    direct parse, the extraction from fenced blocks, the scan for embedded
    objects, the heuristic text extraction. *)
Definition four_strategies {L : Library}
  : list (str * (str -> str -> py ParseResult)) :=
  [ (u "_parse_clean_json", _parse_clean_json);
    (u "_parse_markdown_json", _parse_markdown_json);
    (u "_parse_mixed_content", _parse_mixed_content);
    (u "_parse_fallback_text", _parse_fallback_text) ].

(** Three strategies to run the loop with: one that raises, one whose
    result holds nothing, one whose result is partial. *)
Definition raising_strategy (_ _ : str) : py ParseResult :=
  Raise (Exn KeyError (u "'machbarkeit'")).

Definition empty_strategy (_ _ : str) : py ParseResult :=
  Ok (mkParseResult false (JDict []) (u "none") (5 # 10)
        [u "Kein valides JSON in Markdown gefunden"] []).

Definition partial_strategy (_ _ : str) : py ParseResult :=
  Ok (mkParseResult false (JDict [ (u "machbarkeit", JStr (u "gut")) ])
        (u "mixed_content") (5 # 10) [u "Fehlendes Pflichtfeld: empfehlung"] []).

Definition weaker_strategy (_ _ : str) : py ParseResult :=
  Ok (mkParseResult false (JDict [ (u "aufwand", JStr (u "hoch")) ])
        (u "mixed_content") (2 # 10) [u "Fehlendes Pflichtfeld: machbarkeit"] []).

(** A reply in free text. *)
Definition free_text : str := u "Das geht nicht.".

(** The format that the strategies are run with. *)
Definition effective_format (raw_response expected_format : str) : str :=
  if str_eqb expected_format (u "auto")
  then _detect_format raw_response else expected_format.

(** The outcomes of the four strategies on a reply, in their order. *)
Definition outcomes {L : Library} (raw_response expected_format : str) : list outcome :=
  List.map (fun ns => (fst ns, snd ns raw_response expected_format)) parse_strategies.

(** What every result of a strategy satisfies: a successful result holds
    a mapping, and the confidence lies in [0, 1]. *)
Definition sound (r : ParseResult) : Prop :=
  (success r = true -> is_dict (data r) = true)
  /\ 0 <= confidence r /\ confidence r <= 1.

Definition within_unit (q : Q) : Prop := 0 <= q /\ q <= 1.

(** The confidence of the result of a strategy, where it returns one. *)
Definition scored_within_unit (o : py ParseResult) : Prop :=
  match o with
  | Ok r => within_unit (confidence r)
  | Raise _ => True
  end.

Definition quoted (s : str) : str := [34%N] ++ s ++ [34%N].

(** The raw text of the quick reply of the scenario. *)
Definition scenario_text : str :=
  u "{" ++ quoted (u "machbarkeit") ++ u ":" ++ quoted (u "gut") ++ u ","
  ++ quoted (u "aufwand") ++ u ":" ++ quoted (u "mittel") ++ u ","
  ++ quoted (u "empfehlung") ++ u ":" ++ quoted (u "go") ++ u "}".

(** ** Text extraction *)

Definition is_some {A : Type} (o : option A) : bool :=
  match o with Some _ => true | None => false end.

(** The number of sections of a text whose heading maps to a field. *)
Definition mapped_sections (response expected_format : str) : nat :=
  length (filter (fun sec => is_some (_map_section_to_field (fst sec) expected_format))
                 (_find_text_sections response)).

(** The raise for the list scan. *)
Definition list_bonus (response : str) : Q :=
  if nonempty (_extract_lists_from_text response) then 2 # 10 else 0.

(** A free text with three headings that map to fields. *)
Definition three_sections : str :=
  u "Zusammenfassung:" ++ [LF] ++ u "Gute Ausgangslage" ++ [LF]
  ++ u "Risiken:" ++ [LF] ++ u "Datenqualität" ++ [LF]
  ++ u "Chancen:" ++ [LF] ++ u "Schnellere Angebote".

(** ** A library for closed examples

    The decoder knows the listed documents and rejects every other
    text; no search finds a match and no repair changes its text; texts,
    integers, truth values and [None] are rendered as Python does.  The
    examples below use it on replies that the first strategy decodes. *)
Definition render (v : json) : str :=
  match v with
  | JStr s => s
  | JInt z => str_of_Z z
  | JBool true => u "True"
  | JBool false => u "False"
  | JNull => u "None"
  | _ => u "<" ++ type_name v ++ u ">"
  end.

(** A share with one decimal, rounded half to even. *)
Definition percent (q : Q) : str :=
  let x := q * 1000 in
  let f := Qfloor x in
  let rest := x - inject_Z f in
  let n :=
    if Qgtb (1 # 2) rest then f
    else if Qgtb rest (1 # 2) then (f + 1)%Z
    else if Z.even f then f else (f + 1)%Z in
  str_of_Z (n / 10) ++ u "." ++ str_of_Z (n mod 10) ++ u "%".

Definition table_library (documents : list (str * json)) : Library :=
  {| json_loads s :=
       match lookup s documents with
       | Some v => Ok v
       | None => Raise (Exn JSONDecodeError
                          (u "Expecting value: line 1 column 1 (char 0)"))
       end;
     re_findall _ _ := [];
     re_sub _ s := s;
     str_of_json := render;
     format_percent := percent |}.

(** The library that decodes the scenario reply. *)
Definition scenario_library : Library :=
  table_library [ (scenario_text, JDict scenario_reply) ].

(** ** The retry loop of the client *)

Import LMStudioClient.

(** The client error recorded when an attempt raises [e]: the time-out
    is asked first, then the other exceptions of [requests]; any other
    exception is not caught. *)
Definition caught (cfg : LMStudioConfig) (e : exn) : option exn :=
  if class_eqb (exn_cls e) Timeout then
    Some (Exn LMStudioError
            (u "Timeout nach " ++ str_of_Z (timeout cfg) ++ u " Sekunden"))
  else if class_eqb (exn_cls e) RequestException then
    Some (Exn LMStudioError (u "Netzwerk-Fehler: " ++ exn_msg e))
  else None.

(** The failure for which an attempt is tried again, with the reason
    recorded for it: a raised time-out or other request exception, a
    reply whose status is neither 200 nor 422, and a reply with status
    200 or 422 whose body [json()] cannot decode. *)
Definition transient (cfg : LMStudioConfig) (o : py response) : option exn :=
  match o with
  | Raise e => caught cfg e
  | Ok r =>
    if (status_code r =? 200)%Z || (status_code r =? 422)%Z then
      match resp_json r with
      | Raise e => caught cfg e
      | Ok _ => None
      end
    else Some (Exn LMStudioError
                 (u "HTTP " ++ str_of_Z (status_code r) ++ u ": " ++ text r))
  end.

(** The posts and sleeps of [k] failed attempts, the first numbered [from]. *)
Fixpoint failed_attempts (cfg : LMStudioConfig) (from k : nat) : list event :=
  match k with
  | O => []
  | S k' => Post from :: backoff cfg from ++ failed_attempts cfg (S from) k'
  end.

(** The reason recorded after [k] failed attempts. *)
Fixpoint last_failure (cfg : LMStudioConfig) (srv : server) (from k : nat)
  (last : option exn) : option exn :=
  match k with
  | O => last
  | S k' => last_failure cfg srv (S from) k' (transient cfg (srv from))
  end.

Definition unknown_error : exn := Exn LMStudioError (u "Unbekannter Fehler").

(** A client with three attempts, and a server that times out, then
    answers 500, then drops the connection. *)
Definition three_attempts : LMStudioConfig := mkConfig (u "qwen2.5-7b-instruct") 120 3.

(** What [json()] raises on a body that is no JSON document. *)
Definition not_json : exn :=
  Exn RequestException (u "Expecting value: line 1 column 1 (char 0)").

Definition failing_server : server :=
  fun attempt =>
    match attempt with
    | 0%nat => Raise (Exn Timeout (u "read timed out"))
    | 1%nat => Ok (mkResponse 500 (u "Internal Server Error") (Raise not_json))
    | _ => Raise (Exn RequestException (u "connection reset"))
    end.

(** A server that times out, then rejects the request as invalid. *)
Definition rejecting_server : server :=
  fun attempt =>
    match attempt with
    | 0%nat => Raise (Exn Timeout (u "read timed out"))
    | _ => Ok (mkResponse 422 (u "Unprocessable Entity")
                 (Ok (JDict [ (u "detail", JStr (u "messages: field required")) ])))
    end.

(** A server that answers every post with status 422 and a body that
    is no JSON document. *)
Definition unreadable_rejection : response :=
  mkResponse 422 (u "Unprocessable Entity") (Raise not_json).

Definition unreadable_server : server := fun _ => Ok unreadable_rejection.

(** ** The text blocks of the prompt *)

Import PromptTemplates.

(** A line of a basic block: the label, then the text of the field, or
    the placeholder when the record has no such key. *)
Definition labelled (label : str) (v : option str) : str := label ++ text_or v NA.

(** The block of an optional text field: none when the key is missing
    or the text is empty. *)
Definition optional_text (label : str) (sep : str) (v : option str) : list str :=
  match v with
  | Some ((_ :: _) as s) => [label ++ sep ++ s]
  | _ => []
  end.

(** The bullets of a check-box group: the flags set true, in order. *)
Definition bullets (items : flags) : list str :=
  List.map (fun kv => u "- " ++ fst kv) (filter (fun kv => snd kv) items).

(** The block of a check-box group: none when no flag is set. *)
Definition optional_flags (label : str) (v : option flags) : list str :=
  match bullets (flags_or_empty v) with
  | [] => []
  | bs => [label ++ [LF] ++ join [LF] bs]
  end.

(** The block of the ratings: none when there is no rating. *)
Definition optional_ratings (label : str) (v : option (list (str * Z))) : list str :=
  match v with
  | Some ((_ :: _) as ratings) =>
    [label ++ [LF] ++ join [LF] (List.map rating_line ratings)]
  | _ => []
  end.

Definition company_blocks (p : CompanyProfile) : list str :=
  [ join [LF]
      [ labelled (u "**Unternehmen:** ") (unternehmensname p);
        labelled (u "**Branche:** ") (branche p);
        labelled (u "**Mitarbeiter:** ") (mitarbeiter p);
        labelled (u "**Umsatzklasse:** ") (umsatzklasse p);
        labelled (u "**Geschäftsradius:** ") (geschaeftsradius p) ] ]
  ++ optional_text (u "**Hauptleistungen:**") [LF] (hauptleistungen p)
  ++ optional_flags (u "**Digitale Systeme:**") (digitale_systeme p)
  ++ [ labelled (u "**Digitalisierungsgrad:** ") (digitalisierungsgrad p) ]
  ++ optional_flags (u "**Aktuelle Herausforderungen:**") (herausforderungen p)
  ++ [ labelled (u "**KI-Verständnis:** ") (ki_verstaendnis p) ]
  ++ optional_text (u "**Bereits genutzte KI:**") [LF] (ki_anwendungen p).

Definition use_case_blocks (c : UseCase) : list str :=
  [ join [LF]
      [ labelled (u "**Verantwortlich:** ") (verantwortlich c);
        labelled (u "**Bereich:** ") (bereich c);
        labelled (u "**Status:** ") (status c) ] ]
  ++ optional_text (u "**Beschreibung:**") [LF] (beschreibung c)
  ++ optional_text (u "**Problemstellung:**") [LF] (problemstellung c)
  ++ optional_text (u "**Zielstellung:**") [LF] (zielstellung c)
  ++ optional_flags (u "**Benötigte KI-Fähigkeiten:**") (ki_faehigkeiten c)
  ++ optional_flags (u "**Erwartete strategische Vorteile:**") (strategische_vorteile c)
  ++ optional_ratings (u "**Technische Bewertung:**") (bewertung c)
  ++ optional_text (u "**Geschätzte Entwicklungszeit:** ") [] (entwicklungszeit c).

(** ** The probes of the analysis *)

Import AnalysisEngine.

(** A confidence score, where the computation returns one. *)
Definition score_within_unit (o : py Q) : Prop :=
  match o with
  | Ok c => within_unit c
  | Raise _ => True
  end.

(** The effort stored in the record of a probe, as [x.get("effort", "hoch")]
    reads it, and the key of a record whose effort is text. *)
Definition effort_of (x : record) : json :=
  to_json (get (u "effort") (VStr (u "hoch")) x).

Definition textual_effort (x : record) : bool :=
  match effort_of x with JStr _ => true | _ => false end.

Definition key_of (x : record) : key :=
  (as_bool (get (u "feasible") (VBool false) x),
   as_number (get (u "confidence") (VNum 0) x),
   match effort_of x with
   | JStr s => get (lower s) (25 # 10) effort_mapping
   | _ => 25 # 10
   end).

(** [a <= b] on keys, as tuples compare. *)
Definition key_le (a b : key) : Prop :=
  let '(fa, ca, ea) := a in
  let '(fb, cb, eb) := b in
  (fa = false /\ fb = true)
  \/ (fa = fb /\ (ca < cb \/ (ca == cb /\ ea <= eb))).

(** The order of a ranking: an earlier entry has a key at least as large
    as a later one; on the entries decorated with their keys, and on the
    records of the probes. *)
Definition desc {A : Type} (x y : key * A) : Prop := key_le (fst y) (fst x).

Definition ranked_before (x y : record) : Prop := key_le (key_of y) (key_of x).

(** The template of the quick check. *)
Definition quick_template : PromptTemplate :=
  mkTemplate (u "Schnelle Machbarkeitsanalyse") (u "quick_json") (3 # 10) 500.

(** The reply of the server that carries [content] as its text. *)
Definition completion (content : str) : response :=
  mkResponse 200 []
    (Ok (JDict
       [ (u "choices",
            JList [ JDict [ (u "message",
                               JDict [ (u "role", JStr (u "assistant"));
                                       (u "content", JStr content) ]) ] ]);
         (u "usage",
            JDict [ (u "prompt_tokens", JInt 120);
                    (u "completion_tokens", JInt 30);
                    (u "total_tokens", JInt 150) ]) ])).

(** A world in which the inputs are valid and the model answers with
    [content] at the first attempt. *)
Definition world_replying (content : str) : world :=
  mkWorld (u "a1b2c3d4") (Ok (true, []))
    (Ok [ (u "system", u "Du bist ein KI-Experte.");
          (u "user", u "Bewerte die Machbarkeit:") ])
    (Some quick_template) three_attempts (fun _ => Ok (completion content)).

(** A world in which the server cannot be reached. *)
Definition world_offline : world :=
  mkWorld (u "a1b2c3d4") (Ok (true, []))
    (Ok [ (u "system", u "Du bist ein KI-Experte.");
          (u "user", u "Bewerte die Machbarkeit:") ])
    (Some quick_template) three_attempts
    (fun _ => Raise (Exn RequestException (u "connection refused"))).

(** A complete quick reply whose effort is [null]. *)
Definition null_effort_text : str :=
  u "{" ++ quoted (u "machbarkeit") ++ u ":" ++ quoted (u "gut") ++ u ","
  ++ quoted (u "aufwand") ++ u ":null,"
  ++ quoted (u "kosten") ++ u ":" ++ quoted (u "1000-5000€") ++ u ","
  ++ quoted (u "zeitrahmen") ++ u ":" ++ quoted (u "1-3 Monate") ++ u ","
  ++ quoted (u "empfehlung") ++ u ":" ++ quoted (u "go") ++ u "}".

Definition null_effort_reply : dict :=
  [ (u "machbarkeit", JStr (u "gut"));
    (u "aufwand", JNull);
    (u "kosten", JStr (u "1000-5000€"));
    (u "zeitrahmen", JStr (u "1-3 Monate"));
    (u "empfehlung", JStr (u "go")) ].

(** A quick reply whose effort is capitalised. *)
Definition capital_effort_text : str :=
  u "{" ++ quoted (u "machbarkeit") ++ u ":" ++ quoted (u "gut") ++ u ","
  ++ quoted (u "aufwand") ++ u ":" ++ quoted (u "Gering") ++ u ","
  ++ quoted (u "empfehlung") ++ u ":" ++ quoted (u "go") ++ u "}".

Definition capital_effort_reply : dict :=
  [ (u "machbarkeit", JStr (u "gut"));
    (u "aufwand", JStr (u "Gering"));
    (u "empfehlung", JStr (u "go")) ].

(** The library that decodes the three replies. *)
Definition probe_library : Library :=
  table_library [ (scenario_text, JDict scenario_reply);
                  (null_effort_text, JDict null_effort_reply);
                  (capital_effort_text, JDict capital_effort_reply) ].

(** The score of an effort looked up as it is written. *)
Definition literal_effort_score (effort : str) : Q :=
  get effort (25 # 10) effort_mapping.

(** Two use cases; the model answers the first with the scenario reply
    and the second with the reply whose effort is [null]. *)
Definition use_case_described (text : str) : UseCase :=
  mkUseCase None None None (Some text) None None None None None None.

Definition two_use_cases : list UseCase :=
  [ use_case_described (u "AI-assisted quoting");
    use_case_described (u "Automated scheduling") ].

Definition worlds_with_null_effort : nat -> world :=
  fun i =>
    match i with
    | O => world_replying scenario_text
    | _ => world_replying null_effort_text
    end.

Definition worlds_with_capital_effort : nat -> world :=
  fun i =>
    match i with
    | O => world_replying capital_effort_text
    | _ => world_replying scenario_text
    end.

Definition worlds_of_scenario : nat -> world :=
  fun i =>
    match i with
    | O => world_offline
    | _ => world_replying scenario_text
    end.

End Spec.

(* ================================================================== *)
(** * Statements: further properties of the code *)
(* ================================================================== *)

Module Props.

Import ResponseParser LMStudioClient PromptTemplates AnalysisEngine Spec.

(** ** The parser *)

(** The characters by which [_detect_format] tells JSON from text. *)
Definition brackets : list str := [u "{"; u "}"; u "["; u "]"].

(** A step of the analysis that carries its three required fields. *)
Definition complete_step (step : json) : bool :=
  match step with
  | JDict s => forallb (fun f => has_key f s) required_step_fields
  | _ => false
  end.

(** The lines of a text that one of the list patterns matches. *)
Definition list_lines (text : str) : list str :=
  filter (fun line => is_some (match_list_item line)) (split_lines text).

(** A stored section has a title and a content. *)
Definition titled (kv : str * str) : Prop := fst kv <> [] /\ snd kv <> [].

(** What the loop of [_find_text_sections] keeps: the stored sections
    have titles and contents, no title is stored twice, and the lines
    gathered for the open section are not empty. *)
Definition section_invariant (st : section_state) : Prop :=
  Forall titled (sections st)
  /\ NoDup (List.map fst (sections st))
  /\ Forall (fun line => line <> []) (current_content st).

(** The three lists of [_extract_lists_from_text]. *)
Definition three_lists (schritte empfehlungen allgemein : list str)
  : list (str * list str) :=
  [ (u "schritte", schritte); (u "empfehlungen", empfehlungen);
    (u "allgemein", allgemein) ].

(** The opening braces of a text minus its closing braces. *)
Fixpoint brace_balance (s : str) : Z :=
  match s with
  | [] => 0%Z
  | c :: r =>
    ((if char_eqb c LBRACE then 1 else if char_eqb c RBRACE then -1 else 0)
     + brace_balance r)%Z
  end.

(** A candidate of the brace scan: it opens with a brace, closes with a
    brace, and has as many opening as closing braces. *)
Definition balanced_object (candidate : str) : Prop :=
  (exists body, candidate = LBRACE :: body ++ [RBRACE])
  /\ brace_balance candidate = 0%Z.

(** What the brace scan knows about the text read so far, [pre]: when a
    candidate is open at [start], it begins there with a brace and the
    balance of its part read so far is the (positive) brace count. *)
Definition scan_invariant (pre : str) (brace_start : option nat) (brace_count : Z)
  : Prop :=
  match brace_start with
  | Some start =>
    exists before seg,
      pre = before ++ LBRACE :: seg
      /\ length before = start
      /\ brace_balance (LBRACE :: seg) = brace_count
      /\ (0 < brace_count)%Z
  | None => True
  end.

(** ** The client *)

(** The characters of the contents of the messages of a request. *)
Definition content_length (messages : list (list (str * str))) : nat :=
  list_sum (List.map (fun message => length (get (u "content") [] message)) messages).

(** The ids that the model list of a reply announces. *)
Definition available_models (r : response) : py (list json) :=
  models <- resp_json r ;;
  data <- py_get (u "data") (JList []) models ;;
  items <- py_iter data ;;
  model_ids items.

(** The reply to the GET of the model list that announces [ids]. *)
Definition model_list (ids : list str) : response :=
  mkResponse 200 []
    (Ok (JDict [ (u "data",
                    JList (List.map (fun i => JDict [ (u "id", JStr i) ]) ids)) ])).

(** ** The template manager *)

(** A required text field that is present and not blank. *)
Definition filled (v : option str) : bool :=
  negb (forallb is_space (text_or v [])).

(** ** The settings and the helpers of config.py *)

(** The score of a level word, as [level_mapping.get(word.lower(), 2)]
    reads it. *)
Definition level (word : str) : Z := get (lower word) 2%Z Config.level_mapping.

(** The four conditions of [validate_lm_studio_config]. *)
Definition url_ok (settings : Config.LMStudioSettings) : bool :=
  starts_with (u "http://") (Config.base_url settings)
  || starts_with (u "https://") (Config.base_url settings).

Definition temperature_ok (settings : Config.LMStudioSettings) : bool :=
  Qle_bool 0 (Config.temperature settings) && Qle_bool (Config.temperature settings) 2.

Definition tokens_ok (settings : Config.LMStudioSettings) : bool :=
  (100 <=? Config.max_tokens settings)%Z.

Definition top_p_ok (settings : Config.LMStudioSettings) : bool :=
  Qle_bool 0 (Config.top_p settings) && Qle_bool (Config.top_p settings) 1.

(** The label of the effort of a level. *)
Definition effort_label (score : Z) : str :=
  if (score =? 1)%Z then u "Gering"
  else if (score =? 2)%Z then u "Mittel"
  else if (score =? 3)%Z then u "Hoch"
  else u "Sehr hoch".

(** A step that is a mapping whose effort, the default mittel when it has
    none, is the word of the level with this score. *)
Definition step_of_level (score : Z) (step : json) : Prop :=
  exists d word,
    step = JDict d
    /\ get (u "aufwand") (JStr (u "mittel")) d = JStr word
    /\ lookup (lower word) Config.level_mapping = Some score.

(** ** The engine *)

(** The duration of a phase when it is a whole number of weeks: an
    integer or a truth value; a phase without duration, or with one that
    is neither a number nor a text, adds nothing. *)
Definition whole_weeks (phase : json) : option Z :=
  match phase with
  | JDict d =>
    match get (u "dauer_wochen") (JInt 0) d with
    | JInt z => Some z
    | JBool b => Some (Z.b2z b)
    | JNull | JList _ | JDict _ => Some 0%Z
    | JFloat _ | JStr _ => None
    end
  | _ => None
  end.

(** The analysis of the use case at index [i], when it succeeds. *)
Definition analysed_at {L : Library} (worlds : nat -> world) (template_name : str)
  (i : nat) : list AIAnalysis :=
  match analyze_use_case (worlds i) template_name with
  | Ok analysis => [analysis]
  | Raise _ => []
  end.

(** The entries [valid] and [error] that [analyze_use_case] reads from
    the result of [validate_template_data]. *)
Definition validation_entries (v : TemplateValidation) : py (bool * str) :=
  match tv_error v with
  | Some message => Ok (tv_valid v, message)
  | None =>
    if tv_valid v then Ok (true, [])
    else Raise (Exn KeyError (u "'error'"))
  end.

(** A company profile with a name and no branch. *)
Definition profile_without_branch : CompanyProfile :=
  mkCompanyProfile (Some (u "Tischlerei Holz")) None None None None None None None
                   None None None.

(** A world whose inputs are checked by the template manager. *)
Definition world_checked (company_profile : CompanyProfile) (use_case : UseCase)
  : world :=
  mkWorld (u "a1b2c3d4")
    (validation_entries
       (validate_template_data _initialize_templates (u "quick_feasibility")
          company_profile use_case))
    (Ok [ (u "system", u "Du bist ein KI-Experte.");
          (u "user", u "Bewerte die Machbarkeit:") ])
    (get_template _initialize_templates (u "quick_feasibility"))
    three_attempts (fun _ => Ok (completion scenario_text)).

(** Doubles for closed examples: an integer is converted as it is, the
    sum is exact, and no text is a number. *)
Definition exact_floats : Floats :=
  {| float_of_int z := Ok (inject_Z z);
     float_add a b := a + b;
     float_of_str _ := Raise (Exn ValueError (u "could not convert string to float")) |}.

End Props.

(* ================================================================== *)
(** * Properties *)
(* ================================================================== *)

Module PyFacts.

Lemma str_eqb_eq (a b : str) : str_eqb a b = true <-> a = b.
Proof.
  revert b. induction a as [|x a IH]; intros [|y b]; simpl; split;
    try congruence; try reflexivity.
  - intros H. apply andb_true_iff in H as [Hx Hab].
    apply N.eqb_eq in Hx. apply IH in Hab. congruence.
  - intros H. injection H as -> ->. apply andb_true_iff. split.
    + apply N.eqb_refl.
    + now apply IH.
Qed.

Lemma str_eqb_refl (a : str) : str_eqb a a = true.
Proof. now apply str_eqb_eq. Qed.

Lemma str_eqb_neq (a b : str) : str_eqb a b = false <-> a <> b.
Proof.
  split.
  - intros H E. apply str_eqb_eq in E. congruence.
  - intros H. destruct (str_eqb a b) eqn:E; [|reflexivity].
    apply str_eqb_eq in E. contradiction.
Qed.

Lemma lstrip_nil (s : str) : is_nil (lstrip s) = forallb is_space s.
Proof.
  induction s as [|c s IH]; simpl; [reflexivity|].
  destruct (is_space c); simpl; [exact IH | reflexivity].
Qed.

Lemma forallb_rev {A : Type} (f : A -> bool) (l : list A) :
  forallb f (rev l) = forallb f l.
Proof.
  induction l as [|x l IH]; simpl; [reflexivity|].
  rewrite forallb_app, IH. simpl. rewrite andb_true_r. apply andb_comm.
Qed.

Lemma is_nil_rev {A : Type} (l : list A) : is_nil (rev l) = is_nil l.
Proof.
  destruct l as [|x l]; simpl; [reflexivity|].
  destruct (rev l); reflexivity.
Qed.

(** A suffix of a string that is all white space is all white space. *)
Lemma forallb_lstrip (s : str) :
  forallb is_space (lstrip s) = forallb is_space s.
Proof.
  induction s as [|c s IH]; simpl; [reflexivity|].
  destruct (is_space c) eqn:E; simpl; [exact IH | now rewrite E].
Qed.

(** [s.strip()] is empty exactly when [s] is empty or all white space. *)
Lemma strip_nil (s : str) : is_nil (strip s) = forallb is_space s.
Proof.
  unfold strip, rstrip.
  rewrite is_nil_rev, lstrip_nil, forallb_rev. apply forallb_lstrip.
Qed.

Lemma ratio_bounds (present total : nat) :
  (present <= total)%nat ->
  0 <= ResponseParser.ratio present total /\ ResponseParser.ratio present total <= 1.
Proof.
  intros Hle. unfold ResponseParser.ratio.
  destruct total as [|t].
  - assert (present = 0)%nat by lia. subst. split; vm_compute; discriminate.
  - assert (Hpos : 0 < inject_Z (Z.of_nat (S t))).
    { rewrite <- (Zlt_Qlt 0). lia. }
    split.
    + apply Qle_shift_div_l; [exact Hpos|]. rewrite Qmult_0_l.
      rewrite <- (Zle_Qle 0). lia.
    + apply Qle_shift_div_r; [exact Hpos|]. rewrite Qmult_1_l.
      rewrite <- Zle_Qle. lia.
Qed.

Lemma Qgtb_true (a b : Q) : Qgtb a b = true <-> b < a.
Proof.
  unfold Qgtb. rewrite negb_true_iff. split.
  - intros H. apply Qnot_le_lt. intros Hle.
    apply Qle_bool_iff in Hle. congruence.
  - intros H. destruct (Qle_bool a b) eqn:E; [|reflexivity].
    apply Qle_bool_iff in E. exfalso. apply (Qlt_not_le _ _ H E).
Qed.

Lemma Qgtb_false (a b : Q) : Qgtb a b = false <-> a <= b.
Proof.
  unfold Qgtb. rewrite negb_false_iff. apply Qle_bool_iff.
Qed.

End PyFacts.

Module ParserFacts.

Import ResponseParser PyFacts Spec.

(** Closed comparisons of rationals. *)
Ltac qle := apply Qle_bool_iff; vm_compute; reflexivity.

(** ** Structural validation *)

Lemma expected_fields_cases (fmt : str) (fields : list str) :
  lookup fmt expected_fields = Some fields ->
  (fmt = u "structured_json" \/ fmt = u "quick_json"
   \/ fmt = u "roi_json" \/ fmt = u "implementation_json")
  /\ fields <> [].
Proof.
  unfold expected_fields. simpl lookup.
  destruct (str_eqb fmt (u "structured_json")) eqn:E1.
  { apply str_eqb_eq in E1. intros H. injection H as <-. split; [tauto | discriminate]. }
  destruct (str_eqb fmt (u "quick_json")) eqn:E2.
  { apply str_eqb_eq in E2. intros H. injection H as <-. split; [tauto | discriminate]. }
  destruct (str_eqb fmt (u "roi_json")) eqn:E3.
  { apply str_eqb_eq in E3. intros H. injection H as <-. split; [tauto | discriminate]. }
  destruct (str_eqb fmt (u "implementation_json")) eqn:E4.
  { apply str_eqb_eq in E4. intros H. injection H as <-. split; [tauto | discriminate]. }
  discriminate.
Qed.

Lemma present_le (fields : list str) (d : dict) :
  (length (present_in fields d) <= length fields)%nat.
Proof. apply filter_length_le. Qed.

Lemma step_factor_bounds (step : json) :
  0 <= step_factor step /\ step_factor step <= 1.
Proof.
  destruct step; try (split; qle).
  unfold step_factor. apply ratio_bounds, present_le.
Qed.

Lemma fold_factor_bounds (steps : list json) (q : Q) :
  0 <= q /\ q <= 1 ->
  0 <= fold_left (fun q step => q * step_factor step) steps q
  /\ fold_left (fun q step => q * step_factor step) steps q <= 1.
Proof.
  revert q. induction steps as [|s steps IH]; intros q Hq; simpl; [exact Hq|].
  apply IH. destruct (step_factor_bounds s). destruct Hq. split; nra.
Qed.

Lemma analysis_quality_bounds (d : dict) :
  0 <= _validate_analysis_structure d /\ _validate_analysis_structure d <= 1.
Proof.
  unfold _validate_analysis_structure.
  set (q1 := match get (u "handlungsschritte") (JList []) d with
             | JList steps => fold_left (fun q step => q * step_factor step) steps 1
             | _ => 1
             end).
  assert (H1 : 0 <= q1 /\ q1 <= 1).
  { subst q1. destruct (get (u "handlungsschritte") (JList []) d);
      try (split; qle).
    apply fold_factor_bounds. split; qle. }
  set (q2 := match get (u "technische_loesungen") (JList []) d with
             | JList (_ :: _) => q1 * (11 # 10)
             | _ => q1
             end).
  assert (H2 : 0 <= q2).
  { subst q2. destruct H1.
    destruct (get (u "technische_loesungen") (JList []) d) as [| | | | |[|]|];
      try assumption. nra. }
  split.
  - apply Q.min_glb; [exact H2 | vm_compute; discriminate].
  - apply Q.le_min_r.
Qed.

Lemma feasibility_quality_bounds (d : dict) (q : Q) :
  _validate_feasibility_structure d = Ok q -> 0 <= q /\ q <= 1.
Proof.
  unfold _validate_feasibility_structure.
  cbv beta zeta delta [bind].
  destruct (py_lower (get (u "machbarkeit") (JStr []) d)) as [f|]; [|discriminate].
  destruct (py_lower (get (u "empfehlung") (JStr []) d)) as [r|]; [|discriminate].
  destruct (negb (str_in f valid_feasibility)), (negb (str_in r valid_recommendations));
    intros H; injection H as <-; split; qle.
Qed.

(** A confidence that [_validate_structure] reports lies in [0, 1]. *)
Lemma validate_confidence_bounds (data : json) (fmt : str) (v : Validation) :
  _validate_structure data fmt = Ok v ->
  0 <= v_confidence v /\ v_confidence v <= 1.
Proof.
  unfold _validate_structure.
  destruct data as [| | | | | |d];
    try (intros H; injection H as <-; simpl; split; qle).
  destruct (negb (is_nil (get fmt [] expected_fields))) eqn:Hf.
  - pose proof (ratio_bounds (present_le (get fmt [] expected_fields) d)) as [Hr0 Hr1].
    set (r := ratio _ _) in *.
    destruct (str_eqb fmt (u "structured_json")).
    + simpl. intros H. injection H as <-. simpl.
      destruct (analysis_quality_bounds d). split; nra.
    + destruct (str_eqb fmt (u "quick_json")).
      * destruct (_validate_feasibility_structure d) as [q|] eqn:Hq; simpl; [|discriminate].
        intros H. injection H as <-. simpl.
        destruct (feasibility_quality_bounds Hq). split; nra.
      * simpl. intros H. injection H as <-. simpl. split; assumption.
  - intros H. injection H as <-. simpl.
    destruct d; simpl; split; qle.
Qed.

(** Only a mapping is judged valid. *)
Lemma validate_valid_dict (data : json) (fmt : str) (v : Validation) :
  _validate_structure data fmt = Ok v -> valid v = true -> is_dict data = true.
Proof.
  destruct data; simpl; try reflexivity;
    intros H; injection H as <-; simpl; discriminate.
Qed.

(** On text (or absent) entries the quality check of the quick format
    returns the product of the two penalties. *)
Lemma feasibility_quality_textual (d : dict) :
  inspectable (u "quick_json") d = true ->
  exists q, _validate_feasibility_structure d = Ok q
            /\ q == quality_factor (u "quick_json") d.
Proof.
  unfold inspectable. rewrite str_eqb_refl. intros H.
  apply andb_true_iff in H as [Hm He].
  unfold _validate_feasibility_structure, quality_factor.
  replace (str_eqb (u "quick_json") (u "structured_json")) with false
    by (vm_compute; reflexivity).
  rewrite str_eqb_refl.
  unfold textual_or_absent in Hm, He. unfold inspected, get.
  destruct (lookup (u "machbarkeit") d) as [[| | | |m| |]|]; try discriminate;
    destruct (lookup (u "empfehlung") d) as [[| | | |e| |]|]; try discriminate;
    cbv beta iota zeta delta [bind py_lower];
    change (lower []) with (@nil char);
    eexists; (split; [reflexivity|]);
    try match goal with
    | |- context [str_in (lower ?a) valid_feasibility] =>
      destruct (str_in (lower a) valid_feasibility)
    end;
    try match goal with
    | |- context [str_in (lower ?a) valid_recommendations] =>
      destruct (str_in (lower a) valid_recommendations)
    end; vm_compute; reflexivity.
Qed.

(** C3, as amended.  For a mapping and a format with a registered list
    of required fields, where the two entries inspected for the quick
    format are text or absent: the validation returns; its confidence is
    the share of required fields present, times the quality factor of the
    format (for the quick format 0.7 when the lowercased feasibility, the
    empty text if absent, is outside its vocabulary, and 0.8 likewise for
    the recommendation); and the candidate is valid exactly when this
    confidence exceeds 0.5 and no error was recorded. *)
Theorem structural_scoring (d : dict) (fmt : str) (fields : list str) :
  lookup fmt expected_fields = Some fields ->
  inspectable fmt d = true ->
  exists v,
    _validate_structure (JDict d) fmt = Ok v
    /\ v_confidence v
       == ratio (length (present_in fields d)) (length fields) * quality_factor fmt d
    /\ (valid v = true <-> 5 # 10 < v_confidence v /\ v_errors v = []).
Proof.
  intros Hfields Hinsp.
  destruct (expected_fields_cases Hfields) as [_ Hne].
  unfold _validate_structure, get. rewrite Hfields.
  destruct fields as [|f0 fields0]; [congruence|].
  set (fields := f0 :: fields0) in *.
  cbv beta iota zeta delta [is_nil negb].
  set (r := ratio (length (present_in fields d)) (length fields)).
  set (errs := if _ : bool then [_] else []).
  set (warns := if _ : bool then [_] else []).
  assert (Hvalid : forall c : Q,
            Qgtb c (5 # 10) && match errs with [] => true | _ => false end = true
            <-> 5 # 10 < c /\ errs = []).
  { intros c. rewrite andb_true_iff, Qgtb_true.
    destruct errs; split; intros [? ?]; split; auto; discriminate. }
  unfold quality_factor.
  destruct (str_eqb fmt (u "structured_json")) eqn:E1.
  - cbv beta iota zeta delta [bind]. eexists. split; [reflexivity|].
    simpl v_confidence. simpl valid. simpl v_errors.
    split; [reflexivity | apply Hvalid].
  - destruct (str_eqb fmt (u "quick_json")) eqn:E2.
    + apply str_eqb_eq in E2. subst fmt.
      destruct (feasibility_quality_textual Hinsp) as [q [Hq Hqq]].
      rewrite Hq. cbv beta iota zeta delta [bind]. eexists. split; [reflexivity|].
      simpl v_confidence. simpl valid. simpl v_errors.
      split; [|apply Hvalid].
      unfold quality_factor in Hqq.
      replace (str_eqb (u "quick_json") (u "structured_json")) with false in Hqq
        by (vm_compute; reflexivity).
      rewrite str_eqb_refl in Hqq. rewrite Hqq. reflexivity.
    + cbv beta iota zeta delta [bind]. eexists. split; [reflexivity|].
      simpl v_confidence. simpl valid. simpl v_errors.
      split; [ring | apply Hvalid].
Qed.

(** The scenario reply is scored 3/5 and judged valid. *)
Lemma structural_scoring_witness :
  exists v,
    _validate_structure (JDict scenario_reply) (u "quick_json") = Ok v
    /\ v_confidence v
       == ratio (length (present_in
                           [u "machbarkeit"; u "aufwand"; u "kosten";
                            u "zeitrahmen"; u "empfehlung"] scenario_reply)) 5
          * quality_factor (u "quick_json") scenario_reply
    /\ (valid v = true <-> 5 # 10 < v_confidence v /\ v_errors v = []).
Proof.
  apply (@structural_scoring scenario_reply (u "quick_json")
           [u "machbarkeit"; u "aufwand"; u "kosten"; u "zeitrahmen"; u "empfehlung"]).
  - vm_compute. reflexivity.
  - vm_compute. reflexivity.
Defined.

(** C3, as stated, fails.  The feasibility Gut is outside the
    vocabulary as it is written, yet the reply is scored 3/5 without the
    penalty 0.7, and judged valid: the value is compared in lower case.
    And on a complete quick reply whose feasibility is the number 5 the
    validation computes no confidence: it raises. *)
Lemma structural_scoring_counterexample :
  (str_in (u "Gut") valid_feasibility = false
   /\ exists v,
        _validate_structure (JDict capitalised_reply) (u "quick_json") = Ok v
        /\ v_confidence v == 3 # 5 /\ valid v = true)
  /\ _validate_structure (JDict numeric_feasibility_reply) (u "quick_json")
     = Raise (Exn AttributeError (u "'int' object has no attribute 'lower'")).
Proof.
  split; [split|].
  - vm_compute. reflexivity.
  - eexists. split; [vm_compute; reflexivity|]. split; vm_compute; reflexivity.
  - vm_compute. reflexivity.
Qed.

(** ** Extraction from free text *)

Lemma fallback_text_ok (response fmt : str) :
  exists r d,
    _parse_fallback_text response fmt = Ok r
    /\ success r = true /\ data r = JDict d /\ d <> []
    /\ confidence r = 3 # 10.
Proof.
  unfold _parse_fallback_text.
  destruct (str_eqb fmt (u "quick_json")); [|destruct (str_eqb fmt (u "structured_json"))];
    eexists; eexists; (split; [reflexivity|]); simpl success; simpl data;
    simpl confidence; repeat split; discriminate.
Qed.

Lemma section_fold_confidence (fmt : str) (secs : list (str * str)) (acc : dict * Q) :
  snd (fold_left (section_fold fmt) secs acc)
  == snd acc
     + inject_Z (Z.of_nat
         (length (filter (fun sec => is_some (_map_section_to_field (fst sec) fmt)) secs)))
       * (1 # 10).
Proof.
  revert acc. induction secs as [|sec secs IH]; intros [ed c].
  - simpl. ring.
  - simpl fold_left. rewrite IH. unfold section_fold. simpl filter.
    destruct (_map_section_to_field (fst sec) fmt); simpl is_some; cbv iota.
    + simpl snd. simpl length. rewrite Nat2Z.inj_succ, <- Z.add_1_r, inject_Z_plus.
      ring.
    + simpl snd. ring.
Qed.

(** The confidence of the section-based extraction: 0.4, raised by 0.1
    for each mapped section and by the raise of the list scan, capped at
    1.0. *)
Lemma structured_text_confidence (response fmt : str) :
  confidence (_extract_structured_text response fmt)
  == Qmin ((4 # 10) + inject_Z (Z.of_nat (mapped_sections response fmt)) * (1 # 10)
           + list_bonus response) 1.
Proof.
  unfold _extract_structured_text, mapped_sections, list_bonus.
  pose proof (section_fold_confidence fmt (_find_text_sections response) ([], 4 # 10)) as H.
  destruct (fold_left (section_fold fmt) (_find_text_sections response) ([], 4 # 10))
    as [ed c].
  simpl snd in H. unfold nonempty.
  destruct (negb (is_nil (_extract_lists_from_text response)));
    simpl confidence; rewrite H; [reflexivity|].
  apply Q.min_compat; [ring | reflexivity].
Qed.

Lemma structured_text_is_dict (response fmt : str) :
  is_dict (data (_extract_structured_text response fmt)) = true.
Proof.
  unfold _extract_structured_text.
  destruct (fold_left (section_fold fmt) (_find_text_sections response) ([], 4 # 10))
    as [ed c].
  destruct (negb (is_nil (_extract_lists_from_text response))); reflexivity.
Qed.

Lemma list_bonus_bounds (response : str) :
  0 <= list_bonus response /\ list_bonus response <= 2 # 10.
Proof.
  unfold list_bonus. destruct (nonempty _); split; qle.
Qed.

Lemma structured_text_bounds (response fmt : str) :
  4 # 10 <= confidence (_extract_structured_text response fmt)
  /\ confidence (_extract_structured_text response fmt) <= 1.
Proof.
  rewrite structured_text_confidence.
  destruct (list_bonus_bounds response) as [Hb _].
  assert (Hn : 0 <= inject_Z (Z.of_nat (mapped_sections response fmt))).
  { rewrite <- (Zle_Qle 0). lia. }
  split.
  - apply Q.min_glb; [nra | qle].
  - apply Q.le_min_r.
Qed.

(** C8, as amended.  The confidence of [_parse_fallback_text] is 0.3
    whatever it extracts.  The confidence of the section-based extraction
    [_extract_structured_text] is not capped low: it is 0.4, raised by 0.1
    for every section mapped to a field and by the raise of the list scan,
    capped at 1.0; it lies between 0.4 and 1.0.  The sum is the exact
    one; the doubles of the code round it in the last place. *)
Theorem text_extraction_confidence (response fmt : str) :
  (exists r, _parse_fallback_text response fmt = Ok r /\ confidence r == 3 # 10)
  /\ confidence (_extract_structured_text response fmt)
     == Qmin ((4 # 10) + inject_Z (Z.of_nat (mapped_sections response fmt)) * (1 # 10)
              + list_bonus response) 1
  /\ 4 # 10 <= confidence (_extract_structured_text response fmt)
  /\ confidence (_extract_structured_text response fmt) <= 1.
Proof.
  split; [|split].
  - destruct (fallback_text_ok response fmt) as [r [d [Hr [_ [_ [_ Hc]]]]]].
    exists r. split; [exact Hr|]. rewrite Hc. reflexivity.
  - apply structured_text_confidence.
  - apply structured_text_bounds.
Qed.

(** C8, as stated, fails: a text with three mapped headings is extracted
    with three raises of 0.1 and the raise of the list scan, so with a
    confidence above 0.8, and not with one of at most 0.4. *)
Lemma text_extraction_confidence_counterexample :
  mapped_sections three_sections (u "structured_json") = 3%nat
  /\ 8 # 10 < confidence (_extract_structured_text three_sections (u "structured_json"))
  /\ ~ confidence (_extract_structured_text three_sections (u "structured_json"))
        <= 4 # 10.
Proof.
  split; [|split].
  - vm_compute. reflexivity.
  - vm_compute. reflexivity.
  - intros H. apply Qle_bool_iff in H. vm_compute in H. discriminate.
Qed.

(** ** The strategies *)

Section StrategyFacts.

Context {L : Library}.

Lemma sound_result_of (data : json) (fmt detected : str) (v : Validation) :
  _validate_structure data fmt = Ok v -> sound (result_of data v detected).
Proof.
  intros H. split.
  - simpl. apply (validate_valid_dict H).
  - simpl. apply (validate_confidence_bounds H).
Qed.

Lemma sound_failed (message : str) : sound (failed message).
Proof. split; [discriminate | split; qle]. Qed.

Lemma sound_structured_text (response fmt : str) :
  sound (_extract_structured_text response fmt).
Proof.
  split.
  - intros _. apply structured_text_is_dict.
  - destruct (structured_text_bounds response fmt) as [H0 H1].
    split; [|exact H1]. apply Qle_trans with (4 # 10); [qle | exact H0].
Qed.

Lemma clean_json_sound (response fmt : str) (r : ParseResult) :
  _parse_clean_json response fmt = Ok r -> sound r.
Proof.
  unfold _parse_clean_json, try_except. cbv beta zeta delta [bind].
  destruct (json_loads (strip response)) as [data|e].
  - destruct (_validate_structure data fmt) as [v|e] eqn:Hv.
    + intros H. injection H as <-. apply (sound_result_of _ Hv).
    + destruct (class_eqb JSONDecodeError (exn_cls e)); [|discriminate].
      intros H. injection H as <-. apply sound_failed.
  - destruct (class_eqb JSONDecodeError (exn_cls e)); [|discriminate].
    intros H. injection H as <-. apply sound_failed.
Qed.

Lemma markdown_candidate_sound (m fmt : str) (r : ParseResult) :
  markdown_candidate m fmt = Ok (Some r) -> sound r.
Proof.
  unfold markdown_candidate, try_except. cbv beta zeta delta [bind].
  destruct (json_loads (_clean_json_string m)) as [data|e].
  - destruct (_validate_structure data fmt) as [v|e] eqn:Hv.
    + destruct (valid v || Qgtb (v_confidence v) (5 # 10)); [|discriminate].
      intros H. injection H as <-. apply (sound_result_of _ Hv).
    + destruct (class_eqb JSONDecodeError (exn_cls e)); discriminate.
  - destruct (class_eqb JSONDecodeError (exn_cls e)); discriminate.
Qed.

Lemma first_candidate_sound (matches : list str) (fmt : str) (r : ParseResult) :
  first_candidate matches fmt = Ok (Some r) -> sound r.
Proof.
  induction matches as [|m matches IH]; simpl; [discriminate|].
  destruct (markdown_candidate m fmt) as [[r'|]|e] eqn:Hm; simpl.
  - intros H. injection H as <-. apply (markdown_candidate_sound Hm).
  - exact IH.
  - discriminate.
Qed.

Lemma markdown_json_sound (response fmt : str) (r : ParseResult) :
  _parse_markdown_json response fmt = Ok r -> sound r.
Proof.
  unfold _parse_markdown_json.
  destruct (first_candidate _ fmt) as [[r'|]|e] eqn:Hf; simpl.
  - intros H. injection H as <-. apply (first_candidate_sound Hf).
  - intros H. injection H as <-. apply sound_failed.
  - discriminate.
Qed.

Lemma best_candidate_sound (candidates : list str) (fmt : str)
  (best r : option ParseResult) :
  (forall b, best = Some b -> sound b) ->
  best_candidate candidates fmt best = Ok r ->
  forall b, r = Some b -> sound b.
Proof.
  revert best. induction candidates as [|c candidates IH]; intros best Hbest; simpl.
  - intros H. injection H as <-. exact Hbest.
  - unfold try_except. cbv beta zeta delta [bind].
    destruct (json_loads (_clean_json_string c)) as [data|e].
    + destruct (_validate_structure data fmt) as [v|e] eqn:Hv.
      * apply IH. intros b.
        destruct (better (result_of data v (u "mixed_content")) best).
        -- intros H. injection H as <-. apply (sound_result_of _ Hv).
        -- apply Hbest.
      * destruct (class_eqb JSONDecodeError (exn_cls e)); [|discriminate].
        apply IH. exact Hbest.
    + destruct (class_eqb JSONDecodeError (exn_cls e)); [|discriminate].
      apply IH. exact Hbest.
Qed.

Lemma mixed_content_sound (response fmt : str) (r : ParseResult) :
  _parse_mixed_content response fmt = Ok r -> sound r.
Proof.
  unfold _parse_mixed_content.
  destruct (best_candidate (json_candidates response) fmt None) as [[b|]|e] eqn:Hb;
    simpl.
  - intros H. injection H as <-.
    eapply best_candidate_sound; [|exact Hb|reflexivity]. discriminate.
  - intros H. injection H as <-. apply sound_structured_text.
  - discriminate.
Qed.

Lemma fallback_text_sound (response fmt : str) (r : ParseResult) :
  _parse_fallback_text response fmt = Ok r -> sound r.
Proof.
  destruct (fallback_text_ok response fmt) as [r' [d [Hr [_ [Hd [_ Hc]]]]]].
  rewrite Hr. intros H. injection H as <-. split.
  - intros _. rewrite Hd. reflexivity.
  - rewrite Hc. split; qle.
Qed.

Lemma strategies_sound (response fmt : str) :
  Forall (fun ns => forall r, snd ns response fmt = Ok r -> sound r) parse_strategies.
Proof.
  unfold parse_strategies.
  apply Forall_cons; [intros r; apply clean_json_sound|].
  apply Forall_cons; [intros r; apply markdown_json_sound|].
  apply Forall_cons; [intros r; apply mixed_content_sound|].
  apply Forall_cons; [intros r; apply fallback_text_sound|].
  apply Forall_nil.
Qed.

(** ** The loop of [parse_response] *)

Lemma is_blank_spec (raw : str) : is_blank raw = forallb is_space raw.
Proof.
  unfold is_blank. rewrite strip_nil.
  destruct raw; reflexivity.
Qed.

(** Taking a result into account before the later ones, as the loop does,
    selects the same result as taking the best of all of them. *)
Lemma pick_step (r : ParseResult) (best hc : option ParseResult) :
  match hc with
  | Some m =>
    if better m (if better r best then Some r else best) then Some m
    else if better r best then Some r else best
  | None => if better r best then Some r else best
  end
  = match match hc with
          | Some b => if Qgtb (confidence b) (confidence r) then Some b else Some r
          | None => Some r
          end with
    | Some m => if better m best then Some m else best
    | None => best
    end.
Proof.
  destruct hc as [m|]; [|reflexivity].
  destruct best as [b|]; unfold better.
  - destruct (Qgtb (confidence r) (confidence b)) eqn:Erb; cbv beta iota;
      destruct (Qgtb (confidence m) (confidence r)) eqn:Emr; cbv beta iota;
      destruct (Qgtb (confidence m) (confidence b)) eqn:Emb; cbv beta iota;
      rewrite ?Erb, ?Emr, ?Emb;
      try reflexivity; exfalso;
      repeat match goal with
             | H : Qgtb _ _ = true |- _ => apply Qgtb_true in H
             | H : Qgtb _ _ = false |- _ => apply Qgtb_false in H
             end; lra.
  - destruct (Qgtb (confidence m) (confidence r)); reflexivity.
Qed.

Lemma run_strategies_chain
  (strategies : list (str * (str -> str -> py ParseResult)))
  (raw fmt : str) (errs : list str) (best : option ParseResult) :
  run_strategies strategies raw fmt errs best
  = let os := List.map (fun ns => (fst ns, snd ns raw fmt)) strategies in
    match first_success os with
    | Some (name, r) => (FromStrategy name, data r)
    | None =>
      after_loop raw (errs ++ collected_errors os)
        match highest_confidence (returned os) with
        | Some m => if better m best then Some m else best
        | None => best
        end
    end.
Proof.
  revert errs best. induction strategies as [|[name s] rest IH]; intros errs best.
  - simpl. rewrite app_nil_r. reflexivity.
  - simpl. destruct (s raw fmt) as [r|e].
    + destruct (success r); [reflexivity|].
      rewrite IH. cbv zeta.
      destruct (first_success _) as [[n' r']|]; [reflexivity|].
      rewrite <- app_assoc. f_equal. apply pick_step.
    + rewrite IH. cbv zeta.
      destruct (first_success _) as [[n' r']|]; [reflexivity|].
      rewrite <- app_assoc. reflexivity.
Qed.

(** The loop, started as [parse_response] starts it, does what the
    chain does with the outcomes of the strategies. *)
Lemma loop_chain (strategies : list (str * (str -> str -> py ParseResult)))
  (raw fmt : str) :
  run_strategies strategies raw fmt [] None
  = chain raw (outcomes_of strategies raw fmt).
Proof.
  rewrite run_strategies_chain. cbv zeta.
  fold (outcomes_of strategies raw fmt). unfold chain.
  destruct (first_success _) as [[n r]|]; [reflexivity|].
  simpl app. unfold after_loop.
  destruct (highest_confidence _) as [best|]; reflexivity.
Qed.

(** The result with the highest confidence is one of the results, and no
    result has a higher confidence. *)
Lemma highest_confidence_spec (rs : list ParseResult) (b : ParseResult) :
  highest_confidence rs = Some b ->
  In b rs /\ forall r, In r rs -> confidence r <= confidence b.
Proof.
  revert b. induction rs as [|r0 rs IH]; intros b; simpl; [discriminate|].
  destruct (highest_confidence rs) as [m|] eqn:Hh.
  - destruct (IH m eq_refl) as [Hin Hmax].
    destruct (Qgtb (confidence m) (confidence r0)) eqn:E; intros H; injection H as <-.
    + apply Qgtb_true in E. split; [now right|].
      intros r [<-|Hr]; [lra | now apply Hmax].
    + apply Qgtb_false in E. split; [now left|].
      intros r [<-|Hr]; [lra|]. specialize (Hmax r Hr). lra.
  - intros H. injection H as <-. split; [now left|].
    intros r [<-|Hr]; [lra|]. exfalso.
    destruct rs as [|r1 rs']; [contradiction|]. simpl in Hh.
    destruct (highest_confidence rs'); [destruct (Qgtb _ _)|]; discriminate.
Qed.

(** The last strategy returns a successful result: some strategy wins. *)
Lemma some_strategy_succeeds (raw fmt : str) :
  exists name r,
    first_success (outcomes raw fmt) = Some (name, r)
    /\ success r = true /\ is_dict (data r) = true.
Proof.
  assert (Hgen : forall ss : list (str * (str -> str -> py ParseResult)),
            Forall (fun ns => forall r, snd ns raw fmt = Ok r -> sound r) ss ->
            (exists pre ns r, ss = pre ++ [ns]
                              /\ snd ns raw fmt = Ok r /\ success r = true) ->
            exists name r,
              first_success (List.map (fun ns => (fst ns, snd ns raw fmt)) ss)
              = Some (name, r)
              /\ success r = true /\ is_dict (data r) = true).
  { induction ss as [|[n s] ss IH]; intros Hs [pre [ns [r [Hpre [Hr Hsucc]]]]].
    - destruct pre; discriminate.
    - inversion Hs as [|? ? Hhead Htail]; subst. simpl.
      destruct (s raw fmt) as [r0|e] eqn:Hs0.
      + destruct (success r0) eqn:Hr0.
        * exists n, r0. split; [reflexivity|]. split; [exact Hr0|].
          apply (Hhead r0 Hs0). exact Hr0.
        * apply IH; [exact Htail|].
          destruct pre as [|p pre]; simpl in Hpre; injection Hpre as Hp Hrest.
          -- subst ns. simpl in Hr. congruence.
          -- exists pre, ns, r. auto.
      + apply IH; [exact Htail|].
        destruct pre as [|p pre]; simpl in Hpre; injection Hpre as Hp Hrest.
        -- subst ns. simpl in Hr. congruence.
        -- exists pre, ns, r. auto. }
  apply Hgen; [apply strategies_sound|].
  destruct (fallback_text_ok raw fmt) as [r [d [Hr [Hs _]]]].
  exists [ (u "_parse_clean_json", _parse_clean_json);
           (u "_parse_markdown_json", _parse_markdown_json);
           (u "_parse_mixed_content", _parse_mixed_content) ],
         (u "_parse_fallback_text", _parse_fallback_text), r.
  repeat split; assumption.
Qed.

Lemma parse_response_from_chain (raw fmt : str) :
  forallb is_space raw = false ->
  parse_response_from raw fmt
  = Ok (chain raw (outcomes raw (effective_format raw fmt))).
Proof.
  intros Hraw. unfold parse_response_from. rewrite is_blank_spec, Hraw.
  fold (effective_format raw fmt). rewrite loop_chain. reflexivity.
Qed.

(** C2.  The loop of [parse_response], run on any list of strategies,
    does what the chain of the specification does with their outcomes: it
    returns the data of the first strategy, in order, whose result is
    successful; when none is, it takes the result with the highest
    confidence, the earliest among equals, and returns its data when it
    is not empty; and only otherwise it returns the mapping of the
    textual fallback, with the errors gathered.  On a reply that is not
    blank [parse_response] runs this loop on the four strategies in
    their fixed order (direct parse, fenced blocks, embedded objects,
    text extraction) with the effective format. *)
Theorem strategy_chain (raw fmt : str) :
  (forall strategies : list (str * (str -> str -> py ParseResult)),
      run_strategies strategies raw fmt [] None
      = chain raw (outcomes_of strategies raw fmt))
  /\ (forallb is_space raw = false ->
      parse_response_from raw fmt
      = Ok (chain raw (outcomes_of four_strategies raw (effective_format raw fmt)))
      /\ parse_response raw fmt
         = Ok (snd (chain raw
                      (outcomes_of four_strategies raw (effective_format raw fmt))))).
Proof.
  split.
  - intros strategies. apply loop_chain.
  - intros Hraw.
    assert (H : parse_response_from raw fmt
                = Ok (chain raw (outcomes_of four_strategies raw
                                   (effective_format raw fmt)))).
    { unfold parse_response_from. rewrite is_blank_spec, Hraw.
      fold (effective_format raw fmt).
      change parse_strategies with four_strategies.
      rewrite loop_chain. reflexivity. }
    split; [exact H|]. unfold parse_response. rewrite H. reflexivity.
Qed.

(** A blank reply raises the error of the empty reply. *)
Lemma parse_response_blank (raw fmt : str) :
  forallb is_space raw = true ->
  parse_response raw fmt = Raise (Exn ValueError (u "Leere Response erhalten")).
Proof.
  intros Hraw. unfold parse_response, parse_response_from.
  rewrite is_blank_spec, Hraw. reflexivity.
Qed.

(** Any other reply is parsed into a mapping. *)
Lemma parse_response_mapping (raw fmt : str) :
  forallb is_space raw = false ->
  exists d, parse_response raw fmt = Ok (JDict d).
Proof.
  intros Hraw. unfold parse_response. rewrite (parse_response_from_chain fmt Hraw).
  destruct (some_strategy_succeeds raw (effective_format raw fmt))
    as [name [r [Hfirst [_ Hdict]]]].
  unfold chain. rewrite Hfirst. simpl.
  destruct (data r); try discriminate. eexists. reflexivity.
Qed.

(** C1.  On a reply that is empty or all white space [parse_response]
    raises the error of the empty reply; on every other reply, whatever
    the expected format, it raises nothing and returns a mapping. *)
Theorem parse_response_total (raw fmt : str) :
  if forallb is_space raw
  then parse_response raw fmt = Raise (Exn ValueError (u "Leere Response erhalten"))
  else exists d, parse_response raw fmt = Ok (JDict d).
Proof.
  destruct (forallb is_space raw) eqn:Hraw.
  - apply parse_response_blank. exact Hraw.
  - apply parse_response_mapping. exact Hraw.
Qed.

(** C10.  Whatever the reply and the expected format, the text strategy
    [_parse_fallback_text] raises nothing and returns a successful result
    with a non-empty mapping; so, on a reply that is not blank,
    [parse_response] returns from inside the loop, with the data of the
    first successful strategy, and never with the terminal fallback. *)
Theorem fallback_text_always_succeeds (raw fmt : str) :
  (exists r d,
     _parse_fallback_text raw fmt = Ok r
     /\ success r = true /\ data r = JDict d /\ d <> [])
  /\ (forallb is_space raw = false ->
      exists name r,
        first_success (outcomes raw (effective_format raw fmt)) = Some (name, r)
        /\ parse_response_from raw fmt = Ok (FromStrategy name, data r)).
Proof.
  split.
  - destruct (fallback_text_ok raw fmt) as [r [d [Hr [Hs [Hd [Hne _]]]]]].
    exists r, d. auto.
  - intros Hraw.
    destruct (some_strategy_succeeds raw (effective_format raw fmt))
      as [name [r [Hfirst _]]].
    exists name, r. split; [exact Hfirst|].
    rewrite (parse_response_from_chain fmt Hraw). unfold chain.
    rewrite Hfirst. reflexivity.
Qed.

(** Every strategy reports a confidence in [0, 1]. *)
Lemma strategies_within_unit (raw fmt : str) :
  Forall (fun o => scored_within_unit (snd o)) (outcomes raw fmt).
Proof.
  unfold outcomes. apply Forall_map.
  eapply Forall_impl; [|apply (strategies_sound raw fmt)].
  intros [n s] H. simpl in *. unfold scored_within_unit.
  destruct (s raw fmt) as [r|e]; [|exact I]. apply (H r eq_refl).
Qed.

End StrategyFacts.

(** A reply in free text is decided by the last of the four strategies.
    Two runs of the loop in which no strategy is successful: the data of
    the partial result with the highest confidence, the earliest among
    equals, is returned; and when no result holds data, the textual
    fallback with the errors gathered. *)
Lemma strategy_chain_witness :
  parse_response_from (L := scenario_library) free_text (u "quick_json")
  = Ok (FromStrategy (u "_parse_fallback_text"),
        JDict [ (u "machbarkeit", JStr (u "mittel"));
                (u "aufwand", JStr (u "mittel"));
                (u "empfehlung", JStr (u "überdenken"));
                (u "begruendung", JStr (u "Aus Freitext extrahiert")) ])
  /\ run_strategies
       [ (u "first", raising_strategy); (u "second", weaker_strategy);
         (u "third", partial_strategy); (u "fourth", empty_strategy) ]
       free_text (u "quick_json") [] None
     = (FromBestPartial, JDict [ (u "machbarkeit", JStr (u "gut")) ])
  /\ run_strategies
       [ (u "first", raising_strategy); (u "second", empty_strategy) ]
       free_text (u "quick_json") [] None
     = (FromTextFallback,
        JDict
          [ (u "zusammenfassung",
               JStr (u "Parsing fehlgeschlagen - Originaltext verfügbar"));
            (u "raw_response", JStr free_text);
            (u "parsing_errors",
               JList [ JStr (u "first: 'machbarkeit'");
                       JStr (u "Kein valides JSON in Markdown gefunden") ]);
            (u "naechste_schritte",
               JList [ JStr (u "Response manuell prüfen");
                       JStr (u "Prompt-Template überarbeiten");
                       JStr (u "KI-Modell-Parameter anpassen") ]) ]).
Proof.
  destruct (@strategy_chain scenario_library free_text (u "quick_json"))
    as [Hloop Hparse].
  split; [|split].
  - destruct Hparse as [H _]; [vm_compute; reflexivity|].
    rewrite H. vm_compute. reflexivity.
  - rewrite Hloop. vm_compute. reflexivity.
  - rewrite Hloop. vm_compute. reflexivity.
Defined.

Lemma fallback_text_always_succeeds_witness :
  exists name r,
    first_success (outcomes (L := scenario_library) scenario_text (u "quick_json"))
    = Some (name, r)
    /\ parse_response_from (L := scenario_library) scenario_text (u "quick_json")
       = Ok (FromStrategy name, data r).
Proof.
  apply (proj2 (@fallback_text_always_succeeds scenario_library scenario_text
                  (u "quick_json"))).
  vm_compute. reflexivity.
Defined.


End ParserFacts.

Module ClientFacts.

Import LMStudioClient PyFacts Spec.

Section RetryLoop.

Context {L : Library}.

Variable cfg : LMStudioConfig.
Variable srv : server.

(** The reason of a caught exception is a client error. *)
Lemma caught_client_error (e x : exn) :
  caught cfg x = Some e -> exn_cls e = LMStudioError.
Proof.
  unfold caught.
  destruct (class_eqb (exn_cls x) Timeout); [intros H; injection H as <-; reflexivity|].
  destruct (class_eqb (exn_cls x) RequestException); [|discriminate].
  intros H. injection H as <-. reflexivity.
Qed.

Lemma transient_client_error (o : py response) (e : exn) :
  transient cfg o = Some e -> exn_cls e = LMStudioError.
Proof.
  unfold transient. destruct o as [r|x]; [|apply caught_client_error].
  destruct (_ || _).
  - destruct (resp_json r) as [v|x]; [discriminate | apply caught_client_error].
  - intros H. injection H as <-. reflexivity.
Qed.

(** The loop after a raised exception that a handler catches. *)
Lemma attempts_caught (remaining attempt : nat) (last : option exn) (x e : exn) :
  try_block srv attempt = Raise x ->
  caught cfg x = Some e ->
  attempts cfg srv (S remaining) attempt last
  = (Post attempt :: backoff cfg attempt
       ++ fst (attempts cfg srv remaining (S attempt) (Some e)),
     snd (attempts cfg srv remaining (S attempt) (Some e))).
Proof.
  intros Hx. unfold caught. simpl attempts. rewrite Hx.
  destruct (class_eqb (exn_cls x) Timeout).
  - intros H.
    assert (He : e = timeout_error cfg) by (unfold timeout_error; congruence).
    subst e.
    destruct (attempts cfg srv remaining (S attempt) (Some (timeout_error cfg))).
    reflexivity.
  - destruct (class_eqb (exn_cls x) RequestException); [|discriminate].
    intros H.
    assert (He : e = network_error x) by (unfold network_error; congruence).
    subst e.
    destruct (attempts cfg srv remaining (S attempt) (Some (network_error x))).
    reflexivity.
Qed.

(** One failed attempt: the post, the back-off, and the loop goes on
    with the reason of the failure. *)
Lemma attempts_step (remaining attempt : nat) (last : option exn) (e : exn) :
  transient cfg (srv attempt) = Some e ->
  attempts cfg srv (S remaining) attempt last
  = (Post attempt :: backoff cfg attempt
       ++ fst (attempts cfg srv remaining (S attempt) (Some e)),
     snd (attempts cfg srv remaining (S attempt) (Some e))).
Proof.
  unfold transient. intros H.
  destruct (srv attempt) as [r|x] eqn:Hsrv.
  - destruct (status_code r =? 200)%Z eqn:H200.
    + simpl in H. destruct (resp_json r) as [v|x] eqn:Hbody; [discriminate|].
      apply (@attempts_caught _ _ _ x); [|exact H].
      unfold try_block. rewrite Hsrv. simpl. rewrite H200.
      unfold on_success. rewrite Hbody. reflexivity.
    + destruct (status_code r =? 422)%Z eqn:H422.
      * simpl in H. destruct (resp_json r) as [v|x] eqn:Hbody; [discriminate|].
        apply (@attempts_caught _ _ _ x); [|exact H].
        unfold try_block. rewrite Hsrv. simpl. rewrite H200, H422.
        unfold on_validation_error. rewrite Hbody. reflexivity.
      * change (Some (http_error r) = Some e) in H.
        assert (He : e = http_error r) by congruence.
        subst e. simpl attempts. unfold try_block. rewrite Hsrv. simpl.
        rewrite H200, H422.
        destruct (attempts cfg srv remaining (S attempt) (Some (http_error r))).
        reflexivity.
  - apply (@attempts_caught _ _ _ x); [|exact H].
    unfold try_block. rewrite Hsrv. reflexivity.
Qed.

(** After [k] failed attempts the loop stands at attempt [from + k]. *)
Lemma attempts_prefix (k remaining from : nat) (last : option exn) :
  (forall i, (from <= i < from + k)%nat -> transient cfg (srv i) <> None) ->
  attempts cfg srv (k + remaining) from last
  = (failed_attempts cfg from k
       ++ fst (attempts cfg srv remaining (from + k)
                 (last_failure cfg srv from k last)),
     snd (attempts cfg srv remaining (from + k)
            (last_failure cfg srv from k last))).
Proof.
  revert from last. induction k as [|k IH]; intros from last Hfail.
  - simpl. rewrite Nat.add_0_r.
    destruct (attempts cfg srv remaining from last). reflexivity.
  - destruct (transient cfg (srv from)) as [e|] eqn:He.
    2:{ exfalso. apply (Hfail from); [lia | exact He]. }
    change (S k + remaining)%nat with (S (k + remaining)).
    rewrite (attempts_step _ _ He).
    rewrite IH by (intros i Hi; apply Hfail; lia).
    simpl fst. simpl snd. simpl failed_attempts. simpl last_failure. rewrite He.
    replace (from + S k)%nat with (S (from + k)) by lia.
    simpl app. rewrite <- app_assoc. reflexivity.
Qed.

Lemma last_failure_last (k from : nat) (last : option exn) :
  last_failure cfg srv from (S k) last = transient cfg (srv (from + k)%nat).
Proof.
  revert from last. induction k as [|k IH]; intros from last.
  - simpl. rewrite Nat.add_0_r. reflexivity.
  - change (last_failure cfg srv from (S (S k)) last)
      with (last_failure cfg srv (S from) (S k) (transient cfg (srv from))).
    rewrite IH. f_equal. f_equal. lia.
Qed.

(** The waits double: 1, 2, 4, ... after the attempts 0, 1, 2, ..., and
    there is none after the last attempt. *)
Lemma backoff_spec (attempt : nat) :
  backoff cfg attempt
  = if (S attempt <? Z.to_nat (max_retries cfg))%nat
    then [Sleep (2 ^ Z.of_nat attempt)] else [].
Proof.
  unfold backoff.
  destruct (Z.ltb_spec (Z.of_nat attempt) (max_retries cfg - 1));
    destruct (Nat.ltb_spec (S attempt) (Z.to_nat (max_retries cfg)));
    try reflexivity; lia.
Qed.

(** X26.  The retry loop.  With [n] the configured number of attempts:
    - the wait after a failed attempt [i] that is not the last is
      [2 ^ i], counted from 0, and there is none after the last;
    - when every attempt fails transiently, all [n] posts are made and a
      client error with the reason of the last failure is raised;
    - when attempt [k] is answered, after [k] transient failures, with
      status 422 and a body that decodes to a mapping, the validation
      error with the detail of the body is raised at once: post [k] is
      the last event;
    - when attempt [k] is answered, after [k] transient failures, with
      status 200 and a body that decodes, the body is handled at once and
      no further post is made; a mapping whose usage is a mapping is
      returned. *)
Theorem retry_loop :
  let n := Z.to_nat (max_retries cfg) in
  (forall i, backoff cfg i
             = if (S i <? n)%nat then [Sleep (2 ^ Z.of_nat i)] else [])
  /\ ((forall i, (i < n)%nat -> transient cfg (srv i) <> None) ->
      fst (generate_completion cfg srv) = failed_attempts cfg 0 n
      /\ exists msg,
           snd (generate_completion cfg srv) = Raise (Exn LMStudioError msg)
           /\ ((0 < n)%nat ->
               transient cfg (srv (n - 1)%nat) = Some (Exn LMStudioError msg)))
  /\ (forall k r d,
        (k < n)%nat ->
        (forall i, (i < k)%nat -> transient cfg (srv i) <> None) ->
        srv k = Ok r -> status_code r = 422%Z -> resp_json r = Ok (JDict d) ->
        generate_completion cfg srv
        = (failed_attempts cfg 0 k ++ [Post k],
           Raise (Exn LMStudioError
                    (u "Validierungsfehler: "
                       ++ str_of_json (get (u "detail") (JStr (u "Validation Error")) d)))))
  /\ (forall k r body,
        (k < n)%nat ->
        (forall i, (i < k)%nat -> transient cfg (srv i) <> None) ->
        srv k = Ok r -> status_code r = 200%Z -> resp_json r = Ok body ->
        generate_completion cfg srv
        = (failed_attempts cfg 0 k ++ [Post k], on_success r)
        /\ (forall d usage, body = JDict d ->
              get (u "usage") (JDict []) d = JDict usage ->
              on_success r = Ok body)).
Proof.
  intros n. split; [|split; [|split]].
  - intros i. apply backoff_spec.
  - intros Hfail. unfold generate_completion. fold n.
    assert (H : attempts cfg srv (n + 0) 0 None
                = (failed_attempts cfg 0 n
                     ++ fst (attempts cfg srv 0 (0 + n) (last_failure cfg srv 0 n None)),
                   snd (attempts cfg srv 0 (0 + n) (last_failure cfg srv 0 n None))))
      by (apply attempts_prefix; intros i Hi; apply Hfail; lia).
    rewrite Nat.add_0_r in H. rewrite H. clear H.
    simpl fst. simpl snd. rewrite app_nil_r. split; [reflexivity|].
    destruct n as [|m].
    + simpl. eexists. split; [reflexivity|]. intros H. lia.
    + rewrite last_failure_last. simpl Nat.add.
      assert (Hm := Hfail m (Nat.lt_succ_diag_r m)).
      replace (S m - 1)%nat with m by lia.
      destruct (transient cfg (srv m)) as [e|] eqn:He; [|congruence].
      assert (Hcls := transient_client_error He).
      destruct e as [c msg]. simpl in Hcls. subst c.
      exists msg. split; [reflexivity|]. intros _. reflexivity.
  - intros k r d Hk Hfail Hr Hstatus Hbody. unfold generate_completion. fold n.
    replace n with (k + S (n - S k))%nat by lia.
    rewrite attempts_prefix by (intros i Hi; apply Hfail; lia).
    simpl Nat.add. simpl attempts. unfold try_block. rewrite Hr. simpl.
    rewrite Hstatus. simpl. unfold on_validation_error. rewrite Hbody. simpl.
    reflexivity.
  - intros k r body Hk Hfail Hr Hstatus Hbody. split.
    + unfold generate_completion. fold n.
      replace n with (k + S (n - S k))%nat by lia.
      rewrite attempts_prefix by (intros i Hi; apply Hfail; lia).
      simpl Nat.add. simpl attempts. unfold try_block. rewrite Hr. simpl.
      rewrite Hstatus. simpl.
      assert (Hnot : forall x, on_success r = Raise x -> caught cfg x = None).
      { unfold on_success. rewrite Hbody. simpl.
        destruct body as [| | | | | |d]; simpl;
          try (intros x Hx; injection Hx as <-; reflexivity).
        destruct (get (u "usage") (JDict []) d); simpl;
          try (intros x Hx; injection Hx as <-; reflexivity).
        discriminate. }
      destruct (on_success r) as [v|x]; [reflexivity|]. simpl.
      specialize (Hnot x eq_refl). unfold caught in Hnot.
      destruct (class_eqb (exn_cls x) Timeout); [discriminate|].
      destruct (class_eqb (exn_cls x) RequestException); [discriminate|].
      reflexivity.
    + intros d usage -> Husage. unfold on_success. rewrite Hbody. simpl.
      rewrite Husage. reflexivity.
Qed.

(** C7.  The claim does not hold of the code on a request that the
    server rejects with status 422 and a body that is no JSON document:
    [json()] raises inside the [try] block, the handler of the request
    exceptions catches it, and the request is sent again.  Whatever the
    configured number [n] of attempts, when every post is answered so,
    all [n] posts are made, with the wait [2 ^ i] after each attempt but
    the last, and the error raised in the end is not the validation
    error but the network error with the message of the decoding
    error. *)
Theorem validation_reply_retried (x : exn) :
  (forall i, exists r,
      srv i = Ok r /\ status_code r = 422%Z /\ resp_json r = Raise x) ->
  exn_cls x = RequestException ->
  let n := Z.to_nat (max_retries cfg) in
  fst (generate_completion cfg srv) = failed_attempts cfg 0 n
  /\ ((0 < n)%nat ->
      snd (generate_completion cfg srv)
      = Raise (Exn LMStudioError (u "Netzwerk-Fehler: " ++ exn_msg x))).
Proof.
  intros Hsrv Hcls n.
  assert (Hreason : forall i,
             transient cfg (srv i)
             = Some (Exn LMStudioError (u "Netzwerk-Fehler: " ++ exn_msg x))).
  { intros i. destruct (Hsrv i) as [r [-> [Hstatus Hbody]]].
    unfold transient, caught. rewrite Hstatus, Hbody, Hcls. reflexivity. }
  unfold generate_completion. fold n.
  assert (H : attempts cfg srv (n + 0) 0 None
              = (failed_attempts cfg 0 n
                   ++ fst (attempts cfg srv 0 (0 + n) (last_failure cfg srv 0 n None)),
                 snd (attempts cfg srv 0 (0 + n) (last_failure cfg srv 0 n None))))
    by (apply attempts_prefix; intros i Hi; rewrite Hreason; discriminate).
  rewrite Nat.add_0_r in H. rewrite H. clear H.
  simpl fst. simpl snd. rewrite app_nil_r. split; [reflexivity|].
  intros Hn. destruct n as [|m]; [lia|].
  rewrite last_failure_last, Hreason. reflexivity.
Qed.

End RetryLoop.

(** Three attempts, each answered with status 422 and a body that is no
    JSON document: three posts and two waits, of 1 and 2, and a network
    error in the end. *)
Lemma validation_reply_retried_witness :
  generate_completion (L := scenario_library) three_attempts unreadable_server
  = ([Post 0%nat; Sleep 1%Z; Post 1%nat; Sleep 2%Z; Post 2%nat],
     Raise (Exn LMStudioError
              (u "Netzwerk-Fehler: Expecting value: line 1 column 1 (char 0)"))).
Proof.
  assert (Hsrv : forall i : nat, exists r,
             unreadable_server i = Ok r /\ status_code r = 422%Z
             /\ resp_json r = Raise not_json)
    by (intros i; exists unreadable_rejection; repeat split).
  pose proof (@validation_reply_retried scenario_library three_attempts
                unreadable_server not_json Hsrv eq_refl) as H.
  cbv zeta in H. destruct H as [Hevents Hresult].
  specialize (Hresult ltac:(vm_compute; lia)).
  rewrite (surjective_pairing
             (generate_completion (L := scenario_library) three_attempts
                unreadable_server)).
  rewrite Hevents, Hresult. vm_compute. reflexivity.
Defined.

(** Three attempts that all fail: two waits, of 1 and 2, and the error
    of the last failure.  A rejected request after one time-out: one
    wait, and no post after the rejection. *)
Lemma retry_loop_witness :
  (fst (generate_completion (L := scenario_library) three_attempts failing_server)
   = [Post 0%nat; Sleep 1%Z; Post 1%nat; Sleep 2%Z; Post 2%nat]
   /\ exists msg,
        snd (generate_completion (L := scenario_library) three_attempts failing_server)
        = Raise (Exn LMStudioError msg)
        /\ ((0 < 3)%nat ->
            transient three_attempts (failing_server 2%nat) = Some (Exn LMStudioError msg)))
  /\ generate_completion (L := scenario_library) three_attempts rejecting_server
     = ([Post 0%nat; Sleep 1%Z; Post 1%nat],
        Raise (Exn LMStudioError (u "Validierungsfehler: messages: field required"))).
Proof.
  split.
  - pose proof (@retry_loop scenario_library three_attempts failing_server) as G.
    cbv zeta in G. destruct G as [_ [G _]].
    apply G. intros i Hi.
    destruct i as [|[|[|i]]]; vm_compute; discriminate.
  - pose proof (@retry_loop scenario_library three_attempts rejecting_server) as G.
    cbv zeta in G. destruct G as [_ [_ [G _]]].
    rewrite (G 1%nat
               (mkResponse 422 (u "Unprocessable Entity")
                  (Ok (JDict [ (u "detail", JStr (u "messages: field required")) ])))
               [ (u "detail", JStr (u "messages: field required")) ]).
    + vm_compute. reflexivity.
    + vm_compute. lia.
    + intros i Hi. destruct i as [|i]; [vm_compute; discriminate | lia].
    + reflexivity.
    + reflexivity.
    + reflexivity.
Defined.

End ClientFacts.

Module EngineFacts.

Import ResponseParser LMStudioClient PromptTemplates AnalysisEngine.
Import PyFacts Spec ParserFacts.

(** ** The confidence score of an analysis *)

Lemma Qsum_bounds (l : list Q) (a : Q) :
  Forall within_unit l ->
  a <= fold_left Qplus l a
  /\ fold_left Qplus l a <= a + inject_Z (Z.of_nat (length l)).
Proof.
  revert a. induction l as [|x l IH]; intros a Hl.
  - simpl. split; [lra|]. change (a <= a + 0). lra.
  - inversion Hl as [|? ? [Hx0 Hx1] Hl']; subst. simpl fold_left.
    destruct (IH (a + x) Hl') as [H0 H1]. split; [lra|].
    simpl length. rewrite Nat2Z.inj_succ, <- Z.add_1_r, inject_Z_plus.
    change (inject_Z 1) with 1. lra.
Qed.

(** The mean of scores in [0, 1] lies in [0, 1]. *)
Lemma mean_within_unit (l : list Q) :
  Forall within_unit l -> l <> [] ->
  within_unit (Qsum l / inject_Z (Z.of_nat (length l))).
Proof.
  intros Hl Hne. destruct (Qsum_bounds 0 Hl) as [H0 H1]. fold (Qsum l) in H0, H1.
  assert (Hpos : 0 < inject_Z (Z.of_nat (length l))).
  { rewrite <- (Zlt_Qlt 0). destruct l; [congruence | simpl; lia]. }
  split.
  - apply Qle_shift_div_l; [exact Hpos | lra].
  - apply Qle_shift_div_r; [exact Hpos | lra].
Qed.

Lemma confidence_score_within_unit (parsed_data : dict) (raw template_name : str) :
  score_within_unit (_calculate_confidence_score parsed_data raw template_name).
Proof.
  unfold _calculate_confidence_score. cbv zeta.
  destruct (count_recommendations _ parsed_data 0) as [total|e]; [|exact I].
  cbv beta iota delta [bind].
  set (factors := _ ++ [_]).
  assert (Hf : Forall within_unit factors /\ factors <> []).
  { subst factors. split.
    - apply Forall_app; split; [apply Forall_app; split; [apply Forall_app; split|]|].
      + destruct (nonempty (get template_name [] score_fields)); [|constructor].
        constructor; [|constructor].
        apply ratio_bounds, present_le.
      + constructor; [|constructor].
        repeat match goal with |- context [if ?b then _ else _] => destruct b end;
          split; qle.
      + constructor; [|constructor]. destruct (truthy _); split; qle.
      + constructor; [|constructor].
        repeat match goal with |- context [if ?b then _ else _] => destruct b end;
          split; qle.
    - intros H. apply app_eq_nil in H as [_ H]. discriminate. }
  destruct Hf as [Hall Hne].
  destruct (nonempty factors) eqn:E.
  - apply (mean_within_unit Hall Hne).
  - split; qle.
Qed.

Lemma eq_text_go (v : option json) :
  eq_text (match v with Some x => x | None => JStr (u "überdenken") end) (u "go") = true
  <-> v = Some (JStr (u "go")).
Proof.
  destruct v as [x|].
  - destruct x; simpl; try (split; [discriminate | intros H; discriminate H]).
    rewrite str_eqb_eq. split; [intros ->; reflexivity | intros H; injection H; auto].
  - split; [vm_compute; discriminate | discriminate].
Qed.

(** ** The order of the keys *)

Lemma key_gtb_false (a b : key) : key_gtb a b = false <-> key_le a b.
Proof.
  destruct a as [[fa ca] ea], b as [[fb cb] eb]. unfold key_gtb, key_le, bool_gtb.
  assert (HQ : Qgtb ca cb || Qeq_bool ca cb && Qgtb ea eb = false
               <-> ca < cb \/ (ca == cb /\ ea <= eb)).
  { rewrite orb_false_iff, andb_false_iff, !Qgtb_false. split.
    - intros [Hc [He|He]].
      + apply Qeq_bool_neq in He. left. apply Qle_lteq in Hc as [Hc|Hc]; tauto.
      + apply Qle_lteq in Hc as [Hc|Hc]; [left; exact Hc | right; tauto].
    - intros [Hc|[Hc He]].
      + split; [lra|]. left. destruct (Qeq_bool ca cb) eqn:E; [|reflexivity].
        apply Qeq_bool_eq in E. lra.
      + split; [lra | right; exact He]. }
  destruct fa, fb; simpl.
  - rewrite HQ. split; [intros H; right; tauto | intros [[? ?]|[_ H]]; [discriminate | exact H]].
  - split; [discriminate | intros [[? ?]|[? _]]; discriminate].
  - split; [intros _; left; tauto | reflexivity].
  - rewrite HQ. split; [intros H; right; tauto | intros [[? ?]|[_ H]]; [discriminate | exact H]].
Qed.

Lemma key_le_refl (a : key) : key_le a a.
Proof.
  destruct a as [[fa ca] ea]. right. split; [reflexivity|]. right. split; lra.
Qed.

Lemma key_le_trans (a b c : key) : key_le a b -> key_le b c -> key_le a c.
Proof.
  destruct a as [[fa ca] ea], b as [[fb cb] eb], c as [[fc cc] ec].
  unfold key_le.
  intros [[H1 H2]|[H1 H2]] [[H3 H4]|[H3 H4]]; subst; try discriminate;
    try (left; tauto).
  right. split; [reflexivity|].
  destruct H2 as [H2|[H2 H2']], H4 as [H4|[H4 H4']];
    try (left; lra). right. split; lra.
Qed.

Lemma key_le_total (a b : key) : key_le a b \/ key_le b a.
Proof.
  destruct a as [[fa ca] ea], b as [[fb cb] eb]. unfold key_le.
  destruct fa, fb; try (left; left; tauto); try (right; left; tauto).
  - destruct (Q_dec ca cb) as [[H|H]|H].
    + left. right. tauto.
    + right. right. tauto.
    + destruct (Qlt_le_dec eb ea).
      * right. right. split; [reflexivity|]. right. split; lra.
      * left. right. split; [reflexivity|]. right. split; lra.
  - destruct (Q_dec ca cb) as [[H|H]|H].
    + left. right. tauto.
    + right. right. tauto.
    + destruct (Qlt_le_dec eb ea).
      * right. right. split; [reflexivity|]. right. split; lra.
      * left. right. split; [reflexivity|]. right. split; lra.
Qed.

Lemma key_gtb_true (a b : key) : key_gtb a b = true -> key_le b a.
Proof.
  intros H. destruct (key_le_total a b) as [Hab|Hba]; [|exact Hba].
  apply key_gtb_false in Hab. congruence.
Qed.

(** ** The sort *)

Lemma insert_desc_perm {A : Type} (kx : key * A) (l : list (key * A)) :
  Permutation (insert_desc kx l) (kx :: l).
Proof.
  induction l as [|ky l IH]; simpl; [reflexivity|].
  destruct (key_gtb (fst ky) (fst kx)); [|reflexivity].
  rewrite IH. apply perm_swap.
Qed.

Lemma sort_desc_perm {A : Type} (l : list (key * A)) :
  Permutation (sort_desc l) l.
Proof.
  induction l as [|kx l IH]; simpl; [reflexivity|].
  rewrite insert_desc_perm. now apply perm_skip.
Qed.

Lemma insert_desc_sorted {A : Type} (kx : key * A) (l : list (key * A)) :
  StronglySorted desc l -> StronglySorted desc (insert_desc kx l).
Proof.
  induction 1 as [|ky l Hl IH Hall]; simpl.
  - constructor; constructor.
  - destruct (key_gtb (fst ky) (fst kx)) eqn:E.
    + constructor; [exact IH|].
      apply (Permutation_Forall (Permutation_sym (insert_desc_perm kx l))).
      constructor; [|exact Hall]. unfold desc. apply (key_gtb_true E).
    + apply key_gtb_false in E. constructor.
      * constructor; assumption.
      * constructor; [exact E|].
        eapply Forall_impl; [|exact Hall]. unfold desc. intros z Hz.
        apply (key_le_trans Hz E).
Qed.

Lemma sort_desc_sorted {A : Type} (l : list (key * A)) :
  StronglySorted desc (sort_desc l).
Proof.
  induction l as [|kx l IH]; simpl; [constructor|].
  now apply insert_desc_sorted.
Qed.

(** A sorted list of decorated records, read without the keys. *)
Lemma undecorate_sorted (l : list (key * record)) :
  Forall (fun p => fst p = key_of (snd p)) l ->
  StronglySorted desc l ->
  StronglySorted ranked_before (List.map snd l).
Proof.
  intros Hkeys Hs. induction Hs as [|p l Hl IH Hall]; simpl; [constructor|].
  inversion Hkeys as [|? ? Hp Hkeys']; subst.
  constructor; [now apply IH|].
  apply Forall_map. rewrite Forall_forall in *. intros q Hq.
  unfold ranked_before. rewrite <- Hp, <- (Hkeys' q Hq). apply (Hall q Hq).
Qed.

(** ** The keys of the records *)

Lemma sort_key_textual (x : record) :
  textual_effort x = true -> sort_key x = Ok (key_of x).
Proof.
  unfold textual_effort, sort_key, key_of, _effort_to_score, effort_of.
  destruct (to_json (get (u "effort") (VStr (u "hoch")) x)); try discriminate.
  reflexivity.
Qed.

Lemma sort_key_not_textual (x : record) :
  textual_effort x = false ->
  exists msg, sort_key x = Raise (Exn AttributeError msg).
Proof.
  unfold textual_effort, sort_key, _effort_to_score, effort_of.
  destruct (to_json (get (u "effort") (VStr (u "hoch")) x)); try discriminate;
    intros _; eexists; reflexivity.
Qed.

Lemma decorate_textual (xs : list record) :
  forallb textual_effort xs = true ->
  decorate xs = Ok (List.map (fun x => (key_of x, x)) xs).
Proof.
  induction xs as [|x xs IH]; simpl; [reflexivity|].
  intros H. apply andb_true_iff in H as [Hx Hxs].
  rewrite (sort_key_textual Hx), (IH Hxs). reflexivity.
Qed.

Lemma decorate_not_textual (xs : list record) :
  forallb textual_effort xs = false ->
  exists msg, decorate xs = Raise (Exn AttributeError msg).
Proof.
  induction xs as [|x xs IH]; simpl; [discriminate|].
  destruct (textual_effort x) eqn:Hx; simpl.
  - intros H. destruct (IH H) as [msg Hmsg].
    rewrite (sort_key_textual Hx), Hmsg. exists msg. reflexivity.
  - intros _. destruct (sort_key_not_textual Hx) as [msg Hmsg].
    rewrite Hmsg. exists msg. reflexivity.
Qed.

(** The ranking of records whose efforts are text: a permutation of the
    records, sorted downwards, with a largest key on top. *)
Lemma sorted_by_key_textual (xs : list record) :
  forallb textual_effort xs = true ->
  exists ranked,
    sorted_by_key xs = Ok ranked
    /\ Permutation ranked xs
    /\ StronglySorted ranked_before ranked
    /\ (forall top, hd_error ranked = Some top ->
        forall x, In x xs -> key_le (key_of x) (key_of top)).
Proof.
  intros Hxs. unfold sorted_by_key. rewrite (decorate_textual Hxs). simpl.
  set (decorated := List.map (fun x => (key_of x, x)) xs).
  assert (Hperm : Permutation (List.map snd (sort_desc decorated)) xs).
  { rewrite (Permutation_map snd (sort_desc_perm decorated)).
    subst decorated. rewrite List.map_map. simpl. rewrite List.map_id. reflexivity. }
  assert (Hsorted : StronglySorted ranked_before (List.map snd (sort_desc decorated))).
  { apply undecorate_sorted; [|apply sort_desc_sorted].
    apply (Permutation_Forall (Permutation_sym (sort_desc_perm decorated))).
    subst decorated. apply Forall_map. apply Forall_forall. reflexivity. }
  eexists. split; [reflexivity|]. split; [exact Hperm|]. split; [exact Hsorted|].
  intros top Htop x Hx.
  apply (Permutation_in _ (Permutation_sym Hperm)) in Hx.
  destruct (List.map snd (sort_desc decorated)) as [|t rest]; [discriminate|].
  injection Htop as ->. inversion Hsorted as [|? ? _ Hall]; subst.
  destruct Hx as [Hx|Hx]; [subst x; exact (key_le_refl (key_of top))|].
  rewrite Forall_forall in Hall. exact (Hall x Hx).
Qed.

Section EngineProofs.

Context {L : Library}.

(** Whatever the block of [analyze_use_case] raises leaves it as an
    engine error with a message. *)
Lemma analyze_raises (w : world) (template_name : str) (e : exn) :
  analyze_use_case w template_name = Raise e ->
  exn_cls e = AnalysisEngineError /\ exn_msg e <> [].
Proof.
  unfold analyze_use_case.
  destruct (analyze_body w template_name) as [a|x]; [discriminate|].
  destruct (class_eqb (exn_cls x) LMStudioError); intros H; injection H as <-;
    (split; [reflexivity | simpl; discriminate]).
Qed.

Lemma analyze_score_within_unit (w : world) (template_name : str) (a : AIAnalysis) :
  analyze_use_case w template_name = Ok a -> within_unit (confidence_score a).
Proof.
  unfold analyze_use_case.
  destruct (analyze_body w template_name) as [a'|x] eqn:Hb;
    [|destruct (class_eqb (exn_cls x) LMStudioError); discriminate].
  intros H. injection H as <-. revert Hb. unfold analyze_body.
  destruct (w_validation w) as [v|]; [|discriminate]. cbv beta iota delta [bind].
  destruct (negb (fst v)); [discriminate|].
  destruct (w_messages w) as [m|]; [|discriminate].
  destruct (w_template w) as [t|]; [|discriminate].
  destruct (snd (generate_completion (w_config w) (w_server w))) as [resp|];
    [|discriminate].
  destruct (extract_response_text resp) as [raw|]; [|discriminate].
  destruct (parse_response raw (expected_format t)) as [parsed|]; [|discriminate].
  destruct (py_get (u "usage") (JDict []) resp) as [usage|]; [|discriminate].
  destruct (as_dict parsed) as [d|]; [|discriminate].
  pose proof (confidence_score_within_unit d raw template_name) as Hs.
  destruct (_calculate_confidence_score d raw template_name) as [c|]; [|discriminate].
  intros H. injection H as <-. exact Hs.
Qed.

(** The three ways through [quick_feasibility_check]. *)
Lemma quick_feasibility_failed (w : world) (e : exn) :
  analyze_use_case w (u "quick_feasibility") = Raise e ->
  quick_feasibility_check w = Ok (failure_record (exn_msg e)).
Proof. intros H. unfold quick_feasibility_check. rewrite H. reflexivity. Qed.

Lemma quick_feasibility_parse_failed (w : world) (a : AIAnalysis) (e : exn) :
  analyze_use_case w (u "quick_feasibility") = Ok a ->
  parse_response (raw_response a) (u "quick_json") = Raise e ->
  quick_feasibility_check w = Ok (failure_record (exn_msg e)).
Proof.
  intros Ha Hp. unfold quick_feasibility_check. rewrite Ha.
  cbv beta iota delta [bind]. rewrite Hp. reflexivity.
Qed.

Lemma quick_feasibility_parsed (w : world) (a : AIAnalysis) (d : dict) :
  analyze_use_case w (u "quick_feasibility") = Ok a ->
  parse_response (raw_response a) (u "quick_json") = Ok (JDict d) ->
  quick_feasibility_check w = Ok (success_record a d).
Proof.
  intros Ha Hp. unfold quick_feasibility_check. rewrite Ha.
  cbv beta iota delta [bind]. rewrite Hp. reflexivity.
Qed.

(** The second parse raises on a blank reply only, and gives a mapping
    otherwise. *)
Lemma second_parse_cases (raw : str) :
  (exists d, parse_response raw (u "quick_json") = Ok (JDict d))
  \/ parse_response raw (u "quick_json")
     = Raise (Exn ValueError (u "Leere Response erhalten")).
Proof.
  destruct (forallb is_space raw) eqn:Hraw.
  - right. apply parse_response_blank. exact Hraw.
  - left. apply parse_response_mapping. exact Hraw.
Qed.

(** C5.  [quick_feasibility_check] raises nothing.  When the analysis or
    the second parse raises, it returns the record with exactly the three
    entries feasible = False, error = the message of the exception, which
    is not empty, and confidence = 0.0.  Otherwise the second parse gives a
    mapping, the record is the one of the [try] branch, and its entry
    feasible is True exactly when the entry empfehlung of that mapping is
    the text go. *)
Theorem quick_feasibility_never_raises (w : world) :
  exists r,
    quick_feasibility_check w = Ok r
    /\ match analyze_use_case w (u "quick_feasibility") with
       | Raise e =>
         r = [ (u "feasible", VBool false); (u "error", VStr (exn_msg e));
               (u "confidence", VNum 0) ]
         /\ exn_msg e <> []
       | Ok analysis =>
         match parse_response (raw_response analysis) (u "quick_json") with
         | Raise e =>
           r = [ (u "feasible", VBool false); (u "error", VStr (exn_msg e));
                 (u "confidence", VNum 0) ]
           /\ exn_msg e <> []
         | Ok parsed =>
           exists d b,
             parsed = JDict d
             /\ r = success_record analysis d
             /\ lookup (u "feasible") r = Some (VBool b)
             /\ lookup (u "confidence") r = Some (VNum (confidence_score analysis))
             /\ (b = true <-> lookup (u "empfehlung") d = Some (JStr (u "go")))
         end
       end.
Proof.
  destruct (analyze_use_case w (u "quick_feasibility")) as [analysis|e] eqn:Ha.
  - destruct (second_parse_cases (raw_response analysis)) as [[d Hp]|Hp].
    + exists (success_record analysis d).
      split; [exact (quick_feasibility_parsed Ha Hp)|]. rewrite Hp.
      exists d, (eq_text (get (u "empfehlung") (JStr (u "überdenken")) d) (u "go")).
      split; [reflexivity|]. split; [reflexivity|].
      split; [reflexivity|]. split; [reflexivity|].
      unfold get. apply eq_text_go.
    + eexists. split; [exact (quick_feasibility_parse_failed Ha Hp)|].
      rewrite Hp. split; [reflexivity | vm_compute; discriminate].
  - eexists. split; [exact (quick_feasibility_failed Ha)|].
    split; [reflexivity|]. apply (analyze_raises Ha).
Qed.

(** A probe always returns a record, and its confidence lies in [0, 1]. *)
Lemma quick_feasibility_confidence (w : world) :
  exists r c,
    quick_feasibility_check w = Ok r
    /\ lookup (u "confidence") r = Some (VNum c) /\ within_unit c.
Proof.
  destruct (analyze_use_case w (u "quick_feasibility")) as [analysis|e] eqn:Ha.
  - destruct (second_parse_cases (raw_response analysis)) as [[d Hp]|Hp].
    + exists (success_record analysis d), (confidence_score analysis).
      split; [exact (quick_feasibility_parsed Ha Hp)|]. split; [reflexivity|].
      apply (analyze_score_within_unit Ha).
    + eexists. exists 0. split; [exact (quick_feasibility_parse_failed Ha Hp)|].
      split; [reflexivity | split; qle].
  - eexists. exists 0. split; [exact (quick_feasibility_failed Ha)|].
    split; [reflexivity | split; qle].
Qed.

Lemma quick_feasibility_returns (w : world) :
  exists r, quick_feasibility_check w = Ok r.
Proof.
  destruct (quick_feasibility_confidence w) as [r [_ [Hr _]]]. exists r. exact Hr.
Qed.

(** The loop over the use cases returns one record for each. *)
Lemma probe_all_returns (worlds : nat -> world) (use_cases : list UseCase) (i : nat) :
  exists results,
    probe_all worlds use_cases i = Ok results
    /\ length results = length use_cases.
Proof.
  revert i. induction use_cases as [|c cs IH]; intros i; simpl.
  - exists []. split; reflexivity.
  - destruct (quick_feasibility_returns (worlds i)) as [r Hr]. rewrite Hr.
    destruct (IH (S i)) as [rest [Hrest Hlen]]. rewrite Hrest. simpl.
    eexists. split; [reflexivity|]. simpl. now rewrite Hlen.
Qed.

(** The ranking when every effort is text, and the error of the sort
    when one is not. *)
Lemma ranking_cases (worlds : nat -> world) (use_cases : list UseCase)
  (results : list record) :
  (length use_cases <? 2)%nat = false ->
  probe_all worlds use_cases 0 = Ok results ->
  if forallb textual_effort results
  then exists c,
      compare_use_cases worlds use_cases = Ok c
      /\ total_use_cases c = length use_cases
      /\ Permutation (ranked_results c) results
      /\ StronglySorted ranked_before (ranked_results c)
      /\ recommendation c = hd_error (ranked_results c)
      /\ (forall top, recommendation c = Some top ->
          forall x, In x results -> key_le (key_of x) (key_of top))
  else exists msg,
      compare_use_cases worlds use_cases = Raise (Exn AttributeError msg).
Proof.
  intros Hlen Hres. unfold compare_use_cases. rewrite Hlen, Hres.
  cbv beta iota delta [bind].
  destruct (forallb textual_effort results) eqn:Ht.
  - destruct (sorted_by_key_textual Ht) as [ranked [Hr [Hperm [Hsorted Htop]]]].
    rewrite Hr. eexists. split; [reflexivity|]. simpl.
    repeat split; assumption.
  - destruct (decorate_not_textual Ht) as [msg Hmsg].
    unfold sorted_by_key. rewrite Hmsg. exists msg. reflexivity.
Qed.

(** C6, as amended.  On fewer than two use cases [compare_use_cases]
    raises the comparison error, whatever the worlds of the probes, and
    so returns no result, partial or not.  On two or more every probe
    returns its
    record, and when the effort of every record is text the comparison
    returns: the ranking is a permutation of the records, sorted downwards
    by the key (feasible, confidence, score of the lowercased effort), the
    recommendation is its first entry, and no record has a larger key. *)
Theorem compare_use_cases_ranking (worlds : nat -> world) (use_cases : list UseCase) :
  ((length use_cases < 2)%nat ->
   compare_use_cases worlds use_cases
   = Raise (Exn AnalysisEngineError
              (u "Mindestens 2 Use Cases für Vergleich erforderlich")))
  /\ ((2 <= length use_cases)%nat ->
      exists results,
        probe_all worlds use_cases 0 = Ok results
        /\ length results = length use_cases
        /\ (forallb textual_effort results = true ->
            exists c,
              compare_use_cases worlds use_cases = Ok c
              /\ total_use_cases c = length use_cases
              /\ Permutation (ranked_results c) results
              /\ StronglySorted ranked_before (ranked_results c)
              /\ recommendation c = hd_error (ranked_results c)
              /\ (forall top, recommendation c = Some top ->
                  forall x, In x results -> key_le (key_of x) (key_of top)))).
Proof.
  split.
  - intros Hlen. apply Nat.ltb_lt in Hlen.
    unfold compare_use_cases. rewrite Hlen. reflexivity.
  - intros Hlen. apply Nat.ltb_ge in Hlen.
    destruct (probe_all_returns worlds use_cases 0) as [results [Hres Hn]].
    exists results. split; [exact Hres|]. split; [exact Hn|].
    intros Ht. pose proof (ranking_cases Hlen Hres) as H.
    rewrite Ht in H. exact H.
Qed.

End EngineProofs.

(** ** Scenarios *)

(** The scenario of the specification: the reply recommends go with a
    medium effort, and the probe reports feasible = True, effort mittel. *)
Lemma quick_feasibility_scenario :
  exists r,
    quick_feasibility_check (L := scenario_library) (world_replying scenario_text) = Ok r
    /\ lookup (u "feasible") r = Some (VBool true)
    /\ lookup (u "effort") r = Some (VJson (JStr (u "mittel")))
    /\ exists c, lookup (u "confidence") r = Some (VNum c) /\ c == 65 # 100.
Proof.
  eexists. split; [vm_compute; reflexivity|].
  split; [reflexivity|]. split; [reflexivity|].
  eexists. split; [vm_compute; reflexivity | vm_compute; reflexivity].
Qed.

(** A server that cannot be reached: the probe reports the failure. *)
Lemma quick_feasibility_offline :
  quick_feasibility_check (L := scenario_library) world_offline
  = Ok [ (u "feasible", VBool false);
         (u "error",
            VStr (u "LM Studio Fehler: Netzwerk-Fehler: connection refused"));
         (u "confidence", VNum 0) ].
Proof. vm_compute. reflexivity. Qed.

(** The comparison of the scenario: an unreachable server for the first
    use case, the reply of the scenario for the second.  Both efforts are
    text, and the ranking is returned. *)
Lemma compare_use_cases_ranking_witness :
  (2 <= length two_use_cases)%nat
  /\ exists results,
      probe_all (L := probe_library) worlds_of_scenario two_use_cases 0 = Ok results
      /\ forallb textual_effort results = true
      /\ exists c,
          compare_use_cases (L := probe_library) worlds_of_scenario two_use_cases = Ok c
          /\ StronglySorted ranked_before (ranked_results c)
          /\ recommendation c = hd_error (ranked_results c).
Proof.
  split; [apply le_n|].
  destruct (proj2 (@compare_use_cases_ranking probe_library worlds_of_scenario
                     two_use_cases) (le_n 2))
    as [results [Hres [_ Hrank]]].
  exists results. split; [exact Hres|].
  assert (Ht : forallb textual_effort results = true).
  { eassert (Hc : probe_all (L := probe_library) worlds_of_scenario two_use_cases 0
                  = Ok _) by (vm_compute; reflexivity).
    rewrite Hc in Hres. injection Hres as <-. vm_compute. reflexivity. }
  split; [exact Ht|].
  destruct (Hrank Ht) as [c [Hc [_ [_ [Hsorted [Hrec _]]]]]].
  exists c. split; [exact Hc|]. split; [exact Hsorted | exact Hrec].
Defined.

(** C6, as stated, fails.  Two probes that differ in their effort only,
    Gering for the first and mittel for the second: the first is ranked
    first, with the score 4 of its lowercased effort, although the effort
    as it is written is not in the mapping and would score 2.5, below the
    3 of mittel.  And when the reply to the second probe has the effort
    null, both probes return a record but no ranking is returned: the sort
    key calls [lower] on the effort and the comparison raises. *)
Lemma compare_use_cases_ranking_counterexample :
  (exists c,
     compare_use_cases (L := probe_library) worlds_with_capital_effort two_use_cases
     = Ok c
     /\ List.map (lookup (u "use_case_index")) (ranked_results c)
        = [Some (VInt 0); Some (VInt 1)]
     /\ List.map (lookup (u "effort")) (ranked_results c)
        = [Some (VJson (JStr (u "Gering"))); Some (VJson (JStr (u "mittel")))]
     /\ List.map (lookup (u "feasible")) (ranked_results c)
        = [Some (VBool true); Some (VBool true)]
     /\ (exists q, List.map (lookup (u "confidence")) (ranked_results c)
                   = [Some (VNum q); Some (VNum q)])
     /\ literal_effort_score (u "Gering") < literal_effort_score (u "mittel"))
  /\ compare_use_cases (L := probe_library) worlds_with_null_effort two_use_cases
     = Raise (Exn AttributeError (u "'NoneType' object has no attribute 'lower'")).
Proof.
  split.
  - eexists. split; [vm_compute; reflexivity|].
    split; [reflexivity|]. split; [reflexivity|]. split; [reflexivity|].
    split; [eexists; vm_compute; reflexivity | vm_compute; reflexivity].
  - vm_compute. reflexivity.
Qed.

(** With text efforts the comparison ranks the feasible use case first
    and the failed probe last. *)
Lemma compare_use_cases_scenario :
  exists c,
    compare_use_cases (L := probe_library) worlds_of_scenario two_use_cases = Ok c
    /\ List.map (lookup (u "use_case_index")) (ranked_results c)
       = [Some (VInt 1); Some (VInt 0)]
    /\ List.map (lookup (u "feasible")) (ranked_results c)
       = [Some (VBool true); Some (VBool false)].
Proof. eexists. split; [vm_compute; reflexivity|]. split; reflexivity. Qed.

(** C4.  Every confidence lies in [0, 1]: the confidence of the result
    of each of the four strategies, of the section-based extraction and of
    a failed strategy; the score of the analysis for every parsed mapping,
    and so for the mapping of the terminal fallback, for which it is
    always computed; the score of a returned analysis; and the confidence
    of the record of a probe, failed or not. *)
Theorem confidence_in_unit_interval {L : Library} (raw fmt template_name : str)
  (d : dict) (errs : list str) (message : str) (w : world) :
  Forall (fun o => scored_within_unit (snd o)) (outcomes raw fmt)
  /\ within_unit (confidence (_extract_structured_text raw fmt))
  /\ within_unit (confidence (failed message))
  /\ score_within_unit (_calculate_confidence_score d raw template_name)
  /\ match _create_text_fallback raw errs with
     | JDict fallback =>
       exists c, _calculate_confidence_score fallback raw template_name = Ok c
                 /\ within_unit c
     | _ => False
     end
  /\ match analyze_use_case w template_name with
     | Ok analysis => within_unit (confidence_score analysis)
     | Raise _ => True
     end
  /\ exists r c,
       quick_feasibility_check w = Ok r
       /\ lookup (u "confidence") r = Some (VNum c) /\ within_unit c.
Proof.
  split; [apply strategies_within_unit|].
  split.
  { destruct (structured_text_bounds raw fmt) as [H0 H1].
    split; [|exact H1]. apply Qle_trans with (4 # 10); [qle | exact H0]. }
  split; [split; qle|].
  split; [apply confidence_score_within_unit|].
  split.
  { unfold _create_text_fallback.
    pose proof (confidence_score_within_unit
                  [ (u "zusammenfassung",
                       JStr (u "Parsing fehlgeschlagen - Originaltext verfügbar"));
                    (u "raw_response", JStr raw);
                    (u "parsing_errors", strings errs);
                    (u "naechste_schritte",
                       strings [u "Response manuell prüfen";
                                u "Prompt-Template überarbeiten";
                                u "KI-Modell-Parameter anpassen"]) ]
                  raw template_name) as Hs.
    unfold _calculate_confidence_score in *. cbv zeta in *.
    match type of Hs with
    | context [count_recommendations ?fs ?fb 0] =>
      replace (count_recommendations fs fb 0) with (@Ok nat 3%nat) in *
        by reflexivity
    end.
    cbv beta iota delta [bind] in *.
    match goal with
    | |- context [if ?b then _ else _] => destruct b
    end; eexists; (split; [reflexivity | exact Hs]). }
  split.
  { destruct (analyze_use_case w template_name) as [a|] eqn:Ha; [|exact I].
    apply (analyze_score_within_unit Ha). }
  apply quick_feasibility_confidence.
Qed.

End EngineFacts.

Module TemplateFacts.

Import PromptTemplates PyFacts Spec.

Lemma join_bullets_nonempty (items : flags) :
  nonempty (join [LF] (bullets items)) = nonempty (bullets items).
Proof.
  unfold bullets. destruct (filter _ items) as [|kv rest]; [reflexivity|].
  simpl List.map.
  match goal with
  | |- context [List.map ?f rest] => destruct (List.map f rest)
  end; reflexivity.
Qed.

(** A check-box group expands to the bullets of the flags set true. *)
Lemma format_selected_items_bullets (items : flags) :
  _format_selected_items items = join [LF] (bullets items).
Proof.
  unfold _format_selected_items, bullets. rewrite List.map_map.
  destruct (filter _ items) as [|kv rest]; reflexivity.
Qed.

Lemma append_if_text (label sep : str) (v : option str) (sections : list str) :
  append_if (has_text v) (label ++ sep ++ text_or v []) sections
  = sections ++ optional_text label sep v.
Proof.
  destruct v as [[|c s]|]; simpl; rewrite ?app_nil_r; reflexivity.
Qed.

Lemma append_if_flags (label : str) (v : option flags) (sections : list str) :
  append_if (nonempty (_format_selected_items (flags_or_empty v)))
    (label ++ [LF] ++ _format_selected_items (flags_or_empty v)) sections
  = sections ++ optional_flags label v.
Proof.
  rewrite format_selected_items_bullets, join_bullets_nonempty.
  unfold optional_flags.
  destruct (bullets (flags_or_empty v)); simpl; rewrite ?app_nil_r; reflexivity.
Qed.

Lemma company_sections_blocks (p : CompanyProfile) :
  company_sections p = company_blocks p.
Proof.
  unfold company_sections, company_blocks. cbv zeta.
  rewrite !append_if_text, !append_if_flags.
  unfold labelled. simpl join. simpl app at 1.
  rewrite <- !app_assoc. reflexivity.
Qed.

Lemma use_case_sections_blocks (c : UseCase) :
  use_case_sections c = use_case_blocks c.
Proof.
  unfold use_case_sections, use_case_blocks. cbv zeta.
  rewrite !append_if_flags.
  rewrite !(append_if_text _ [LF]).
  rewrite (append_if_text (u "**Geschätzte Entwicklungszeit:** ") []).
  unfold labelled, optional_ratings. simpl join.
  destruct (bewertung c) as [[|r rs]|]; rewrite ?app_nil_r;
    rewrite <- !app_assoc; reflexivity.
Qed.

(** C9, as amended.  Each rendered text is the blank-line separated
    sequence of its blocks.  The basic fields are always rendered, a field
    missing from the record as the placeholder N/A; every other field is
    rendered only when it is present and not empty, and is left out
    otherwise; a check-box group expands to the bullets of the flags set
    true, and is left out when no flag is set. *)
Theorem prompt_blocks (p : CompanyProfile) (c : UseCase) (items : flags) :
  _format_company_profile p = join [LF; LF] (company_blocks p)
  /\ _format_use_case c = join [LF; LF] (use_case_blocks c)
  /\ _format_selected_items items = join [LF] (bullets items).
Proof.
  unfold _format_company_profile, _format_use_case.
  rewrite company_sections_blocks, use_case_sections_blocks.
  split; [reflexivity|]. split; [reflexivity|].
  apply format_selected_items_bullets.
Qed.

(** C9, as stated, fails: every basic field of a profile without any key
    is rendered, with the placeholder. *)
Lemma prompt_blocks_counterexample :
  _format_company_profile empty_profile
  = u "**Unternehmen:** N/A" ++ [LF] ++ u "**Branche:** N/A" ++ [LF]
    ++ u "**Mitarbeiter:** N/A" ++ [LF] ++ u "**Umsatzklasse:** N/A" ++ [LF]
    ++ u "**Geschäftsradius:** N/A" ++ [LF; LF]
    ++ u "**Digitalisierungsgrad:** N/A" ++ [LF; LF]
    ++ u "**KI-Verständnis:** N/A".
Proof. vm_compute. reflexivity. Qed.

End TemplateFacts.

(* ================================================================== *)
(** * Properties of response_parser.py *)
(* ================================================================== *)

Module ParserProps.

Import ResponseParser PyFacts Spec Props ParserFacts.

(** ** Dictionaries *)

Lemma lookup_set_item_same {V : Type} (k : str) (v : V) (d : list (str * V)) :
  lookup k (set_item k v d) = Some v.
Proof.
  induction d as [|[k' v'] d IH]; simpl.
  - now rewrite str_eqb_refl.
  - destruct (str_eqb k k') eqn:E; simpl; rewrite E; [reflexivity | exact IH].
Qed.

Lemma lookup_set_item_other {V : Type} (k k0 : str) (v : V) (d : list (str * V)) :
  k0 <> k -> lookup k0 (set_item k v d) = lookup k0 d.
Proof.
  intros Hne. induction d as [|[k' v'] d IH]; simpl.
  - apply str_eqb_neq in Hne. now rewrite Hne.
  - destruct (str_eqb k k') eqn:E; simpl.
    + apply str_eqb_eq in E. subst k'.
      apply str_eqb_neq in Hne. now rewrite Hne.
    + destruct (str_eqb k0 k'); [reflexivity | exact IH].
Qed.

Lemma keys_set_item {V : Type} (k : str) (v : V) (d : list (str * V)) :
  List.map fst (set_item k v d)
  = if has_key k d then List.map fst d else List.map fst d ++ [k].
Proof.
  unfold has_key. induction d as [|[k' v'] d IH]; simpl; [reflexivity|].
  destruct (str_eqb k k') eqn:E; simpl; [reflexivity|].
  rewrite IH. destruct (lookup k d); reflexivity.
Qed.

Lemma has_key_In {V : Type} (k : str) (d : list (str * V)) :
  has_key k d = false -> ~ In k (List.map fst d).
Proof.
  unfold has_key. induction d as [|[k' v'] d IH]; simpl; [tauto|].
  destruct (str_eqb k k') eqn:E; [discriminate|].
  intros H [Hk | Hin]; [|exact (IH H Hin)].
  apply str_eqb_neq in E. congruence.
Qed.

Lemma NoDup_set_item {V : Type} (k : str) (v : V) (d : list (str * V)) :
  NoDup (List.map fst d) -> NoDup (List.map fst (set_item k v d)).
Proof.
  intros Hd. rewrite keys_set_item. destruct (has_key k d) eqn:E; [exact Hd|].
  apply NoDup_app; [exact Hd | repeat constructor; simpl; tauto |].
  intros x Hx [<- | []]. exact (has_key_In E Hx).
Qed.

Lemma In_set_item {V : Type} (k : str) (v : V) (d : list (str * V)) (x : str * V) :
  In x (set_item k v d) -> x = (k, v) \/ In x d.
Proof.
  induction d as [|[k' v'] d IH]; simpl.
  - intros [<- | []]. now left.
  - destruct (str_eqb k k') eqn:E; simpl.
    + apply str_eqb_eq in E. subst k'. intros [<- | Hin]; [now left | now right; right].
    + intros [<- | Hin]; [now right; left|].
      destruct (IH Hin) as [-> | H]; [now left | now right; right].
Qed.

(** ** Format detection *)

(** X1.  A reply that holds none of the characters { } [ ] is detected as
    text, for which the parser has no list of required fields; every other
    reply is detected as one of the formats for which it has one. *)
Theorem detect_format_registered (response : str) :
  if contains_any brackets response
  then exists fields,
      lookup (_detect_format response) expected_fields = Some fields
      /\ fields <> []
  else _detect_format response = u "text"
       /\ lookup (_detect_format response) expected_fields = None.
Proof.
  unfold _detect_format, brackets.
  destruct (contains_any [u "{"; u "}"; u "["; u "]"] response).
  - destruct (contains (u "projektphasen") (lower response));
      [eexists; split; [reflexivity | discriminate]|].
    destruct (contains (u "machbarkeit") (lower response));
      [eexists; split; [reflexivity | discriminate]|].
    destruct (contains (u "investition") (lower response)
              || contains (u "roi") (lower response));
      eexists; (split; [reflexivity | discriminate]).
  - split; reflexivity.
Qed.

(** ** The heuristics of the text fallback *)

(** X2.  Whatever the text, the values that [_extract_feasibility_from_text]
    puts into the mapping are words of the vocabularies that the code
    checks elsewhere: the mapping validates as a quick reply without any
    penalty (confidence 3/5 for three of the five fields, valid, no
    error), and its effort is a key of the effort scores of the ranking. *)
Theorem extracted_feasibility_validates (text : str) :
  (exists v,
     _validate_structure (JDict (_extract_feasibility_from_text text)) (u "quick_json")
     = Ok v
     /\ v_confidence v == 3 # 5 /\ valid v = true /\ v_errors v = [])
  /\ exists effort,
       lookup (u "aufwand") (_extract_feasibility_from_text text) = Some (JStr effort)
       /\ has_key effort AnalysisEngine.effort_mapping = true.
Proof.
  unfold _extract_feasibility_from_text.
  generalize (lower text). intros t.
  destruct (contains_any [u "sehr gut"; u "excellent"; u "einfach"] t);
  destruct (contains_any [u "gut"; u "machbar"; u "realistisch"] t);
  destruct (contains_any [u "schwierig"; u "herausfordernd"; u "komplex"] t);
  destruct (contains_any [u "unrealistisch"; u "unmöglich"; u "nicht machbar"] t);
  destruct (contains_any [u "geringer aufwand"; u "wenig aufwand"; u "einfach"] t);
  destruct (contains_any [u "hoher aufwand"; u "sehr aufwendig"; u "kompliziert"] t);
  destruct (contains (u "empfehlung") t && contains (u "ja") t);
  destruct (contains_any [u "nicht empfohlen"; u "nein"; u "stoppen"] t);
  (split;
   [ eexists; split; [vm_compute; reflexivity|];
     split; [vm_compute; reflexivity|]; split; vm_compute; reflexivity
   | eexists; split; vm_compute; reflexivity ]).
Qed.

Lemma paragraphs_nonempty (text : str) (p : str) :
  In p (paragraphs text) -> p <> [].
Proof.
  unfold paragraphs. intros H. apply filter_In in H as [_ H].
  destruct p; [discriminate | discriminate].
Qed.

(** X3.  The summary that [_extract_summary] returns is never empty and
    never longer than 300 characters. *)
Theorem extract_summary_bounded (text : str) :
  (0 < length (_extract_summary text) <= 300)%nat.
Proof.
  unfold _extract_summary.
  destruct (paragraphs text) as [|summary rest] eqn:Hp.
  - assert (H : length (u "Keine Zusammenfassung verfügbar") = 31%nat)
      by (vm_compute; reflexivity).
    rewrite H. lia.
  - assert (Hne : summary <> []).
    { apply (@paragraphs_nonempty text). rewrite Hp. now left. }
    destruct (300 <? length summary)%nat eqn:Hlen.
    + apply Nat.ltb_lt in Hlen. unfold take.
      rewrite length_app, length_firstn, Nat.min_l by lia.
      change (length (u "...")) with 3%nat. lia.
    + apply Nat.ltb_ge in Hlen. destruct summary; [congruence|]. simpl in *. lia.
Qed.

(** ** Sections of a free text *)

Lemma join_nonempty (sep : str) (parts : list str) :
  parts <> [] -> Forall (fun p => p <> []) parts -> join sep parts <> [].
Proof.
  destruct parts as [|p rest]; [congruence|].
  intros _ H. inversion H as [|? ? Hp _]; subst.
  destruct rest; simpl; [exact Hp|].
  destruct p; [congruence | discriminate].
Qed.

Lemma Forall_set_item {V : Type} (P : str * V -> Prop) (k : str) (v : V)
  (d : list (str * V)) :
  P (k, v) -> Forall P d -> Forall P (set_item k v d).
Proof.
  intros Hk Hd. apply Forall_forall. intros x Hx.
  destruct (In_set_item Hx) as [-> | Hin]; [exact Hk|].
  rewrite Forall_forall in Hd. exact (Hd x Hin).
Qed.

Lemma save_section_invariant (st : section_state) :
  section_invariant st ->
  Forall titled (save_section st) /\ NoDup (List.map fst (save_section st)).
Proof.
  intros [Hs [Hn Hc]]. unfold save_section.
  destruct (current_section st) as [title|]; [|split; assumption].
  destruct title as [|c title]; simpl nonempty; [split; assumption|].
  destruct (current_content st) as [|l ls] eqn:Hcc; simpl; [split; assumption|].
  split.
  - apply Forall_set_item; [|exact Hs]. split; [discriminate|].
    change (join [LF] (l :: ls) <> []).
    apply join_nonempty; [discriminate | exact Hc].
  - apply NoDup_set_item. exact Hn.
Qed.

Lemma section_step_invariant (st : section_state) (line : str) :
  section_invariant st -> section_invariant (section_step st line).
Proof.
  intros Hst. unfold section_step.
  destruct (strip line) as [|c l] eqn:Hl; simpl is_nil; cbv iota; [exact Hst|].
  destruct (match_heading (c :: l)).
  - destruct (save_section_invariant Hst) as [H1 H2].
    split; [exact H1 | split; [exact H2 | constructor]].
  - destruct (current_section st) as [title|]; [|exact Hst].
    destruct (nonempty title); [|exact Hst].
    destruct Hst as [Hs [Hn Hc]]. split; [exact Hs | split; [exact Hn|]].
    simpl. apply Forall_app. split; [exact Hc|]. repeat constructor. discriminate.
Qed.

Lemma fold_section_invariant (lines : list str) (st : section_state) :
  section_invariant st -> section_invariant (fold_left section_step lines st).
Proof.
  revert st. induction lines as [|l lines IH]; intros st Hst; simpl; [exact Hst|].
  apply IH, section_step_invariant, Hst.
Qed.

(** X4.  Every section that [_find_text_sections] returns has a title
    that is not empty and a content that is not empty, and no title occurs
    twice: a heading without lines below it, and the lines before the first
    heading, leave no entry. *)
Theorem text_sections_wellformed (text : str) :
  Forall titled (_find_text_sections text)
  /\ NoDup (List.map fst (_find_text_sections text)).
Proof.
  unfold _find_text_sections. apply save_section_invariant.
  apply fold_section_invariant. split; [constructor | split; constructor].
Qed.

(** ** Lists of a free text *)

Lemma append_to_schritte (item : str) (a b c : list str) :
  append_to (u "schritte") item (three_lists a b c) = three_lists (a ++ [item]) b c.
Proof. reflexivity. Qed.

Lemma append_to_empfehlungen (item : str) (a b c : list str) :
  append_to (u "empfehlungen") item (three_lists a b c) = three_lists a (b ++ [item]) c.
Proof. reflexivity. Qed.

Lemma append_to_allgemein (item : str) (a b c : list str) :
  append_to (u "allgemein") item (three_lists a b c) = three_lists a b (c ++ [item]).
Proof. reflexivity. Qed.

Lemma list_step_count (line : str) (a b c : list str) :
  exists a' b' c',
    list_step (three_lists a b c) line = three_lists a' b' c'
    /\ (length a' + length b' + length c'
        = length a + length b + length c
          + (if is_some (match_list_item line) then 1 else 0))%nat.
Proof.
  unfold list_step. destruct (match_list_item line) as [g|]; simpl is_some; cbv iota.
  - destruct (contains_any [u "schritt"; u "maßnahme"; u "aktion"] (lower (strip g))).
    + rewrite append_to_schritte. do 3 eexists. split; [reflexivity|].
      rewrite length_app. simpl. lia.
    + destruct (contains_any [u "empfehlung"; u "sollte"; u "muss"] (lower (strip g))).
      * rewrite append_to_empfehlungen. do 3 eexists. split; [reflexivity|].
        rewrite length_app. simpl. lia.
      * rewrite append_to_allgemein. do 3 eexists. split; [reflexivity|].
        rewrite length_app. simpl. lia.
  - do 3 eexists. split; [reflexivity | lia].
Qed.

Lemma fold_list_step_count (lines : list str) (a b c : list str) :
  exists a' b' c',
    fold_left list_step lines (three_lists a b c) = three_lists a' b' c'
    /\ (length a' + length b' + length c'
        = length a + length b + length c
          + length (filter (fun line => is_some (match_list_item line)) lines))%nat.
Proof.
  revert a b c. induction lines as [|l lines IH]; intros a b c; simpl.
  - do 3 eexists. split; [reflexivity | lia].
  - destruct (list_step_count l a b c) as [a1 [b1 [c1 [H1 Hn1]]]]. rewrite H1.
    destruct (IH a1 b1 c1) as [a2 [b2 [c2 [H2 Hn2]]]].
    exists a2, b2, c2. split; [exact H2|].
    destruct (is_some (match_list_item l)); simpl length; lia.
Qed.

(** The scan always returns its three lists. *)
Lemma extracted_lists_shape (text : str) :
  exists schritte empfehlungen allgemein,
    _extract_lists_from_text text = three_lists schritte empfehlungen allgemein.
Proof.
  unfold _extract_lists_from_text.
  destruct (fold_list_step_count (split_lines text) [] [] [])
    as [a [b [c [H _]]]].
  exists a, b, c. exact H.
Qed.

(** X5.  [_extract_lists_from_text] always returns its three lists, under
    the keys schritte, empfehlungen and allgemein in this order, and the
    three together hold exactly one item for every line that one of the
    list patterns matches. *)
Theorem extracted_lists_partition (text : str) :
  exists schritte empfehlungen allgemein,
    _extract_lists_from_text text = three_lists schritte empfehlungen allgemein
    /\ (length schritte + length empfehlungen + length allgemein
        = length (list_lines text))%nat.
Proof.
  unfold _extract_lists_from_text, list_lines.
  destruct (fold_list_step_count (split_lines text) [] [] [])
    as [a [b [c [H Hn]]]].
  exists a, b, c. split; [exact H | exact Hn].
Qed.

(** ** Headings and fields *)

Lemma first_field_In (title_lower : str) (m : list (str * list str)) (field : str) :
  first_field title_lower m = Some field -> In field (List.map fst m).
Proof.
  induction m as [|[f keywords] m IH]; simpl; [discriminate|].
  destruct (contains_any keywords title_lower).
  - intros H. injection H as <-. now left.
  - intros H. right. exact (IH H).
Qed.

(** X6.  A field that [_map_section_to_field] returns for a heading is
    always one of the required fields that the parser registers for the
    expected format; for a format without a table of headings nothing is
    returned. *)
Theorem mapped_field_expected (section_title expected_format field : str) :
  _map_section_to_field section_title expected_format = Some field ->
  (expected_format = u "structured_json" \/ expected_format = u "quick_json")
  /\ exists fields,
       lookup expected_format expected_fields = Some fields /\ In field fields.
Proof.
  unfold _map_section_to_field, get, section_mappings. simpl lookup.
  destruct (str_eqb expected_format (u "structured_json")) eqn:E1.
  - apply str_eqb_eq in E1. subst. intros H. apply first_field_In in H.
    split; [now left|].
    eexists. split; [reflexivity|]. simpl in H. simpl. tauto.
  - destruct (str_eqb expected_format (u "quick_json")) eqn:E2.
    + apply str_eqb_eq in E2. subst. intros H. apply first_field_In in H.
      split; [now right|].
      eexists. split; [reflexivity|]. simpl in H. simpl. tauto.
    + discriminate.
Qed.

(** The heading Risiken und Gefahren of a full analysis is mapped to the
    required field risiken. *)
Lemma mapped_field_expected_witness :
  _map_section_to_field (u "Risiken und Gefahren") (u "structured_json")
  = Some (u "risiken")
  /\ exists fields,
       lookup (u "structured_json") expected_fields = Some fields
       /\ In (u "risiken") fields.
Proof.
  split; [vm_compute; reflexivity|].
  apply (@mapped_field_expected (u "Risiken und Gefahren") (u "structured_json")).
  vm_compute. reflexivity.
Defined.

(** ** The sub-field check of the full analysis *)

Lemma step_factor_cases (step : json) :
  (complete_step step = true /\ step_factor step == 1)
  \/ (complete_step step = false /\ 0 <= step_factor step /\ step_factor step <= 8 # 10).
Proof.
  destruct step as [| | | | | |s]; try (right; split; [reflexivity | split; qle]).
  unfold complete_step, step_factor, present_in, required_step_fields.
  simpl forallb. simpl filter.
  destruct (has_key (u "titel") s), (has_key (u "beschreibung") s),
    (has_key (u "prioritaet") s);
    try (left; split; [reflexivity | vm_compute; reflexivity]);
    right; (split; [reflexivity | split; qle]).
Qed.

Lemma fold_step_factor (steps : list json) (q : Q) :
  0 <= q -> q <= 1 ->
  let p := fold_left (fun q step => q * step_factor step) steps q in
  0 <= p
  /\ if forallb complete_step steps then p == q else p <= 8 # 10.
Proof.
  revert q. induction steps as [|s steps IH]; intros q H0 H1; simpl.
  - split; [exact H0 | reflexivity].
  - destruct (step_factor_cases s) as [[Hc Hf] | [Hc [Hf0 Hf1]]]; rewrite Hc; simpl.
    + assert (Hq : q * step_factor s == q) by (rewrite Hf; ring).
      destruct (IH (q * step_factor s)) as [Hp0 Hp]; [rewrite Hq; assumption ..|].
      split; [exact Hp0|].
      destruct (forallb complete_step steps); [rewrite Hp; exact Hq | exact Hp].
    + assert (Hq0 : 0 <= q * step_factor s) by nra.
      assert (Hq1 : q * step_factor s <= 8 # 10) by nra.
      assert (Hq2 : q * step_factor s <= 1) by (apply Qle_trans with (8 # 10); [exact Hq1 | qle]).
      destruct (IH (q * step_factor s) Hq0 Hq2) as [Hp0 Hp].
      split; [exact Hp0|].
      destruct (forallb complete_step steps); [rewrite Hp; exact Hq1 | exact Hp].
Qed.

(** X7.  The quality score of a full analysis is 1 exactly when every
    entry of the list of steps is a mapping with the three fields titel,
    beschreibung and prioritaet (or the steps are no list): the bonus of
    1.1 for technical solutions never makes up for an incomplete step. *)
Theorem analysis_quality_perfect (d : dict) :
  _validate_analysis_structure d == 1
  <-> match get (u "handlungsschritte") (JList []) d with
      | JList steps => forallb complete_step steps = true
      | _ => True
      end.
Proof.
  unfold _validate_analysis_structure.
  set (p := match get (u "handlungsschritte") (JList []) d with
            | JList steps => fold_left (fun q step => q * step_factor step) steps 1
            | _ => 1
            end).
  assert (Hp : 0 <= p
               /\ match get (u "handlungsschritte") (JList []) d with
                  | JList steps =>
                    if forallb complete_step steps then p == 1 else p <= 8 # 10
                  | _ => p == 1
                  end).
  { subst p. destruct (get (u "handlungsschritte") (JList []) d);
      try (split; [qle | reflexivity]).
    apply fold_step_factor; qle. }
  destruct Hp as [Hp0 Hp].
  set (b := match get (u "technische_loesungen") (JList []) d with
            | JList (_ :: _) => p * (11 # 10)
            | _ => p
            end).
  assert (Hb : b == p \/ b == p * (11 # 10)).
  { subst b. destruct (get (u "technische_loesungen") (JList []) d) as [| | | | |[|]|];
      try (left; reflexivity). right. reflexivity. }
  assert (Hone : p == 1 -> Qmin b 1 == 1).
  { intros H1. apply Q.min_r. destruct Hb as [Hb | Hb]; rewrite Hb, H1; qle. }
  assert (Hlow : p <= 8 # 10 -> ~ Qmin b 1 == 1).
  { intros Hl Hm. assert (Hb1 : b < 1).
    { destruct Hb as [Hb | Hb]; rewrite Hb; nra. }
    rewrite Q.min_l in Hm by (apply Qlt_le_weak; exact Hb1).
    rewrite Hm in Hb1. apply (Qlt_irrefl 1 Hb1). }
  destruct (get (u "handlungsschritte") (JList []) d) as [| | | | |steps|];
    try (split; [intros _; exact I | intros _; apply Hone; exact Hp]).
  destruct (forallb complete_step steps).
  - split; [reflexivity | intros _; apply Hone; exact Hp].
  - split; [intros H; destruct (Hlow Hp H) | discriminate].
Qed.

(** ** The section-based extraction *)

Lemma set_item_nonempty {V : Type} (k : str) (v : V) (d : list (str * V)) :
  set_item k v d <> [].
Proof.
  destruct d as [|[k' v'] d]; simpl; [discriminate|].
  destruct (str_eqb k k'); discriminate.
Qed.

(** X8.  For the format of the full analysis the section-based extraction
    always succeeds, even on a text without any heading or list: the two
    step lists are always stored, and the confidence is at least 0.6, the
    raise of 0.2 for the list scan being always granted. *)
Theorem structured_extraction_succeeds (response : str) :
  let r := _extract_structured_text response (u "structured_json") in
  success r = true
  /\ 6 # 10 <= confidence r
  /\ exists d steps next,
       data r = JDict d
       /\ lookup (u "handlungsschritte") d = Some (strings steps)
       /\ lookup (u "naechste_schritte") d = Some (strings next).
Proof.
  cbv zeta. split; [|split].
  - unfold _extract_structured_text.
    destruct (fold_left (section_fold (u "structured_json"))
                (_find_text_sections response) ([], 4 # 10)) as [ed c].
    destruct (extracted_lists_shape response) as [a [b [c' Hl]]].
    rewrite Hl. change (negb (is_nil (three_lists a b c'))) with true. cbv iota.
    rewrite str_eqb_refl. simpl success.
    match goal with
    | |- context [set_item ?k ?v ?d] =>
      pose proof (@set_item_nonempty json k v d) as Hne;
      destruct (set_item k v d); [congruence | reflexivity]
    end.
  - rewrite structured_text_confidence. unfold list_bonus.
    destruct (extracted_lists_shape response) as [a [b [c' Hl]]].
    rewrite Hl. change (nonempty (three_lists a b c')) with true. cbv iota.
    assert (Hn : 0 <= inject_Z (Z.of_nat (mapped_sections response (u "structured_json")))).
    { rewrite <- (Zle_Qle 0). lia. }
    apply Q.min_glb; [nra | qle].
  - unfold _extract_structured_text.
    destruct (fold_left (section_fold (u "structured_json"))
                (_find_text_sections response) ([], 4 # 10)) as [ed c].
    destruct (extracted_lists_shape response) as [a [b [c' Hl]]].
    rewrite Hl. change (negb (is_nil (three_lists a b c'))) with true. cbv iota.
    rewrite str_eqb_refl. simpl data.
    eexists. exists a, b. split; [reflexivity|]. split.
    + rewrite lookup_set_item_other by (vm_compute; discriminate).
      apply lookup_set_item_same.
    + apply lookup_set_item_same.
Qed.

(** ** The brace scan of the mixed-content strategy *)

Lemma brace_balance_app (a b : str) :
  brace_balance (a ++ b) = (brace_balance a + brace_balance b)%Z.
Proof.
  induction a as [|c a IH]; simpl; [reflexivity|]. rewrite IH. lia.
Qed.

Lemma slice_middle (before mid rest : str) :
  slice (length before) (length before + length mid) (before ++ mid ++ rest) = mid.
Proof.
  unfold slice. rewrite skipn_app, skipn_all, Nat.sub_diag. simpl.
  replace (length before + length mid - length before)%nat with (length mid) by lia.
  rewrite firstn_app, firstn_all, Nat.sub_diag. simpl. apply app_nil_r.
Qed.

Lemma scan_braces_balanced (response : str) (rest pre : str)
  (brace_start : option nat) (brace_count : Z) :
  response = pre ++ rest ->
  scan_invariant pre brace_start brace_count ->
  Forall balanced_object
    (scan_braces response rest (length pre) brace_start brace_count).
Proof.
  revert pre brace_start brace_count.
  induction rest as [|c rest IH]; intros pre start count Hr Hinv; simpl;
    [constructor|].
  assert (Hr' : response = (pre ++ [c]) ++ rest) by (rewrite <- app_assoc; exact Hr).
  assert (Hlen : S (length pre) = length (pre ++ [c]))
    by (rewrite length_app; simpl; lia).
  destruct (char_eqb c LBRACE) eqn:Eo.
  - apply N.eqb_eq in Eo. subst c. rewrite Hlen. apply IH; [exact Hr'|].
    destruct (count =? 0)%Z eqn:Ec.
    + apply Z.eqb_eq in Ec. exists pre, [].
      split; [reflexivity|]. split; [reflexivity|].
      split; [vm_compute brace_balance; lia | lia].
    + destruct start as [s|]; [|exact I].
      destruct Hinv as [before [seg [Hp [Hs [Hb Hc]]]]].
      exists before, (seg ++ [LBRACE]). subst pre.
      split; [now rewrite <- app_assoc|]. split; [exact Hs|]. split; [|lia].
      change (LBRACE :: seg ++ [LBRACE]) with ((LBRACE :: seg) ++ [LBRACE]).
      rewrite brace_balance_app, Hb. simpl. lia.
  - destruct (char_eqb c RBRACE) eqn:Ecl.
    + apply N.eqb_eq in Ecl. subst c.
      destruct start as [s|].
      * destruct Hinv as [before [seg [Hp [Hs [Hb Hc]]]]].
        assert (Hbal : brace_balance ((LBRACE :: seg) ++ [RBRACE]) = (count - 1)%Z).
        { rewrite brace_balance_app, Hb. simpl. lia. }
        destruct (count - 1 =? 0)%Z eqn:Ez.
        -- apply Z.eqb_eq in Ez. constructor.
           ++ assert (Hslice : slice s (S (length pre)) response
                               = (LBRACE :: seg) ++ [RBRACE]).
              { rewrite <- Hs.
                replace (S (length pre))
                  with (length before + length ((LBRACE :: seg) ++ [RBRACE]))%nat
                  by (rewrite Hp, !length_app; simpl; lia).
                replace response
                  with (before ++ ((LBRACE :: seg) ++ [RBRACE]) ++ rest)
                  by (rewrite Hr, Hp, <- !app_assoc; reflexivity).
                apply slice_middle. }
              rewrite Hslice. split; [exists seg; reflexivity|].
              rewrite Hbal. exact Ez.
           ++ rewrite Hlen. apply IH; [exact Hr' | exact I].
        -- rewrite Hlen. apply IH; [exact Hr'|].
           exists before, (seg ++ [RBRACE]). subst pre.
           apply Z.eqb_neq in Ez.
           split; [now rewrite <- app_assoc|]. split; [exact Hs|].
           split; [exact Hbal | lia].
      * rewrite Hlen. apply IH; [exact Hr' | exact I].
    + rewrite Hlen. apply IH; [exact Hr'|].
      destruct start as [s|]; [|exact I].
      destruct Hinv as [before [seg [Hp [Hs [Hb Hc]]]]].
      exists before, (seg ++ [c]). subst pre.
      split; [now rewrite <- app_assoc|]. split; [exact Hs|]. split; [|exact Hc].
      change (LBRACE :: seg ++ [c]) with ((LBRACE :: seg) ++ [c]).
      rewrite brace_balance_app, Hb. simpl. rewrite Eo, Ecl. lia.
Qed.

(** X9.  Every candidate that the brace scan of [_parse_mixed_content]
    cuts out of a reply begins with an opening brace, ends with a closing
    brace and holds as many opening as closing braces. *)
Theorem mixed_content_candidates_balanced (response : str) :
  Forall balanced_object (json_candidates response).
Proof.
  unfold json_candidates.
  apply (@scan_braces_balanced response response [] None 0%Z); [reflexivity | exact I].
Qed.

(** ** A reply that is a valid document *)

Section ValidReply.

Context {L : Library}.

(** X10.  When the reply, stripped, decodes to a document that the
    structural validation judges valid for the format in force, then
    [parse_response] returns exactly this document: the first strategy
    wins and nothing is repaired or extracted. *)
Theorem valid_reply_returned (raw fmt : str) (document : json) (v : Validation) :
  forallb is_space raw = false ->
  json_loads (strip raw) = Ok document ->
  _validate_structure document (effective_format raw fmt) = Ok v ->
  valid v = true ->
  parse_response raw fmt = Ok document.
Proof.
  intros Hraw Hloads Hv Hvalid.
  unfold parse_response, parse_response_from.
  rewrite is_blank_spec, Hraw. fold (effective_format raw fmt).
  unfold parse_strategies. simpl run_strategies.
  unfold _parse_clean_json at 1. rewrite Hloads.
  unfold try_except. cbv beta iota zeta delta [bind]. rewrite Hv.
  simpl success. rewrite Hvalid. reflexivity.
Qed.

End ValidReply.

(** The quick reply of the scenario is returned as it was decoded. *)
Lemma valid_reply_returned_witness :
  parse_response (L := scenario_library) scenario_text (u "quick_json")
  = Ok (JDict scenario_reply).
Proof.
  eapply (@valid_reply_returned scenario_library scenario_text (u "quick_json")).
  - vm_compute. reflexivity.
  - vm_compute. reflexivity.
  - vm_compute. reflexivity.
  - vm_compute. reflexivity.
Defined.

End ParserProps.

(* ================================================================== *)
(** * Properties of lm_studio_client.py *)
(* ================================================================== *)

Module ClientProps.

Import LMStudioClient PyFacts Spec Props.

(** ** The text of a reply *)

(** X11.  [extract_response_text] returns a text exactly when the reply is
    a mapping whose entry choices is a list that begins with a mapping,
    whose entry message is a mapping, whose entry content is a text that is
    not empty; the text returned is that content without the white space
    around it, which is empty when the content is white space only. *)
Theorem extract_response_text_spec (response : json) (text : str) :
  extract_response_text response = Ok text
  <-> exists d choice rest message content,
        response = JDict d
        /\ lookup (u "choices") d = Some (JList (JDict choice :: rest))
        /\ lookup (u "message") choice = Some (JDict message)
        /\ lookup (u "content") message = Some (JStr content)
        /\ content <> []
        /\ text = strip content.
Proof.
  split.
  - unfold extract_response_text, try_except.
    destruct response as [| | | | | |d]; try (simpl; discriminate).
    unfold py_get at 1. unfold get.
    destruct (lookup (u "choices") d) as [choices|] eqn:Hc; [|simpl; discriminate].
    cbv beta iota zeta delta [bind].
    destruct choices as [|b|z|q|s|l|cd]; try (simpl; discriminate).
    + destruct b; simpl; discriminate.
    + simpl truthy. destruct (z =? 0)%Z; simpl; discriminate.
    + simpl truthy. destruct (Qeq_bool q 0); simpl; discriminate.
    + destruct s; simpl; discriminate.
    + destruct l as [|first rest]; [simpl; discriminate|].
      simpl truthy. simpl negb. cbv iota. simpl first_item. cbv iota beta.
      destruct first as [| | | | | |choice]; try (simpl; discriminate).
      unfold py_get at 1. unfold get.
      destruct (lookup (u "message") choice) as [message|] eqn:Hm;
        [|simpl; discriminate].
      destruct message as [| | | | | |message]; try (simpl; discriminate).
      unfold py_get. unfold get.
      destruct (lookup (u "content") message) as [content|] eqn:Hct;
        [|simpl; discriminate].
      destruct content as [|b|z|q|content|l|cd]; try (simpl; discriminate).
      * destruct b; simpl; discriminate.
      * simpl truthy. destruct (z =? 0)%Z; simpl; discriminate.
      * simpl truthy. destruct (Qeq_bool q 0); simpl; discriminate.
      * destruct content as [|c content]; [simpl; discriminate|].
        simpl. intros H. injection H as <-.
        exists d, choice, rest, message, (c :: content).
        repeat (split; [first [assumption | reflexivity | discriminate]|]).
        reflexivity.
      * destruct l; simpl; discriminate.
      * destruct cd; simpl; discriminate.
    + destruct cd; simpl; discriminate.
  - intros (d & choice & rest & message & content & -> & Hc & Hm & Hct & Hne & ->).
    unfold extract_response_text, py_get, get. rewrite Hc. simpl.
    rewrite Hm. simpl. rewrite Hct.
    destruct content; [congruence | reflexivity].
Qed.

(** ** The size of a request *)

Lemma total_text_length (messages : list (list (str * str))) (acc : str) :
  length (fold_left (fun total_text message =>
                       total_text ++ get (u "content") [] message) messages acc)
  = (length acc + content_length messages)%nat.
Proof.
  revert acc. induction messages as [|m messages IH]; intros acc; simpl.
  - unfold content_length. simpl. lia.
  - rewrite IH, length_app. unfold content_length. simpl. lia.
Qed.

Lemma round_to_double_bound (m : Z) :
  (0 < m)%Z ->
  (0 <= snd (round_to_double m 0)
   /\ Z.shiftl (fst (round_to_double m 0)) (snd (round_to_double m 0))
      <= 2 ^ (Z.log2 m + 1))%Z.
Proof.
  intros Hm. unfold round_to_double.
  pose proof (Z.log2_spec m Hm) as [_ Hup]. rewrite <- Z.add_1_r in Hup.
  pose proof (Z.log2_nonneg m) as Hlog.
  destruct (Z.log2 m + 1 <=? 53)%Z eqn:Hb.
  - simpl fst. simpl snd. rewrite Z.shiftl_0_r. lia.
  - apply Z.leb_gt in Hb. cbv zeta.
    set (shift := (Z.log2 m + 1 - 53)%Z) in *.
    assert (Hs : (0 < shift)%Z) by (subst shift; lia).
    set (q := Z.shiftr m shift).
    assert (Hq : (q < 2 ^ 53)%Z).
    { subst q. rewrite Z.shiftr_div_pow2 by lia.
      apply Z.div_lt_upper_bound; [apply Z.pow_pos_nonneg; lia|].
      rewrite <- Z.pow_add_r by lia.
      replace (shift + 53)%Z with (Z.log2 m + 1)%Z by (subst shift; lia).
      exact Hup. }
    set (q' := if ((Z.shiftl 1 (shift - 1) <? m - Z.shiftl q shift)
                   || (m - Z.shiftl q shift =? Z.shiftl 1 (shift - 1)) && Z.odd q)%Z
               then (q + 1)%Z else q).
    assert (Hq' : (q' <= 2 ^ 53)%Z) by (subst q'; destruct (_ || _)%bool; lia).
    simpl fst. simpl snd. split; [lia|].
    replace (0 + shift)%Z with shift by lia.
    rewrite Z.shiftl_mul_pow2 by lia.
    replace (Z.log2 m + 1)%Z with (53 + shift)%Z by (subst shift; lia).
    rewrite Z.pow_add_r by lia.
    apply Z.mul_le_mono_nonneg_r; [apply Z.pow_nonneg; lia | exact Hq'].
Qed.

Lemma int_of_product_returns (n : Z) (x : Z * Z) :
  (Z.abs n < 2 ^ 1023)%Z -> exists limit, int_of_product n x = Ok limit.
Proof.
  intros Hn. unfold int_of_product.
  destruct (n =? 0)%Z eqn:E; [eexists; reflexivity|].
  apply Z.eqb_neq in E.
  assert (Hpos : (0 < Z.abs n)%Z) by lia.
  destruct (round_to_double_bound Hpos) as [He Hb].
  destruct (round_to_double (Z.abs n) 0) as [a ea]. simpl fst in Hb. simpl snd in *.
  assert (Hlog : (Z.log2 (Z.abs n) + 1 <= 1023)%Z).
  { apply Z.log2_lt_pow2 in Hn; lia. }
  assert (Hsmall : (Z.shiftl a ea < Z.shiftl 1 1024)%Z).
  { rewrite Z.shiftl_1_l. eapply Z.le_lt_trans; [exact Hb|].
    apply Z.le_lt_trans with (2 ^ 1023)%Z;
      [apply Z.pow_le_mono_r; lia | apply Z.pow_lt_mono_r; lia]. }
  apply Z.leb_gt in Hsmall. rewrite Hsmall.
  destruct (round_to_double (a * fst x) (ea + snd x)) as [p ep].
  eexists. reflexivity.
Qed.

(** X12.  For every [max_tokens] within the range of the doubles the size
    check returns, and it accepts a request exactly when the contents of
    its messages have together fewer than 4 * (limit + 1) characters,
    where limit is [int(max_tokens * 0.7)]; so taking the first message
    away never turns an accepted request into a rejected one. *)
Theorem validate_request_size_threshold (max_tokens : Z)
  (messages : list (list (str * str))) :
  (Z.abs max_tokens < 2 ^ 1023)%Z ->
  exists limit,
    int_of_product max_tokens seven_tenths = Ok limit
    /\ validate_request_size max_tokens messages
       = Ok (Z.of_nat (content_length messages) <? 4 * (limit + 1))%Z
    /\ forall message,
         validate_request_size max_tokens (message :: messages) = Ok true ->
         validate_request_size max_tokens messages = Ok true.
Proof.
  intros Hn. destruct (int_of_product_returns seven_tenths Hn) as [limit Hl].
  exists limit. split; [exact Hl|].
  assert (Hv : forall ms,
             validate_request_size max_tokens ms
             = Ok (Z.of_nat (content_length ms) <? 4 * (limit + 1))%Z).
  { intros ms. unfold validate_request_size. rewrite Hl.
    cbv beta iota zeta delta [bind]. unfold estimate_tokens.
    rewrite total_text_length. simpl length. rewrite Nat.add_0_l.
    set (n := Z.of_nat (content_length ms)).
    pose proof (Z.div_mod n 4 ltac:(lia)) as Hd.
    pose proof (Z.mod_pos_bound n 4 ltac:(lia)) as Hm.
    destruct (limit <? n / 4)%Z eqn:E1; destruct (n <? 4 * (limit + 1))%Z eqn:E2;
      try reflexivity.
    - apply Z.ltb_lt in E1, E2. lia.
    - apply Z.ltb_ge in E1, E2. lia. }
  split; [apply Hv|].
  intros message. rewrite !Hv. intros H0.
  assert (H : (Z.of_nat (content_length (message :: messages)) <? 4 * (limit + 1))%Z
              = true) by congruence.
  clear H0. f_equal.
  apply Z.ltb_lt in H. apply Z.ltb_lt.
  change (content_length (message :: messages))
    with (length (get (u "content") [] message) + content_length messages)%nat in H.
  lia.
Qed.

(** With [max_tokens] 2000 the limit is 1400 tokens, and a short request
    is accepted. *)
Lemma validate_request_size_threshold_witness :
  (Z.abs 2000 < 2 ^ 1023)%Z
  /\ exists limit,
       int_of_product 2000 seven_tenths = Ok limit
       /\ limit = 1400%Z
       /\ validate_request_size 2000
            [ [ (u "role", u "system"); (u "content", u "Du bist ein KI-Experte.") ];
              [ (u "role", u "user"); (u "content", u "Bewerte die Machbarkeit:") ] ]
          = Ok true.
Proof.
  assert (H : (Z.abs 2000 < 2 ^ 1023)%Z) by (vm_compute; reflexivity).
  split; [exact H|].
  destruct (@validate_request_size_threshold 2000
              [ [ (u "role", u "system"); (u "content", u "Du bist ein KI-Experte.") ];
                [ (u "role", u "user"); (u "content", u "Bewerte die Machbarkeit:") ] ]
              H)
    as [limit [Hl [Hv _]]].
  exists limit. split; [exact Hl|].
  assert (E : limit = 1400%Z).
  { assert (Hc : int_of_product 2000 seven_tenths = Ok 1400%Z)
      by (vm_compute; reflexivity).
    rewrite Hc in Hl. injection Hl as <-. reflexivity. }
  split; [exact E|]. rewrite Hv, E. vm_compute. reflexivity.
Defined.

(** ** The connection check *)

Lemma starts_with_refl (s : str) : starts_with s s = true.
Proof.
  induction s as [|c s IH]; simpl; [reflexivity|].
  unfold char_eqb. rewrite N.eqb_refl. exact IH.
Qed.

Lemma contains_refl (s : str) : contains s s = true.
Proof.
  destruct s as [|c s]; [reflexivity|].
  change (contains (c :: s) (c :: s))
    with (starts_with (c :: s) (c :: s) || contains (c :: s) s).
  rewrite starts_with_refl. reflexivity.
Qed.

Lemma no_match_textual (name : str) (ids : list json) (x : json) :
  any_model_matches name (x :: ids) = Ok false -> exists s, x = JStr s.
Proof.
  simpl. destruct x; simpl; try discriminate. intros _. eexists. reflexivity.
Qed.

(** X13.  When [check_connection] returns True, the server has answered
    200 and, unless it lists no model at all, the model configured after
    the call is one that the list announces: its name, in lower case, is
    part of a listed id in lower case.  When it returns False the
    configured model is unchanged. *)
Theorem check_connection_model_listed (model_name : str) (reply : py response)
  (result : bool) (model_name' : str) :
  check_connection model_name reply = Ok (result, model_name') ->
  if result
  then exists r ids,
      reply = Ok r /\ status_code r = 200%Z /\ available_models r = Ok ids
      /\ match ids with
         | [] => model_name' = model_name
         | _ => any_model_matches (lower model_name') ids = Ok true
         end
  else model_name' = model_name.
Proof.
  unfold check_connection, try_except.
  destruct reply as [r|e]; cbv beta iota delta [bind].
  2:{ destruct (_ || _)%bool; [|discriminate].
      intros H. injection H as <- <-. reflexivity. }
  destruct (status_code r =? 200)%Z eqn:Hs.
  2:{ intros H. injection H as <- <-. reflexivity. }
  apply Z.eqb_eq in Hs.
  destruct (resp_json r) as [models|e0] eqn:Hj.
  2:{ destruct (_ || _)%bool; [|discriminate].
      intros H. injection H as <- <-. reflexivity. }
  destruct (py_get (u "data") (JList []) models) as [data|e1] eqn:Hd.
  2:{ destruct (_ || _)%bool; [|discriminate].
      intros H. injection H as <- <-. reflexivity. }
  destruct (py_iter data) as [items|e2] eqn:Hi.
  2:{ destruct (_ || _)%bool; [|discriminate].
      intros H. injection H as <- <-. reflexivity. }
  destruct (model_ids items) as [ids|e3] eqn:Hm.
  2:{ destruct (_ || _)%bool; [|discriminate].
      intros H. injection H as <- <-. reflexivity. }
  assert (Ha : available_models r = Ok ids).
  { unfold available_models. rewrite Hj. simpl. rewrite Hd. simpl.
    rewrite Hi. simpl. exact Hm. }
  destruct (any_model_matches (lower model_name) ids) as [matched|e4] eqn:Hany.
  2:{ destruct (_ || _)%bool; [|discriminate].
      intros H. injection H as <- <-. reflexivity. }
  destruct matched; simpl negb; cbv iota.
  - intros H. injection H as <- <-. exists r, ids.
    split; [reflexivity|]. split; [exact Hs|]. split; [exact Ha|].
    destruct ids; [discriminate | exact Hany].
  - destruct ids as [|x ids].
    + intros H. injection H as <- <-. exists r, [].
      split; [reflexivity|]. split; [exact Hs|]. split; [exact Ha | reflexivity].
    + destruct (no_match_textual Hany) as [first ->].
      intros H. injection H as <- <-. exists r, (JStr first :: ids).
      split; [reflexivity|]. split; [exact Hs|]. split; [exact Ha|].
      simpl. rewrite contains_refl. reflexivity.
Qed.

(** The server lists two models and none is the configured one: the check
    returns True and configures the first of the list. *)
Lemma check_connection_model_listed_witness :
  check_connection (u "qwen2.5-7b-instruct")
    (Ok (model_list [u "Llama-3.1-8B"; u "mistral-7b"]))
  = Ok (true, u "Llama-3.1-8B")
  /\ exists r ids,
       Ok (model_list [u "Llama-3.1-8B"; u "mistral-7b"]) = Ok r
       /\ status_code r = 200%Z /\ available_models r = Ok ids
       /\ match ids with
          | [] => u "Llama-3.1-8B" = u "qwen2.5-7b-instruct"
          | _ => any_model_matches (lower (u "Llama-3.1-8B")) ids = Ok true
          end.
Proof.
  assert (H : check_connection (u "qwen2.5-7b-instruct")
                (Ok (model_list [u "Llama-3.1-8B"; u "mistral-7b"]))
              = Ok (true, u "Llama-3.1-8B")) by (vm_compute; reflexivity).
  split; [exact H|].
  exact (@check_connection_model_listed _ _ true _ H).
Defined.

End ClientProps.

(* ================================================================== *)
(** * Properties of promt_templates.py *)
(* ================================================================== *)

Module TemplateProps.

Import PromptTemplates PyFacts Spec Props ParserProps.

(** X14.  [validate_template_data] judges the data valid exactly when the
    template is registered and the company name, the branch and the
    description of the use case are present and not blank.  A valid result
    has no other entry; an invalid one always carries an error message,
    which [analyze_use_case] reads. *)
Theorem validate_template_data_spec (templates : list (str * PromptTemplate))
  (template_name : str) (company_profile : CompanyProfile) (use_case : UseCase) :
  let v := validate_template_data templates template_name company_profile use_case in
  tv_valid v
  = is_some (get_template templates template_name)
    && filled (unternehmensname company_profile)
    && filled (branche company_profile)
    && filled (beschreibung use_case)
  /\ if tv_valid v
     then tv_error v = None /\ tv_missing_fields v = None
     else exists message, tv_error v = Some message /\ message <> [].
Proof.
  cbv zeta. unfold validate_template_data, filled.
  destruct (get_template templates template_name) as [t|]; simpl is_some.
  2:{ split; [reflexivity|]. simpl. eexists. split; [reflexivity|]. discriminate. }
  simpl fold_left. unfold check_field. simpl snd. simpl fst.
  rewrite !strip_nil.
  destruct (forallb is_space (text_or (unternehmensname company_profile) []));
  destruct (forallb is_space (text_or (branche company_profile) []));
  destruct (forallb is_space (text_or (beschreibung use_case) []));
    (split; [reflexivity|]); simpl;
    try (split; reflexivity);
    (eexists; split; [reflexivity | discriminate]).
Qed.

(** X15.  After [create_custom_template] the manager returns the new
    template under its name, every other name is answered as before, and
    the list of templates keeps its order: the name is added at the end,
    or, when a template of this name existed (a built-in one included),
    it is replaced in place.  Absent keyword arguments default to the
    format text, the temperature 0.7 and 2000 tokens. *)
Theorem custom_template_registered (templates : list (str * PromptTemplate))
  (name : str) (expected_format : option str) (temperature : option Q)
  (max_tokens : option Z) :
  let created :=
    create_custom_template templates name expected_format temperature max_tokens in
  get_template (snd created) name = Some (fst created)
  /\ (forall other, other <> name ->
      get_template (snd created) other = get_template templates other)
  /\ list_templates (snd created)
     = (if has_key name templates then list_templates templates
        else list_templates templates ++ [name])
  /\ fst created
     = mkTemplate name (kwarg expected_format (u "text"))
                  (kwarg temperature (7 # 10)) (kwarg max_tokens 2000%Z).
Proof.
  cbv zeta. unfold create_custom_template, get_template, list_templates. simpl.
  split; [apply lookup_set_item_same|].
  split; [intros other Hne; apply lookup_set_item_other; exact Hne|].
  split; [apply keys_set_item | reflexivity].
Qed.

(** A custom template named quick_feasibility replaces the built-in one in
    place, and the built-in analysis template is answered as before. *)
Lemma custom_template_registered_witness :
  let created :=
    create_custom_template _initialize_templates (u "quick_feasibility")
      None None None in
  get_template (snd created) (u "quick_feasibility")
  = Some (mkTemplate (u "quick_feasibility") (u "text") (7 # 10) 2000%Z)
  /\ get_template (snd created) (u "use_case_analysis")
     = get_template _initialize_templates (u "use_case_analysis")
  /\ list_templates (snd created) = list_templates _initialize_templates.
Proof.
  cbv zeta.
  destruct (@custom_template_registered _initialize_templates
              (u "quick_feasibility") None None None)
    as [Hget [Hother [Hlist Hnew]]].
  split; [rewrite Hget, Hnew; reflexivity|].
  split; [apply Hother; vm_compute; discriminate|].
  rewrite Hlist. reflexivity.
Defined.

End TemplateProps.

(* ================================================================== *)
(** * Properties of config.py *)
(* ================================================================== *)

Module ConfigProps.

Import Config PyFacts Spec Props.

(** ** The check of the settings *)

Ltac settings_cases settings :=
  destruct (starts_with (u "http://") (base_url settings)
            || starts_with (u "https://") (base_url settings));
  destruct (Qle_bool 0 (temperature settings) && Qle_bool (temperature settings) 2);
  destruct (max_tokens settings <? 100)%Z;
  destruct (Qle_bool 0 (top_p settings) && Qle_bool (top_p settings) 1).

(** The flag follows the list of errors. *)
Lemma settings_valid_no_error (path_exists : str -> py bool)
  (path_text : str -> str) (settings : LMStudioSettings) (v : ConfigValidation) :
  validate_lm_studio_config path_exists path_text settings = Ok v ->
  cv_valid v = is_nil (cv_errors v).
Proof.
  unfold validate_lm_studio_config.
  destruct (path_exists (model_path settings)) as [present|e];
    cbv beta iota delta [bind]; [|discriminate].
  destruct present; settings_cases settings;
    intros H; injection H as <-; reflexivity.
Qed.

(** X16.  When the look-up of the model path answers,
    [validate_lm_studio_config] returns, and it judges the settings valid
    exactly when it records no error, which is exactly when the URL begins
    with http:// or https://, the temperature lies in [0, 2], [max_tokens]
    is at least 100 and [top_p] lies in [0, 1]; a model path that does not
    exist gives a warning and never makes the settings invalid.  When the
    look-up raises, the check raises the same exception. *)
Theorem config_valid_iff_no_error (path_exists : str -> py bool)
  (path_text : str -> str) (settings : LMStudioSettings) :
  match path_exists (model_path settings) with
  | Ok present =>
    exists v,
      validate_lm_studio_config path_exists path_text settings = Ok v
      /\ cv_valid v = is_nil (cv_errors v)
      /\ cv_valid v
         = url_ok settings && temperature_ok settings && tokens_ok settings
           && top_p_ok settings
      /\ cv_warnings v
         = if present then []
           else [u "Model-Pfad existiert nicht: " ++ path_text (model_path settings)]
  | Raise e => validate_lm_studio_config path_exists path_text settings = Raise e
  end.
Proof.
  unfold validate_lm_studio_config, url_ok, temperature_ok, tokens_ok, top_p_ok.
  rewrite (Z.leb_antisym (max_tokens settings) 100).
  destruct (path_exists (model_path settings)) as [present|e];
    cbv beta iota delta [bind]; [|reflexivity].
  eexists. split; [reflexivity|].
  destruct present; settings_cases settings;
    split; try reflexivity; split; reflexivity.
Qed.

(** ** The priority of a recommendation *)

(** X17.  The priority score always lies between 1 and 10, whatever the
    three words; a higher opportunity never lowers it, and a higher risk or
    a higher effort never raises it. *)
Theorem priority_score_monotone (risk opportunity effort : str) :
  (1 <= calculate_priority_score risk opportunity effort <= 10)%Z
  /\ (forall opportunity',
        (level opportunity <= level opportunity')%Z ->
        (calculate_priority_score risk opportunity effort
         <= calculate_priority_score risk opportunity' effort)%Z)
  /\ (forall risk',
        (level risk <= level risk')%Z ->
        (calculate_priority_score risk' opportunity effort
         <= calculate_priority_score risk opportunity effort)%Z)
  /\ (forall effort',
        (level effort <= level effort')%Z ->
        (calculate_priority_score risk opportunity effort'
         <= calculate_priority_score risk opportunity effort)%Z).
Proof.
  unfold calculate_priority_score, level.
  split; [lia|]. split; [|split]; intros x Hx; lia.
Qed.

(** A high opportunity scores above a low one, a high risk below a low
    one, and the best and the worst cases meet the two bounds. *)
Lemma priority_score_monotone_witness :
  (calculate_priority_score (u "mittel") (u "gering") (u "mittel")
   <= calculate_priority_score (u "mittel") (u "Hoch") (u "mittel"))%Z
  /\ (calculate_priority_score (u "sehr hoch") (u "hoch") (u "mittel")
      <= calculate_priority_score (u "gering") (u "hoch") (u "mittel"))%Z
  /\ calculate_priority_score (u "gering") (u "sehr hoch") (u "gering") = 10%Z
  /\ calculate_priority_score (u "sehr hoch") (u "gering") (u "sehr hoch") = 1%Z.
Proof.
  destruct (priority_score_monotone (u "mittel") (u "gering") (u "mittel"))
    as [_ [Hopp _]].
  destruct (priority_score_monotone (u "gering") (u "hoch") (u "mittel"))
    as [_ [_ [Hrisk _]]].
  split; [apply Hopp; vm_compute; discriminate|].
  split; [apply Hrisk; vm_compute; discriminate|].
  split; vm_compute; reflexivity.
Defined.

(** ** The effort of an implementation *)

Lemma add_efforts_uniform (score : Z) (steps : list json) (total_effort count : Z) :
  Forall (step_of_level score) steps ->
  add_efforts steps total_effort count
  = Ok ((total_effort + score * Z.of_nat (length steps))%Z,
        (count + Z.of_nat (length steps))%Z).
Proof.
  revert total_effort count.
  induction steps as [|step steps IH]; intros t c H.
  - simpl. apply f_equal, f_equal2; lia.
  - inversion H as [|? ? (d & word & -> & Hw & Hs) Hrest]; subst.
    cbn [add_efforts]. unfold LMStudioClient.py_get. rewrite Hw.
    cbv beta iota delta [bind py_lower]. rewrite Hs.
    rewrite (IH _ _ Hrest). cbn [length]. rewrite Nat2Z.inj_succ.
    apply f_equal, f_equal2; lia.
Qed.

(** X18.  When every step is a mapping whose effort, in lower case, is
    the word of one and the same level (a step without effort counts as
    mittel), the estimate for a list of at least one step is that level:
    Gering, Mittel, Hoch or Sehr hoch. *)
Theorem uniform_effort_estimate (score : Z) (steps : list json) :
  steps <> [] ->
  Forall (step_of_level score) steps ->
  estimate_implementation_effort steps = Ok (effort_label score).
Proof.
  intros Hne Hall. unfold estimate_implementation_effort.
  destruct steps as [|step steps]; [congruence|]. simpl is_nil. cbv iota.
  rewrite (add_efforts_uniform 0 0 Hall). cbv beta iota zeta delta [bind].
  set (n := Z.of_nat (length (step :: steps))).
  assert (Hn : (0 < n)%Z) by (subst n; simpl length; lia).
  replace (0 + n =? 0)%Z with false by (symmetry; apply Z.eqb_neq; lia).
  assert (Hscore : (score = 1 \/ score = 2 \/ score = 3 \/ score = 4)%Z).
  { inversion Hall as [|? ? (d & word & _ & _ & Hs) _]; subst.
    unfold level_mapping in Hs. simpl in Hs.
    repeat match type of Hs with
    | (if ?b then _ else _) = _ => destruct b; [injection Hs as <-; tauto|]
    end. discriminate. }
  assert (Havg : inject_Z (0 + score * n) / inject_Z (0 + n) == inject_Z score).
  { rewrite !Z.add_0_l, inject_Z_mult. field.
    intros H. apply (Qlt_irrefl 0). rewrite <- H at 2.
    rewrite <- (Zlt_Qlt 0). exact Hn. }
  assert (Hle : forall q, Qle_bool (inject_Z (0 + score * n) / inject_Z (0 + n)) q
                          = Qle_bool (inject_Z score) q).
  { intros q. destruct (Qle_bool (inject_Z score) q) eqn:E.
    - apply Qle_bool_iff. rewrite Havg. apply Qle_bool_iff. exact E.
    - destruct (Qle_bool (inject_Z (0 + score * n) / inject_Z (0 + n)) q) eqn:E';
        [|reflexivity].
      apply Qle_bool_iff in E'. rewrite Havg in E'. apply Qle_bool_iff in E'.
      congruence. }
  rewrite !Hle.
  destruct Hscore as [-> | [-> | [-> | ->]]]; reflexivity.
Qed.

(** Three steps of a high effort, written in three ways, are estimated as
    a high effort. *)
Lemma uniform_effort_estimate_witness :
  estimate_implementation_effort
    [ JDict [ (u "titel", JStr (u "Daten sammeln")); (u "aufwand", JStr (u "hoch")) ];
      JDict [ (u "aufwand", JStr (u "Hoch")) ];
      JDict [ (u "aufwand", JStr (u "HOCH")); (u "kosten", JStr (u "5000")) ] ]
  = Ok (u "Hoch").
Proof.
  apply (@uniform_effort_estimate 3%Z); [discriminate|].
  apply Forall_cons;
    [exists [ (u "titel", JStr (u "Daten sammeln")); (u "aufwand", JStr (u "hoch")) ],
            (u "hoch");
     split; [reflexivity | split; vm_compute; reflexivity]|].
  apply Forall_cons;
    [exists [ (u "aufwand", JStr (u "Hoch")) ], (u "Hoch");
     split; [reflexivity | split; vm_compute; reflexivity]|].
  apply Forall_cons;
    [exists [ (u "aufwand", JStr (u "HOCH")); (u "kosten", JStr (u "5000")) ],
            (u "HOCH");
     split; [reflexivity | split; vm_compute; reflexivity]|].
  apply Forall_nil.
Defined.

End ConfigProps.

(* ================================================================== *)
(** * Properties of analysis_engine.py *)
(* ================================================================== *)

Module EngineProps.

Import ResponseParser LMStudioClient PromptTemplates AnalysisEngine.
Import PyFacts Spec Props ParserFacts EngineFacts ConfigProps.

(** ** The prerequisites *)

(** X19.  [check_prerequisites] raises nothing, and the status it returns
    is ready exactly when it lists no error, which is exactly when the
    connection check returned True, the check of the settings returned
    and found them valid, and the look-up of the folder of the analyses
    returned; a check that raises leaves the status not ready.  Whenever
    the connection is up the model is reported as available. *)
Theorem prerequisites_ready (path_exists : str -> py bool) (path_text : str -> str)
  (settings : Config.LMStudioSettings) (connection folder_exists : py bool) :
  let validation := Config.validate_lm_studio_config path_exists path_text settings in
  let status := check_prerequisites connection validation folder_exists in
  ready status = is_nil (p_errors status)
  /\ ready status
     = match connection, validation, folder_exists with
       | Ok true, Ok v, Ok _ => Config.cv_valid v
       | _, _, _ => false
       end
  /\ model_available status = lm_studio_connection status.
Proof.
  cbv zeta.
  pose proof (@settings_valid_no_error path_exists path_text settings) as Hv.
  destruct (Config.validate_lm_studio_config path_exists path_text settings)
    as [[valid errs warns]|e].
  - specialize (Hv _ eq_refl). simpl in Hv. unfold check_prerequisites.
    destruct connection as [[|]|e]; simpl; destruct valid; destruct errs;
      try discriminate; destruct folder_exists as [[|]|x]; simpl;
      try (destruct errs); repeat split; reflexivity.
  - clear Hv. unfold check_prerequisites.
    destruct connection as [[|]|x]; simpl; repeat split; reflexivity.
Qed.

(** ** Several use cases *)

Section Scenarios.

Context {L : Library}.

Lemma analyze_each_spec (worlds : nat -> world) (use_cases : list UseCase)
  (template_name : str) (i : nat) (analyses : list AIAnalysis) :
  analyze_each worlds use_cases template_name i analyses
  = analyses ++ flat_map (analysed_at worlds template_name) (seq i (length use_cases)).
Proof.
  revert i analyses. induction use_cases as [|c cs IH]; intros i analyses; simpl.
  - now rewrite app_nil_r.
  - unfold analysed_at at 1.
    destruct (analyze_use_case (worlds i) template_name); rewrite IH.
    + now rewrite <- app_assoc.
    + reflexivity.
Qed.

(** X20.  [analyze_multiple_scenarios] raises nothing: it returns the
    analyses of the use cases whose analysis succeeds, in the order of the
    use cases, and leaves the others out; so it never returns more
    analyses than there are use cases. *)
Theorem multiple_scenarios_in_order (worlds : nat -> world)
  (use_cases : list UseCase) (template_name : str) :
  analyze_multiple_scenarios worlds use_cases template_name
  = flat_map (analysed_at worlds template_name) (seq 0 (length use_cases))
  /\ (length (analyze_multiple_scenarios worlds use_cases template_name)
      <= length use_cases)%nat.
Proof.
  unfold analyze_multiple_scenarios. rewrite analyze_each_spec. simpl app.
  split; [reflexivity|].
  generalize 0%nat. induction (length use_cases) as [|n IH]; intros i; simpl.
  - apply le_n.
  - rewrite length_app. specialize (IH (S i)).
    unfold analysed_at at 1.
    destruct (analyze_use_case (worlds i) template_name); simpl; lia.
Qed.

(** ** The messages of a failed analysis *)

(** X21.  When the check of the data fails, [analyze_use_case] raises the
    engine error whose message wraps the reason twice: the error raised
    for the invalid data is caught by the handler of the same function. *)
Theorem invalid_data_message (w : world) (template_name reason : str) :
  w_validation w = Ok (false, reason) ->
  analyze_use_case w template_name
  = Raise (Exn AnalysisEngineError
             (u "Analyse fehlgeschlagen: Datenvalidierung fehlgeschlagen: " ++ reason)).
Proof.
  intros Hv. unfold analyze_use_case, analyze_body. rewrite Hv.
  vm_compute. reflexivity.
Qed.

Lemma strip_blank (s : str) : forallb is_space s = true -> strip s = [].
Proof.
  intros H. rewrite <- strip_nil in H. destruct (strip s); [reflexivity | discriminate].
Qed.

(** X22.  When the data is valid and the server answers with a text that
    is white space only, the text passes the check of the client for an
    empty answer, and [analyze_use_case] raises the engine error of the
    empty reply raised by the parser. *)
Theorem blank_reply_message (w : world) (template_name reason : str)
  (messages : list (str * str)) (template : PromptTemplate) (response : json)
  (raw : str) :
  w_validation w = Ok (true, reason) ->
  w_messages w = Ok messages ->
  w_template w = Some template ->
  snd (generate_completion (w_config w) (w_server w)) = Ok response ->
  extract_response_text response = Ok raw ->
  forallb is_space raw = true ->
  analyze_use_case w template_name
  = Raise (Exn AnalysisEngineError
             (u "Analyse fehlgeschlagen: Leere Response erhalten")).
Proof.
  intros Hv Hm Ht Hg He Hraw. unfold analyze_use_case, analyze_body.
  rewrite Hv. cbv beta iota delta [bind fst negb]. rewrite Hm, Ht, Hg, He.
  rewrite (parse_response_blank _ Hraw). vm_compute. reflexivity.
Qed.

End Scenarios.

(** A profile without branch: the analysis fails before any request, with
    the list of the missing fields in its message. *)
Lemma invalid_data_message_witness :
  analyze_use_case (L := scenario_library)
    (world_checked profile_without_branch (use_case_described (u "AI-assisted quoting")))
    (u "quick_feasibility")
  = Raise (Exn AnalysisEngineError
             (u "Analyse fehlgeschlagen: Datenvalidierung fehlgeschlagen: "
              ++ u "Fehlende Pflichtfelder: Unternehmen.branche")).
Proof.
  apply (@invalid_data_message scenario_library). vm_compute. reflexivity.
Defined.

(** The server answers with three spaces. *)
Lemma blank_reply_message_witness :
  (exists body, resp_json (completion (u "   ")) = Ok body
                /\ extract_response_text body = Ok [])
  /\ analyze_use_case (L := scenario_library) (world_replying (u "   "))
       (u "quick_feasibility")
     = Raise (Exn AnalysisEngineError
                (u "Analyse fehlgeschlagen: Leere Response erhalten")).
Proof.
  split; [eexists; split; [reflexivity | vm_compute; reflexivity]|].
  eapply (@blank_reply_message scenario_library (world_replying (u "   "))).
  - reflexivity.
  - reflexivity.
  - reflexivity.
  - vm_compute. reflexivity.
  - vm_compute. reflexivity.
  - reflexivity.
Defined.

(** ** The duration of a plan *)

Section Durations.

Context {F : Floats}.

Lemma sum_whole_weeks (phases : list json) (weeks : list Z) (total : Z) :
  List.map whole_weeks phases = List.map Some weeks ->
  sum_durations phases (NInt total) = Ok (NInt (total + fold_right Z.add 0%Z weeks)).
Proof.
  revert weeks total. induction phases as [|phase phases IH]; intros weeks total H.
  - destruct weeks; [|discriminate]. simpl. now rewrite Z.add_0_r.
  - destruct weeks as [|z weeks]; [discriminate|].
    simpl in H. injection H as Hz Hrest.
    cbn [sum_durations]. unfold duration_step.
    destruct phase as [| | | | | |d]; try discriminate.
    unfold py_get. cbv beta iota delta [bind]. simpl in Hz.
    destruct (get (u "dauer_wochen") (JInt 0) d); try discriminate;
      injection Hz as <-; cbn [add_number]; cbv beta iota delta [bind];
      rewrite (IH _ _ Hrest); cbn [fold_right]; apply f_equal, f_equal; lia.
Qed.

(** X23.  For a list of phases that are mappings whose durations are
    whole numbers (an integer, or a truth value, which counts as 1 or 0),
    [_calculate_total_duration] returns their sum; a phase without
    duration, or with a duration that is neither a number nor a text,
    adds nothing. *)
Theorem total_duration_whole_weeks (phases : list json) (weeks : list Z) :
  List.map whole_weeks phases = List.map Some weeks ->
  _calculate_total_duration (JList phases) = Ok (fold_right Z.add 0%Z weeks).
Proof.
  intros H. unfold _calculate_total_duration. simpl py_iter.
  cbv beta iota delta [bind]. rewrite (sum_whole_weeks 0 H). reflexivity.
Qed.

End Durations.

(** Three phases of 2 and 6 weeks and of no stated duration, and a
    fourth whose duration is [null]: 8 weeks. *)
Lemma total_duration_whole_weeks_witness :
  _calculate_total_duration (F := exact_floats)
    (JList [ JDict [ (u "name", JStr (u "Vorbereitung")); (u "dauer_wochen", JInt 2) ];
             JDict [ (u "name", JStr (u "Entwicklung")); (u "dauer_wochen", JInt 6) ];
             JDict [ (u "name", JStr (u "Rollout")) ];
             JDict [ (u "dauer_wochen", JNull) ] ])
  = Ok 8%Z.
Proof.
  apply (@total_duration_whole_weeks exact_floats _ [2; 6; 0; 0]%Z).
  vm_compute. reflexivity.
Defined.

(** ** The roadmap *)

Section Roadmap.

Context {L : Library} {F : Floats}.


End Roadmap.

(** ** The recommendation of a comparison *)

Lemma filter_length_perm {A : Type} (f : A -> bool) (l l' : list A) :
  Permutation l l' -> length (filter f l) = length (filter f l').
Proof.
  induction 1 as [|x l l' _ IH|x y l|l l' l'' _ IH1 _ IH2]; simpl.
  - reflexivity.
  - destruct (f x); simpl; congruence.
  - destruct (f x), (f y); reflexivity.
  - congruence.
Qed.

Lemma feasible_exists (xs : list record) :
  (0 < length (filter is_feasible xs))%nat ->
  exists x, In x xs /\ is_feasible x = true.
Proof.
  destruct (filter is_feasible xs) as [|x rest] eqn:Hf; simpl; [lia|].
  intros _. exists x. apply filter_In. rewrite Hf. now left.
Qed.

(** X25.  In every comparison that [compare_use_cases] returns, the
    number of feasible use cases is the number of feasible entries of the
    ranking, and when at least one use case is feasible the recommended
    one, the first of the ranking, is feasible. *)
Theorem recommendation_feasible {L : Library} (worlds : nat -> world)
  (use_cases : list UseCase) (c : Comparison) :
  compare_use_cases worlds use_cases = Ok c ->
  feasible_count c = length (filter is_feasible (ranked_results c))
  /\ ((0 < feasible_count c)%nat ->
      exists top, recommendation c = Some top /\ is_feasible top = true).
Proof.
  unfold compare_use_cases.
  destruct (length use_cases <? 2)%nat; [discriminate|].
  destruct (probe_all worlds use_cases 0) as [results|e]; [|discriminate].
  cbv beta iota delta [bind].
  destruct (forallb textual_effort results) eqn:Ht.
  2:{ destruct (decorate_not_textual Ht) as [msg Hmsg].
      unfold sorted_by_key. rewrite Hmsg. discriminate. }
  destruct (sorted_by_key_textual Ht) as [ranked [Hr [Hperm [_ Htop]]]].
  rewrite Hr. intros H. injection H as <-. simpl.
  split; [symmetry; apply filter_length_perm; exact Hperm|].
  intros Hpos. destruct (feasible_exists Hpos) as [x [Hx Hfx]].
  destruct ranked as [|top rest].
  { apply Permutation_nil in Hperm. subst results. destruct Hx. }
  exists top. split; [reflexivity|].
  specialize (Htop top eq_refl x Hx).
  unfold key_of, key_le in Htop. unfold is_feasible in *.
  destruct Htop as [[Hf _] | [Hf _]]; congruence.
Qed.

(** The comparison of the scenario: one use case is feasible, and it is
    the recommended one. *)
Lemma recommendation_feasible_witness :
  exists c,
    compare_use_cases (L := probe_library) worlds_of_scenario two_use_cases = Ok c
    /\ feasible_count c = 1%nat
    /\ exists top, recommendation c = Some top /\ is_feasible top = true.
Proof.
  eassert (Hc : compare_use_cases (L := probe_library) worlds_of_scenario
                  two_use_cases = Ok _) by (vm_compute; reflexivity).
  eexists. split; [exact Hc|].
  destruct (recommendation_feasible Hc) as [_ Htop].
  split; [reflexivity|]. apply Htop. simpl. apply le_n.
Defined.

End EngineProps.
